(** * movie_recommender: the query matching and ranking engine

    A shallow embedding of [sanitize_query] and [find_matches] from
    [movie_recommender.py], with the Python primitives they rely on.

    Conventions.
    - A Python [str] is a [string] whose characters are the code points
      0..255 (Latin-1); the character classes below are Python's on
      that range.
    - Python [int] and [float] values are exact rationals ([Z], [Q]); an
      [int] compared with a [float] is compared as a rational, as Python
      does.
    - A call that may raise returns a [result]. *)

From Stdlib Require Import ZArith QArith Qround List String Ascii Bool Lia Lqa.
From Stdlib Require Import Permutation Sorted.
From Stdlib Require OrdersEx.
Import ListNotations.
Local Open Scope string_scope.
Local Open Scope Z_scope.

(** ** Exceptions *)

Inductive exn : Type := TypeError | ValueError | AttributeError | IndexError.

Inductive result (A : Type) : Type :=
  | Ok (a : A)
  | Raise (e : exn).
Arguments Ok {A} a.
Arguments Raise {A} e.

Definition bind {A B : Type} (r : result A) (k : A -> result B) : result B :=
  match r with
  | Ok a => k a
  | Raise e => Raise e
  end.

Notation "x <- r ;; k" := (bind r (fun x => k))
  (at level 61, r at next level, right associativity).

(** A dynamically typed argument: [None], a [str], or a number. *)
Inductive pyval : Type :=
  | PyNone
  | PyStr (s : string)
  | PyNum (q : Q).

Definition opt_str (o : option string) : pyval :=
  match o with
  | None => PyNone
  | Some s => PyStr s
  end.

(** ** Python string primitives *)

Module PyStr.

Definition code (c : ascii) : N := N_of_ascii c.

Definition between (lo hi : N) (c : ascii) : bool :=
    ((lo <=? code c) && (code c <=? hi))%N.

  (** The class [[\x00-\x1f\x7f-\x9f]] of [sanitize_query]. *)
Definition is_control (c : ascii) : bool :=
    between 0 31 c || between 127 159 c.

  (** Python's whitespace ([str.strip], [str.split], [\s]). *)
Definition is_space (c : ascii) : bool :=
    between 9 13 c || between 28 32 c || (code c =? 133)%N || (code c =? 160)%N.

  (** [str.isdigit] on one character: decimal digits and superscripts. *)
Definition is_digit_char (c : ascii) : bool :=
    between 48 57 c || (code c =? 178)%N || (code c =? 179)%N || (code c =? 185)%N.

  (** The characters [int] accepts as digits. *)
Definition is_decimal_char (c : ascii) : bool := between 48 57 c.

Definition lower_char (c : ascii) : ascii :=
    if between 65 90 c || (between 192 222 c && negb (code c =? 215)%N)
    then ascii_of_N (code c + 32)
    else c.

Fixpoint lower (s : string) : string :=
    match s with
    | EmptyString => EmptyString
    | String c r => String (lower_char c) (lower r)
    end.

Fixpoint forallb (p : ascii -> bool) (s : string) : bool :=
    match s with
    | EmptyString => true
    | String c r => p c && forallb p r
    end.

Fixpoint filter (p : ascii -> bool) (s : string) : string :=
    match s with
    | EmptyString => EmptyString
    | String c r => if p c then String c (filter p r) else filter p r
    end.

Definition is_empty (s : string) : bool :=
    match s with
    | EmptyString => true
    | String _ _ => false
    end.

  (** [s.isdigit()] *)
Definition isdigit (s : string) : bool :=
    negb (is_empty s) && forallb is_digit_char s.

Fixpoint int_digits (acc : Z) (s : string) : Z :=
    match s with
    | EmptyString => acc
    | String c r => int_digits (10 * acc + (Z.of_N (code c) - 48)) r
    end.

  (** [int(s)] for a string of digits; a superscript digit is refused. *)
Definition int (s : string) : result Z :=
    if negb (is_empty s) && forallb is_decimal_char s
    then Ok (int_digits 0 s)
    else Raise ValueError.

  (** [s.startswith(t)] *)
Fixpoint startswith (s t : string) : bool :=
    match t, s with
    | EmptyString, _ => true
    | String a t', String b s' => Ascii.eqb a b && startswith s' t'
    | String _ _, EmptyString => false
    end.

  (** [t in s] *)
Fixpoint contains (s t : string) : bool :=
    startswith s t ||
    match s with
    | EmptyString => false
    | String _ s' => contains s' t
    end.

Fixpoint lstrip (s : string) : string :=
    match s with
    | EmptyString => EmptyString
    | String c r => if is_space c then lstrip r else s
    end.

Fixpoint rstrip (s : string) : string :=
    match s with
    | EmptyString => EmptyString
    | String c r =>
        let r' := rstrip r in
        if is_space c && is_empty r' then EmptyString else String c r'
    end.

  (** [s.strip()] *)
Definition strip (s : string) : string := rstrip (lstrip s).

  (** [s[:n]] for [n >= 0] *)
Fixpoint take (n : nat) (s : string) : string :=
    match n, s with
    | O, _ => EmptyString
    | S _, EmptyString => EmptyString
    | S n', String c r => String c (take n' r)
    end.

Definition push (c : ascii) (pieces : list string) : list string :=
    match pieces with
    | [] => [String c EmptyString]
    | p :: ps => String c p :: ps
    end.

  (** [re.split(r'\s+|/|,', s)]: the pieces between the separators, empty
      pieces included; [in_ws] says the previous character belongs to a
      whitespace run that is still being matched. *)
Fixpoint re_split_from (in_ws : bool) (s : string) : list string :=
    match s with
    | EmptyString => [EmptyString]
    | String c r =>
        if is_space c then
          if in_ws then re_split_from true r
          else EmptyString :: re_split_from true r
        else if Ascii.eqb c "/" || Ascii.eqb c "," then
          EmptyString :: re_split_from false r
        else push c (re_split_from false r)
    end.

Definition re_split (s : string) : list string := re_split_from false s.

  (** [s.split()]: the maximal runs of non-whitespace characters. *)
Fixpoint split_from (s : string) : list string :=
    match s with
    | EmptyString => [EmptyString]
    | String c r =>
        if is_space c then EmptyString :: split_from r
        else push c (split_from r)
    end.

Definition split (s : string) : list string :=
    List.filter (fun p => negb (is_empty p)) (split_from s).

End PyStr.

(** ** Numbers and sort keys *)

(** [int(x)] of a number: truncation towards zero. *)
Definition py_int (q : Q) : Z := Z.quot (Qnum q) (Zpos (Qden q)).

(** A sort key is a 3-tuple of numbers, compared as Python compares
    tuples: by the first component that differs. *)
Definition key3 : Type := (Q * Q * Q)%type.

Definition key3_compare (a b : key3) : comparison :=
  let '(a1, a2, a3) := a in
  let '(b1, b2, b3) := b in
  match a1 ?= b1 with
  | Eq => match a2 ?= b2 with
          | Eq => a3 ?= b3
          | c => c
          end
  | c => c
  end%Q.

Definition key3_ltb (a b : key3) : bool :=
  match key3_compare a b with
  | Lt => true
  | _ => false
  end.

Definition key2 (a b : Q) : key3 := (a, b, 0%Q).

(** ** [sorted(..., reverse=True)] and [list.sort(reverse=True)]

    Python's sort is stable, also with [reverse=True]: elements with equal
    keys keep their original relative order. *)

Section Sorting.
Context {A : Type}.
Variable key : A -> key3.

Fixpoint insert_desc (x : A) (l : list A) : list A :=
    match l with
    | [] => [x]
    | y :: l' =>
        if key3_ltb (key x) (key y) then y :: insert_desc x l'
        else x :: l
    end.

Fixpoint sorted_desc (l : list A) : list A :=
    match l with
    | [] => []
    | x :: l' => insert_desc x (sorted_desc l')
    end.
End Sorting.

(** [l[:n]] for any integer [n]. *)
Definition slice_to {A : Type} (n : Z) (l : list A) : list A :=
  if 0 <=? n then firstn (Z.to_nat n) l
  else firstn (Z.to_nat (Z.of_nat (List.length l) + n)) l.

(** ** Records *)

Module Movie.
Record t : Type := mk {
    name : string;
    year : Z;
    category : string;
    genre : string;
    box_office_millions : Q;
    rating : Q;
    _search_text : option string
  }.
End Movie.

(** The identity key [(m.get('name'), m.get('year'))]. *)
Definition ident : Type := (string * Z)%type.

Definition ident_of (m : Movie.t) : ident := (Movie.name m, Movie.year m).

Definition ident_eqb (a b : ident) : bool :=
  String.eqb (fst a) (fst b) && Z.eqb (snd a) (snd b).

(** ** A [dict] keyed by identity, in insertion order *)

Module PyDict.
Section Dict.
Context {V : Type}.

Definition t : Type := list (ident * V).

Fixpoint get (d : t) (k : ident) : option V :=
      match d with
      | [] => None
      | (k', v) :: d' => if ident_eqb k k' then Some v else get d' k
      end.

    (** [d[k] = v]: an existing key keeps its position. *)
Fixpoint set (d : t) (k : ident) (v : V) : t :=
      match d with
      | [] => [(k, v)]
      | (k', v') :: d' =>
          if ident_eqb k k' then (k', v) :: d' else (k', v') :: set d' k v
      end.

Definition values (d : t) : list V := map snd d.
Definition keys (d : t) : list ident := map fst d.
End Dict.
Arguments t V : clear implicits.
End PyDict.

(** ** Dynamic typing of the arguments *)

(** Truth value of an argument in [if x:]. *)
Definition truthy (v : pyval) : bool :=
  match v with
  | PyNone => false
  | PyStr s => negb (PyStr.is_empty s)
  | PyNum q => negb (Qeq_bool q 0)
  end.

Definition is_not_None (v : pyval) : bool :=
  match v with
  | PyNone => false
  | _ => true
  end.

(** [v.lower()]: only a [str] has the method. *)
Definition py_lower (v : pyval) : result string :=
  match v with
  | PyStr s => Ok (PyStr.lower s)
  | _ => Raise AttributeError
  end.

(** [x >= v] and [x <= v] for a number [x]: ordering a number against a
    value that is not a number raises. *)
Definition py_ge (x : Q) (v : pyval) : result bool :=
  match v with
  | PyNum q => Ok (Qle_bool q x)
  | _ => Raise TypeError
  end.

Definition py_le (x : Q) (v : pyval) : result bool :=
  match v with
  | PyNum q => Ok (Qle_bool x q)
  | _ => Raise TypeError
  end.

(** [x == v] for a number [x]: never raises. *)
Definition py_eq (x : Q) (v : pyval) : bool :=
  match v with
  | PyNum q => Qeq_bool x q
  | _ => false
  end.

(** A list comprehension [[x for x in l if p(x)]] whose test may raise. *)
Fixpoint filter_r {A : Type} (p : A -> result bool) (l : list A) : result (list A) :=
  match l with
  | [] => Ok []
  | x :: l' =>
      b <- p x ;;
      r <- filter_r p l' ;;
      Ok (if b then x :: r else r)
  end.

(** ** [sanitize_query] *)

Definition str_slice_to (n : Z) (s : string) : string :=
  if 0 <=? n then PyStr.take (Z.to_nat n) s
  else PyStr.take (Z.to_nat (Z.of_nat (String.length s) + n)) s.

Definition sanitize_query (q : pyval) (max_length : Z) : result string :=
  match q with
  | PyStr s =>
      let q := PyStr.strip (PyStr.filter (fun c => negb (PyStr.is_control c)) s) in
      Ok (if max_length <? Z.of_nat (String.length q)
          then str_slice_to max_length q
          else q)
  | _ => Raise TypeError
  end.

(** ** [find_matches] *)

Definition DEFAULT_FUZZY_THRESHOLD : Z := 70.
Definition FUZZY_MAX_CANDIDATES : nat := 250.

(** The default of the parameter [max_results]. *)
Definition DEFAULT_MAX_RESULTS : option Z := Some 50.

(** The structured filters, in the order the function applies them. *)
Definition filter_genre (genre : pyval) (movie_list : list Movie.t)
  : result (list Movie.t) :=
  if truthy genre then
    genre_lower <- py_lower genre ;;
    Ok (filter (fun m =>
                  PyStr.contains (PyStr.lower (Movie.genre m)) genre_lower
                  || PyStr.contains (PyStr.lower (Movie.category m)) genre_lower)
               movie_list)
  else Ok movie_list.

Definition filter_category (category : pyval) (movie_list : list Movie.t)
  : result (list Movie.t) :=
  if truthy category then
    cat_lower <- py_lower category ;;
    Ok (filter (fun m =>
                  PyStr.contains (PyStr.lower (Movie.category m)) cat_lower
                  || PyStr.contains (PyStr.lower (Movie.genre m)) cat_lower)
               movie_list)
  else Ok movie_list.

Definition filter_min_rating (min_rating : pyval) (movie_list : list Movie.t)
  : result (list Movie.t) :=
  if is_not_None min_rating
  then filter_r (fun m => py_ge (Movie.rating m) min_rating) movie_list
  else Ok movie_list.

Definition filter_year (year : pyval) (movie_list : list Movie.t)
  : result (list Movie.t) :=
  if is_not_None year
  then Ok (filter (fun m => py_eq (inject_Z (Movie.year m)) year) movie_list)
  else Ok movie_list.

Definition filter_year_from (year_from : pyval) (movie_list : list Movie.t)
  : result (list Movie.t) :=
  if is_not_None year_from
  then filter_r (fun m => py_ge (inject_Z (Movie.year m)) year_from) movie_list
  else Ok movie_list.

Definition filter_year_to (year_to : pyval) (movie_list : list Movie.t)
  : result (list Movie.t) :=
  if is_not_None year_to
  then filter_r (fun m => py_le (inject_Z (Movie.year m)) year_to) movie_list
  else Ok movie_list.

Definition genre_category_filters (genre category : pyval)
  (movie_list : list Movie.t) : result (list Movie.t) :=
  l <- filter_genre genre movie_list ;;
  filter_category category l.

Definition apply_filters (genre category min_rating year year_from year_to : pyval)
  (movie_list : list Movie.t) : result (list Movie.t) :=
  l <- genre_category_filters genre category movie_list ;;
  l <- filter_min_rating min_rating l ;;
  l <- filter_year year l ;;
  l <- filter_year_from year_from l ;;
  filter_year_to year_to l.

Definition filters_present (genre category min_rating year year_from year_to : pyval)
  : bool :=
  truthy genre || truthy category || is_not_None min_rating || is_not_None year
  || is_not_None year_from || is_not_None year_to.

(** The tokens of the query: [[t for t in re.split(...) if t]]. *)
Definition query_tokens (q_lower : string) : list string :=
  filter (fun t => negb (PyStr.is_empty t)) (PyStr.re_split q_lower).

(** The tier of one record for a text query, [None] when no tier matches. *)
Definition tier_of (tokens : list string) (m : Movie.t) : option Z :=
  let name := PyStr.lower (Movie.name m) in
  let genre_v := PyStr.lower (Movie.genre m) in
  let category_v := PyStr.lower (Movie.category m) in
  if existsb (fun t => PyStr.contains name t || PyStr.contains genre_v t
                       || PyStr.contains category_v t) tokens
  then Some 1000
  else if existsb (fun t => PyStr.startswith name t) tokens
  then Some 900
  else if existsb (fun t => existsb (String.eqb t) (PyStr.split name)) tokens
  then Some 800
  else None.

Fixpoint tier_matches (tokens : list string) (movie_list : list Movie.t)
  : list (Movie.t * Z) :=
  match movie_list with
  | [] => []
  | m :: l =>
      match tier_of tokens m with
      | Some p => (m, p) :: tier_matches tokens l
      | None => tier_matches tokens l
      end
  end.

(** The pairs collected before the fuzzy stage. *)
Definition text_matches (q_lower : string) (present : bool)
  (movie_list : list Movie.t) : result (list (Movie.t * Z)) :=
  if PyStr.is_empty q_lower && present then
    Ok (map (fun m => (m, 1000)) movie_list)
  else if PyStr.isdigit q_lower then
    y <- PyStr.int q_lower ;;
    Ok (map (fun m => (m, 1000))
            (filter (fun m => Movie.year m =? y) movie_list))
  else
    Ok (tier_matches (query_tokens q_lower) movie_list).

(** The text the fuzzy stage scores a record on. *)
Definition search_text (m : Movie.t) : string :=
  PyStr.lower
    match Movie._search_text m with
    | Some s => s
    | None => (Movie.name m ++ " " ++ Movie.genre m ++ " " ++ Movie.category m)%string
    end.

(** The deduplication loop over the collected pairs. *)
Definition best_step (best : PyDict.t (Z * Movie.t)) (mp : Movie.t * Z)
  : PyDict.t (Z * Movie.t) :=
  let '(m, p) := mp in
  let key := ident_of m in
  match PyDict.get best key with
  | None => PyDict.set best key (p, m)
  | Some (p0, _) => if p0 <? p then PyDict.set best key (p, m) else best
  end.

Definition dedupe (matches_with_priority : list (Movie.t * Z))
  : PyDict.t (Z * Movie.t) :=
  fold_left best_step matches_with_priority [].

Definition _priority_of (best : PyDict.t (Z * Movie.t)) (movie : Movie.t) : Z :=
  match PyDict.get best (ident_of movie) with
  | Some (p, _) => p
  | None => 0
  end.

(** The sort keys of the ranking stage. *)
Definition key_rating (best : PyDict.t (Z * Movie.t)) (x : Movie.t) : key3 :=
  (Movie.rating x, Movie.box_office_millions x, inject_Z (_priority_of best x)).

Definition key_box_office (best : PyDict.t (Z * Movie.t)) (x : Movie.t) : key3 :=
  (Movie.box_office_millions x, Movie.rating x, inject_Z (_priority_of best x)).

Definition key_year (best : PyDict.t (Z * Movie.t)) (x : Movie.t) : key3 :=
  (inject_Z (Movie.year x), Movie.rating x, inject_Z (_priority_of best x)).

Definition key_priority (best : PyDict.t (Z * Movie.t)) (x : Movie.t) : key3 :=
  (inject_Z (_priority_of best x), Movie.rating x, Movie.box_office_millions x).

Definition sort_key (sort_by : pyval) (best : PyDict.t (Z * Movie.t))
  : result (Movie.t -> key3) :=
  if truthy sort_by then
    sb <- py_lower sort_by ;;
    if String.eqb sb "rating" then Ok (key_rating best)
    else if String.eqb sb "box_office" || String.eqb sb "box_office_millions"
    then Ok (key_box_office best)
    else if String.eqb sb "year" then Ok (key_year best)
    else Ok (key_priority best)
  else Ok (key_priority best).

(** The list [ordered] after the sort, before the cap. *)
Definition rank (sort_by : pyval) (matches_with_priority : list (Movie.t * Z))
  : result (list Movie.t) :=
  let best := dedupe matches_with_priority in
  let ordered := map snd (PyDict.values best) in
  key <- sort_key sort_by best ;;
  Ok (sorted_desc key ordered).

Definition cap {A : Type} (max_results : option Z) (ordered : list A) : list A :=
  match max_results with
  | Some n => if n =? 0 then ordered else slice_to n ordered
  | None => ordered
  end.

(** ** The module's globals *)

(** The global state that the engine can reach. *)
Record globals : Type := mk_globals {
  movies : list Movie.t;
  favorites : list ident
}.

(** A computation over the globals. *)
Definition St (A : Type) : Type := globals -> A * globals.

Definition ret {A : Type} (a : A) : St A := fun g => (a, g).
Definition st_bind {A B : Type} (c : St A) (k : A -> St B) : St B :=
  fun g => let '(a, g') := c g in k a g'.
Definition read_movies : St (list Movie.t) := fun g => (movies g, g).
Definition write_movies (l : list Movie.t) : St unit :=
  fun g => (tt, mk_globals l (favorites g)).

(** ** The fuzzy stage

    RapidFuzz is an optional import.  [_HAS_RAPIDFUZZ] says the import
    succeeded, [has_rprocess] that [rprocess] is not [None], and
    [partial_ratio q s] is [fuzz.partial_ratio(q, s)], [None] when the call
    raises. *)

Section Engine.
Variable _HAS_RAPIDFUZZ : bool.
Variable has_rprocess : bool.
Variable partial_ratio : string -> string -> option Q.

Fixpoint score_all (q : string) (idx : nat) (choices : list string)
    : option (list (string * Q * nat)) :=
    match choices with
    | [] => Some []
    | c :: cs =>
        match partial_ratio q c, score_all q (S idx) cs with
        | Some s, Some r => Some ((c, s, idx) :: r)
        | _, _ => None
        end
    end.

  (** [rprocess.extract(q, choices, scorer=fuzz.partial_ratio,
      limit=len(choices))]: every choice scored, as [(choice, score, index)]
      by decreasing score; [None] when the call raises. *)
Definition extract (q : string) (choices : list string)
    : option (list (string * Q * nat)) :=
    match score_all q 0 choices with
    | Some r => Some (sorted_desc (fun x => (snd (fst x), 0%Q, 0%Q)) r)
    | None => None
    end.

Definition threshold_reached (fuzzy_threshold : Z) (score : Q) : bool :=
    Qle_bool (inject_Z fuzzy_threshold) score.

  (** The loop over [results]: [candidate_subset[idx]] raises when [idx] is
      out of range. *)
Fixpoint scored_of_results (fuzzy_threshold : Z) (candidate_subset : list Movie.t)
    (results : list (string * Q * nat)) : result (list (Q * Movie.t)) :=
    match results with
    | [] => Ok []
    | (_, score, idx) :: rs =>
        if threshold_reached fuzzy_threshold score then
          match nth_error candidate_subset idx with
          | Some m =>
              r <- scored_of_results fuzzy_threshold candidate_subset rs ;;
              Ok ((score, m) :: r)
          | None => Raise IndexError
          end
        else scored_of_results fuzzy_threshold candidate_subset rs
    end.

  (** The loop over [candidate_subset] when [rprocess] is [None]. *)
Fixpoint scored_each (q_lower : string) (fuzzy_threshold : Z)
    (candidate_subset : list Movie.t) : list (Q * Movie.t) :=
    match candidate_subset with
    | [] => []
    | m :: l =>
        let score :=
          match partial_ratio q_lower (search_text m) with
          | Some s => s
          | None => 0%Q
          end in
        if threshold_reached fuzzy_threshold score
        then (score, m) :: scored_each q_lower fuzzy_threshold l
        else scored_each q_lower fuzzy_threshold l
    end.

Definition candidate_subset_of (movie_list : list Movie.t)
    (matches_with_priority : list (Movie.t * Z)) : list Movie.t :=
    let existing_keys := map (fun mp => ident_of (fst mp)) matches_with_priority in
    let candidates :=
      filter (fun m => negb (existsb (ident_eqb (ident_of m)) existing_keys))
             movie_list in
    let candidates_sorted :=
      sorted_desc (fun x => key2 (Movie.rating x) (Movie.box_office_millions x))
                  candidates in
    firstn FUZZY_MAX_CANDIDATES candidates_sorted.

Definition fuzzy_scored (q_lower : string) (fuzzy_threshold : Z)
    (candidate_subset : list Movie.t) : result (list (Q * Movie.t)) :=
    if has_rprocess then
      let choices := map search_text candidate_subset in
      let results :=
        match extract q_lower choices with
        | Some r => r
        | None => []
        end in
      scored_of_results fuzzy_threshold candidate_subset results
    else Ok (scored_each q_lower fuzzy_threshold candidate_subset).

  (** The pairs the fuzzy stage appends to [matches_with_priority]. *)
Definition fuzzy_matches (q_lower : string) (fuzzy_threshold : Z)
    (movie_list : list Movie.t) (matches_with_priority : list (Movie.t * Z))
    : result (list (Movie.t * Z)) :=
    let candidate_subset := candidate_subset_of movie_list matches_with_priority in
    scored <- fuzzy_scored q_lower fuzzy_threshold candidate_subset ;;
    let scored :=
      sorted_desc (fun x => (fst x, Movie.rating (snd x),
                             Movie.box_office_millions (snd x))) scored in
    Ok (map (fun sm => (snd sm, py_int (fst sm))) scored).

Definition fuzzy_stage (enable_fuzzy : bool) (q_lower : string)
    (fuzzy_threshold : Z) (movie_list : list Movie.t)
    (matches_with_priority : list (Movie.t * Z)) : result (list (Movie.t * Z)) :=
    if enable_fuzzy && _HAS_RAPIDFUZZ && negb (PyStr.is_empty q_lower) then
      extra <- fuzzy_matches q_lower fuzzy_threshold movie_list matches_with_priority ;;
      Ok (matches_with_priority ++ extra)%list
    else Ok matches_with_priority.

  (** The pairs [matches_with_priority] once the fuzzy stage is over, for a
      sanitized query [q] on the snapshot [movie_list = list(movies)]. *)
Definition collect (q : string) (enable_fuzzy : bool) (fuzzy_threshold : Z)
    (genre category min_rating year year_from year_to : pyval)
    (movie_list : list Movie.t) : result (list (Movie.t * Z)) :=
    let q_lower := if PyStr.is_empty q then "" else PyStr.lower q in
    movie_list <-
      apply_filters genre category min_rating year year_from year_to movie_list ;;
    matches_with_priority <-
      text_matches q_lower
        (filters_present genre category min_rating year year_from year_to)
        movie_list ;;
    fuzzy_stage enable_fuzzy q_lower fuzzy_threshold movie_list
      matches_with_priority.

  (** The body of [find_matches] after the query has been sanitized. *)
Definition search (q : string) (max_results : option Z) (enable_fuzzy : bool)
    (fuzzy_threshold : Z) (genre category min_rating year year_from year_to : pyval)
    (sort_by : pyval) (movie_list : list Movie.t) : result (list Movie.t) :=
    matches_with_priority <-
      collect q enable_fuzzy fuzzy_threshold genre category min_rating year
        year_from year_to movie_list ;;
    ordered <- rank sort_by matches_with_priority ;;
    Ok (cap max_results ordered).

  (** [find_matches] on a given content of the global [movies]. *)
Definition find_matches_on (movies : list Movie.t) (query_text : pyval)
    (max_results : option Z) (enable_fuzzy : bool) (fuzzy_threshold : Z)
    (genre category min_rating year year_from year_to sort_by : pyval)
    : result (list Movie.t) :=
    let sanitized :=
      if is_not_None query_text then sanitize_query query_text 100 else Ok "" in
    match sanitized with
    | Raise _ => Ok []
    | Ok q =>
        search q max_results enable_fuzzy fuzzy_threshold genre category
          min_rating year year_from year_to sort_by movies
    end.

  (** [ensure_search_fields]: the cached search text of a record. *)
Definition ensure_search_fields (movie : Movie.t) : Movie.t :=
    let name := PyStr.lower (Movie.name movie) in
    let genre := PyStr.lower (Movie.genre movie) in
    let category := PyStr.lower (Movie.category movie) in
    Movie.mk (Movie.name movie) (Movie.year movie) (Movie.category movie)
      (Movie.genre movie) (Movie.box_office_millions movie) (Movie.rating movie)
      (Some (PyStr.strip (name ++ " " ++ genre ++ " " ++ category)%string)).

  (** [add_movie] for a record that passed [validate_movie_schema]. *)
Definition add_movie (movie : Movie.t) : St bool :=
    st_bind read_movies (fun ms =>
      let existing := map (fun m => (PyStr.lower (Movie.name m), Movie.year m)) ms in
      let key := (PyStr.lower (Movie.name movie), Movie.year movie) in
      if existsb (ident_eqb key) existing then ret false
      else st_bind (write_movies (ms ++ [ensure_search_fields movie])%list)
                   (fun _ => ret true)).

End Engine.

(** ** Orders used in the statements *)

(** [a] does not come after [b] in the lexicographic order of a key. *)
Definition key3_ge (a b : key3) : Prop :=
  let '(a1, a2, a3) := a in
  let '(b1, b2, b3) := b in
  (b1 < a1 \/ (a1 == b1 /\ (b2 < a2 \/ (a2 == b2 /\ b3 <= a3))))%Q.

(** Descending year, ties by descending rating, then by descending
    priority. *)
Definition year_rating_priority_order (prio : Movie.t -> Z) (a b : Movie.t) : Prop :=
  Movie.year b < Movie.year a
  \/ (Movie.year a = Movie.year b
      /\ ((Movie.rating b < Movie.rating a)%Q
          \/ ((Movie.rating a == Movie.rating b)%Q /\ prio b <= prio a))).

(** Descending year, ties by descending rating, then by descending
    revenue. *)
Definition year_rating_revenue_order (a b : Movie.t) : Prop :=
  Movie.year b < Movie.year a
  \/ (Movie.year a = Movie.year b
      /\ ((Movie.rating b < Movie.rating a)%Q
          \/ ((Movie.rating a == Movie.rating b)%Q
              /\ (Movie.box_office_millions b <= Movie.box_office_millions a)%Q))).

(** The records of a collection that pass a genre filter and a rating
    bound. *)
Definition genre_or_category_contains (needle : string) (m : Movie.t) : Prop :=
  PyStr.contains (PyStr.lower (Movie.genre m)) (PyStr.lower needle) = true
  \/ PyStr.contains (PyStr.lower (Movie.category m)) (PyStr.lower needle) = true.

(** Descending order of the keys. *)
Definition desc {A : Type} (key : A -> key3) (x y : A) : Prop :=
  key3_ge (key x) (key y).

(** What the loop maintains: the keys are distinct, every entry is the
    pair with the highest priority seen so far for its key, and every
    pair seen so far has an entry. *)
Record best_inv (best : PyDict.t (Z * Movie.t)) (seen : list (Movie.t * Z)) : Prop := {
  best_keys : NoDup (PyDict.keys best);
  best_max : forall k p m,
      PyDict.get best k = Some (p, m) ->
      k = ident_of m /\ In (m, p) seen
      /\ forall m' p', In (m', p') seen -> ident_of m' = k -> p' <= p;
  best_all : forall m p, In (m, p) seen -> PyDict.get best (ident_of m) <> None
}.

(** What the structured filters require of a record, one clause per
    supplied filter. *)
Definition satisfies_filters
  (genre category min_rating year year_from year_to : pyval) (m : Movie.t) : Prop :=
  (forall s, genre = PyStr s -> s <> "" -> genre_or_category_contains s m)
  /\ (forall s, category = PyStr s -> s <> "" -> genre_or_category_contains s m)
  /\ (forall q, min_rating = PyNum q -> (q <= Movie.rating m)%Q)
  /\ (forall q, year = PyNum q -> (inject_Z (Movie.year m) == q)%Q)
  /\ (forall q, year_from = PyNum q -> (q <= inject_Z (Movie.year m))%Q)
  /\ (forall q, year_to = PyNum q -> (inject_Z (Movie.year m) <= q)%Q).

(** ** Sample data *)

Module Sample.
Definition mv (n : string) (y : Z) (c g : string) (b r : Q) : Movie.t :=
    Movie.mk n y c g b r None.

Definition inception : Movie.t :=
    mv "Inception" 2010 "Prestige" "Sci-Fi" (8299 # 10) (88 # 10).
Definition toy_story : Movie.t :=
    mv "Toy Story" 1995 "Animation" "Family/Animation" (3736 # 10) (83 # 10).
Definition coco : Movie.t :=
    mv "Coco" 2017 "Animation" "Family/Animation" (8071 # 10) (84 # 10).
Definition social_network : Movie.t :=
    mv "The Social Network" 2010 "Drama" "Drama/Biography" (2249 # 10) (77 # 10).
Definition odyssey_two : Movie.t :=
    mv "2010: The Year We Make Contact" 1984 "Classic" "Sci-Fi" (403 # 10) (67 # 10).

Definition library : list Movie.t :=
    [inception; toy_story; coco; social_network].

  (** Two records of the same year and rating, the one with the smaller
      revenue first in the collection. *)
Definition small_hit : Movie.t := mv "Echo One" 2020 "Indie" "Drama" 10 8.
Definition big_hit : Movie.t := mv "Echo Two" 2020 "Indie" "Drama" 20 8.

  (** Fifty-one records that all match the query [echo]. *)
Definition echo (i : nat) : Movie.t :=
    mv "Echo" (2000 + Z.of_nat i) "Indie" "Drama" 1 5.
Definition echoes : list Movie.t := map echo (seq 0 51).

  (** A scorer that is never reached or always fails. *)
Definition no_scorer (q s : string) : option Q := None.

  (** A scorer that gives 100 to a text containing the query and 0 to any
      other, as [fuzz.partial_ratio] does on the texts used below. *)
Definition substring_scorer (q s : string) : option Q :=
    if PyStr.contains s q then Some 100%Q else Some 0%Q.

  (** A scorer with a fixed score. *)
Definition constant_scorer (score : Q) (q s : string) : option Q := Some score.
End Sample.

(** ** Further orders and argument shapes *)

(** Descending priority, ties by descending rating, then by descending
    revenue: the default order of the results. *)
Definition priority_rating_revenue_order (prio : Movie.t -> Z) (a b : Movie.t) : Prop :=
  prio b < prio a
  \/ (prio a = prio b
      /\ ((Movie.rating b < Movie.rating a)%Q
          \/ ((Movie.rating a == Movie.rating b)%Q
              /\ (Movie.box_office_millions b <= Movie.box_office_millions a)%Q))).

(** Descending rating, ties by descending revenue, then by descending
    priority. *)
Definition rating_revenue_priority_order (prio : Movie.t -> Z) (a b : Movie.t) : Prop :=
  (Movie.rating b < Movie.rating a)%Q
  \/ ((Movie.rating a == Movie.rating b)%Q
      /\ ((Movie.box_office_millions b < Movie.box_office_millions a)%Q
          \/ ((Movie.box_office_millions a == Movie.box_office_millions b)%Q
              /\ prio b <= prio a))).

(** Descending revenue, ties by descending rating, then by descending
    priority. *)
Definition revenue_rating_priority_order (prio : Movie.t -> Z) (a b : Movie.t) : Prop :=
  (Movie.box_office_millions b < Movie.box_office_millions a)%Q
  \/ ((Movie.box_office_millions a == Movie.box_office_millions b)%Q
      /\ ((Movie.rating b < Movie.rating a)%Q
          \/ ((Movie.rating a == Movie.rating b)%Q /\ prio b <= prio a))).

(** Descending rating, ties by descending revenue. *)
Definition rating_revenue_order (a b : Movie.t) : Prop :=
  (Movie.rating b < Movie.rating a)%Q
  \/ ((Movie.rating a == Movie.rating b)%Q
      /\ (Movie.box_office_millions b <= Movie.box_office_millions a)%Q).

(** A numeric argument that is a number or [None]. *)
Definition opt_num (o : option Q) : pyval :=
  match o with
  | None => PyNone
  | Some q => PyNum q
  end.

(** The lowercased query as [find_matches] computes it. *)
Definition q_lower_of (q : string) : string :=
  if PyStr.is_empty q then "" else PyStr.lower q.

(** A query that [str.isdigit] accepts and [int] refuses: digits with a
    superscript digit among them. *)
Definition superscript_query (q_lower : string) : bool :=
  PyStr.isdigit q_lower && negb (PyStr.forallb PyStr.is_decimal_char q_lower).

(** The values of [sort_by] that select an explicit sort field. *)
Definition names_sort_field (sb : string) : bool :=
  String.eqb sb "rating" || String.eqb sb "box_office"
  || String.eqb sb "box_office_millions" || String.eqb sb "year".

(** A string starts with a character that is not whitespace, or is empty. *)
Definition no_leading_space (s : string) : Prop :=
  match s with
  | EmptyString => True
  | String c _ => PyStr.is_space c = false
  end.

(** ** Building the collection *)

(** [add_movie] on a record whose fields have the types of [Movie.t]: of
    [validate_movie_schema] the test of a non-empty name remains. *)
Definition add_movie_checked (movie : Movie.t) : St bool :=
  if PyStr.is_empty (Movie.name movie) then ret false else add_movie movie.

(** The loop [for m in loaded: add_movie(m)] of [main]. *)
Definition add_all (loaded : list Movie.t) (g : globals) : globals :=
  fold_left (fun g m => snd (add_movie_checked m g)) loaded g.

(** The key [(name.lower(), year)] by which [add_movie] tells records
    apart. *)
Definition lower_ident (m : Movie.t) : ident :=
  (PyStr.lower (Movie.name m), Movie.year m).

(** A record before [ensure_search_fields] has cached anything on it. *)
Definition without_cache (m : Movie.t) : Movie.t :=
  Movie.mk (Movie.name m) (Movie.year m) (Movie.category m) (Movie.genre m)
    (Movie.box_office_millions m) (Movie.rating m) None.

(** ** [parse_filters] and the search step of [main_loop] *)

Module PyStrMore.

(** [s.split(sep)] for a separator of one character: the pieces between
    the separators, empty pieces included. *)
Fixpoint split_on (sep : ascii) (s : string) : list string :=
  match s with
  | EmptyString => [EmptyString]
  | String c r =>
      if Ascii.eqb c sep then EmptyString :: split_on sep r
      else PyStr.push c (split_on sep r)
  end.

(** [sep in s] for one character. *)
Fixpoint contains_char (sep : ascii) (s : string) : bool :=
  match s with
  | EmptyString => false
  | String c r => Ascii.eqb c sep || contains_char sep r
  end.

(** [s.split(sep, 1)] for an [s] that holds [sep]: what comes before the
    first separator and what comes after it. *)
Fixpoint split_once (sep : ascii) (s : string) : string * string :=
  match s with
  | EmptyString => (EmptyString, EmptyString)
  | String c r =>
      if Ascii.eqb c sep then (EmptyString, r)
      else let '(k, v) := split_once sep r in (String c k, v)
  end.

(** [s.replace(a, b)] for characters [a] and [b]. *)
Fixpoint replace_char (a b : ascii) (s : string) : string :=
  match s with
  | EmptyString => EmptyString
  | String c r =>
      String (if Ascii.eqb c a then b else c) (replace_char a b r)
  end.

End PyStrMore.

(** A [dict] with [str] keys, in insertion order. *)
Module StrDict.

Definition t : Type := list (string * pyval).

(** [d.get(k)]: [None] for a missing key. *)
Fixpoint get (d : t) (k : string) : pyval :=
  match d with
  | [] => PyNone
  | (k', v) :: d' => if String.eqb k k' then v else get d' k
  end.

(** [d[k] = v] *)
Fixpoint set (d : t) (k : string) (v : pyval) : t :=
  match d with
  | [] => [(k, v)]
  | (k', v') :: d' =>
      if String.eqb k k' then (k', v) :: d' else (k', v') :: set d' k v
  end.

End StrDict.

(** The keys [parse_filters] writes: those with a number and those with a
    string as value. *)
Definition numeric_filter_key (k : string) : Prop :=
  k = "min_rating" \/ k = "year" \/ k = "year_from" \/ k = "year_to".

Definition text_filter_key (k : string) : Prop :=
  k = "genre" \/ k = "category" \/ k = "sort_by".

(** Every entry has a recognised key and a value of the type that goes
    with the key. *)
Definition typed_filters (d : StrDict.t) : Prop :=
  forall k v, In (k, v) d ->
    (numeric_filter_key k /\ exists x, v = PyNum x)
    \/ (text_filter_key k /\ exists s, v = PyStr s).

(** What one round of [main_loop] does with its two inputs. *)
Inductive round : Type :=
  | Listed
  | Quit
  | Invalid
  | TopRated
  | Searched (matches : result (list Movie.t)).

Section Parsing.
(** [float(v)] and [int(v)] on a string, [None] when they raise. *)
Variable float_of_str : string -> option Q.
Variable int_of_str : string -> option Z.

(** The body of the loop over the parts. *)
Definition parse_part (out : StrDict.t) (p : string) : StrDict.t :=
  let kv :=
    if PyStrMore.contains_char "=" p then Some (PyStrMore.split_once "=" p)
    else if PyStrMore.contains_char ":" p then Some (PyStrMore.split_once ":" p)
    else None in
  match kv with
  | None => out
  | Some (k, v) =>
      let k := PyStrMore.replace_char "-" "_" (PyStr.lower (PyStr.strip k)) in
      let v := PyStr.strip v in
      if String.eqb k "min_rating" || String.eqb k "min-rating" then
        match float_of_str v with
        | Some x => StrDict.set out "min_rating" (PyNum x)
        | None => out
        end
      else if String.eqb k "year" then
        match int_of_str v with
        | Some y => StrDict.set out "year" (PyNum (inject_Z y))
        | None => out
        end
      else if String.eqb k "year_from" || String.eqb k "year-from" then
        match int_of_str v with
        | Some y => StrDict.set out "year_from" (PyNum (inject_Z y))
        | None => out
        end
      else if String.eqb k "year_to" || String.eqb k "year-to" then
        match int_of_str v with
        | Some y => StrDict.set out "year_to" (PyNum (inject_Z y))
        | None => out
        end
      else if String.eqb k "genre" || String.eqb k "category"
              || String.eqb k "sort_by" || String.eqb k "sort-by" then
        StrDict.set out (PyStrMore.replace_char "-" "_" k) (PyStr v)
      else out
  end.

Definition parse_filters (filter_text : string) : StrDict.t :=
  if PyStr.is_empty filter_text then []
  else
    let parts :=
      filter (fun p => negb (PyStr.is_empty p))
             (map PyStr.strip (PyStrMore.split_on "," filter_text)) in
    fold_left parse_part parts [].

Variable _HAS_RAPIDFUZZ : bool.
Variable has_rprocess : bool.
Variable partial_ratio : string -> string -> option Q.

(** One round of [main_loop] on the two lines the user typed, up to the
    call of [find_matches]. *)
Definition main_loop_round (movies : list Movie.t) (filter_line query_line : string)
  : round :=
  let filter_input := PyStr.strip filter_line in
  if String.eqb (PyStr.lower filter_input) "list"
     || String.eqb (PyStr.lower filter_input) "l" then Listed
  else
    let filters := parse_filters filter_input in
    let query := PyStr.strip query_line in
    if String.eqb (PyStr.lower query) "q" then Quit
    else
      match sanitize_query (PyStr query) 100 with
      | Raise _ => Invalid
      | Ok query =>
          if negb (PyStr.is_empty query)
             || negb (match filters with [] => true | _ => false end)
          then
            Searched
              (find_matches_on _HAS_RAPIDFUZZ has_rprocess partial_ratio movies
                 (PyStr query) (Some 20) true DEFAULT_FUZZY_THRESHOLD
                 (StrDict.get filters "genre") (StrDict.get filters "category")
                 (StrDict.get filters "min_rating") (StrDict.get filters "year")
                 (StrDict.get filters "year_from") (StrDict.get filters "year_to")
                 PyNone)
          else TopRated
      end.

End Parsing.

(** ** [get_available_genres] and [get_available_categories] *)

(** A [Counter] with [str] keys, in insertion order. *)
Module Counter.

Definition t : Type := list (string * Z).

(** [c[k]]: 0 for a missing key. *)
Fixpoint get (c : t) (k : string) : Z :=
  match c with
  | [] => 0
  | (k', n) :: c' => if String.eqb k k' then n else get c' k
  end.

(** [c[k] += 1] *)
Fixpoint incr (c : t) (k : string) : t :=
  match c with
  | [] => [(k, 1)]
  | (k', n) :: c' =>
      if String.eqb k k' then (k', n + 1) :: c' else (k', n) :: incr c' k
  end.

Definition keys (c : t) : list string := map fst c.

End Counter.

(** The sort key [(-counter[x], x)] and the order of such tuples: by the
    number, then by the string, code point by code point. *)
Definition count_key : Type := (Z * string)%type.

Definition count_key_ltb (a b : count_key) : bool :=
  (fst a <? fst b) || ((fst a =? fst b) && String.ltb (snd a) (snd b)).

(** [sorted(l, key=...)]: ascending and stable. *)
Section SortingAsc.
Context {A : Type}.
Variable key : A -> count_key.

Fixpoint insert_asc (x : A) (l : list A) : list A :=
  match l with
  | [] => [x]
  | y :: l' =>
      if count_key_ltb (key y) (key x) then y :: insert_asc x l'
      else x :: l
  end.

Fixpoint sorted_asc (l : list A) : list A :=
  match l with
  | [] => []
  | x :: l' => insert_asc x (sorted_asc l')
  end.
End SortingAsc.

(** The order of the sort keys. *)
Definition count_key_le (a b : count_key) : Prop :=
  fst a < fst b \/ (fst a = fst b /\ String.compare (snd a) (snd b) <> Gt).

(** The common part of the two functions: count the items, then list the
    names by decreasing count and increasing name, each with its count. *)
Definition tally (items : list string) : list (string * Z) :=
  let counter := fold_left Counter.incr items [] in
  map (fun name => (name, Counter.get counter name))
      (sorted_asc (fun x => (- Counter.get counter x, x)) (Counter.keys counter)).

(** [re.split(r'[\s/]+', g)]: the pieces between the runs of whitespace
    and slashes, empty pieces included; [in_sep] says the previous
    character belongs to the run being matched. *)
Fixpoint genre_split_from (in_sep : bool) (s : string) : list string :=
  match s with
  | EmptyString => [EmptyString]
  | String c r =>
      if PyStr.is_space c || Ascii.eqb c "/" then
        if in_sep then genre_split_from true r
        else EmptyString :: genre_split_from true r
      else PyStr.push c (genre_split_from false r)
  end.

(** [[t.strip() for t in re.split(r'[\s/]+', g) if t.strip()]] *)
Definition genre_tokens (g : string) : list string :=
  map PyStr.strip
      (filter (fun t => negb (PyStr.is_empty (PyStr.strip t)))
              (genre_split_from false g)).

Definition get_available_genres (movies : list Movie.t) : list (string * Z) :=
  tally (flat_map (fun m => if PyStr.is_empty (Movie.genre m) then []
                            else genre_tokens (Movie.genre m)) movies).

Definition get_available_categories (movies : list Movie.t) : list (string * Z) :=
  tally (flat_map (fun m => if PyStr.is_empty (Movie.category m) then []
                            else [Movie.category m]) movies).

(** The order of the listing: by decreasing count, names of one count in
    increasing order. *)
Definition listing_order (a b : string * Z) : Prop :=
  snd b < snd a \/ (snd a = snd b /\ String.leb (fst a) (fst b) = true).

(** How often a name occurs among the items. *)
Fixpoint occurrences (name : string) (items : list string) : Z :=
  match items with
  | [] => 0
  | x :: l => (if String.eqb name x then 1 else 0) + occurrences name l
  end.

(** ** [show_top] *)

(** The records [show_top] prints, in the order it prints them:
    [sorted(movies, key=lambda x: x.get('rating', 0), reverse=True)[:n]].
    The key is the rating alone, written as a triple whose other two
    components are constant. *)
Definition show_top (movies : list Movie.t) (n : Z) : list Movie.t :=
  slice_to n (sorted_desc (fun x => (Movie.rating x, 0%Q, 0%Q)) movies).

(** ** What the statements on the whole search refer to *)

(** The sanitized query:
    [sanitize_query(query_text) if query_text is not None else '']. *)
Definition sanitized_query (query_text : pyval) : result string :=
  if is_not_None query_text then sanitize_query query_text 100 else Ok "".

(** The list [ordered] before the sort: the retained records, in the order
    in which their keys were first collected. *)
Definition collected_order (matches_with_priority : list (Movie.t * Z))
  : list Movie.t :=
  map snd (PyDict.values (dedupe matches_with_priority)).

(** The keys of a list in the order of their first occurrence; [seen]
    holds the keys met so far. *)
Fixpoint first_collected (seen keys : list ident) : list ident :=
  match keys with
  | [] => []
  | k :: l =>
      if existsb (ident_eqb k) seen then first_collected seen l
      else k :: first_collected (seen ++ [k]) l
  end.

(** Two sort keys that compare equal. *)
Definition key3_eqb (a b : key3) : bool :=
  match key3_compare a b with
  | Eq => true
  | _ => false
  end.

(** The records of year [y], rating [r] and priority [p]. *)
Definition same_year_rating_priority (prio : Movie.t -> Z) (y : Z) (r : Q) (p : Z)
  (m : Movie.t) : bool :=
  (Movie.year m =? y) && Qeq_bool (Movie.rating m) r && (prio m =? p).

(** ** The built-in collection *)

(** The list literal bound to [movies] when the module is loaded. *)
Definition movies_literal : list Movie.t :=
  [
    Movie.mk "Superman" 1978 "Blockbuster" "Action" (1342 # 10) (79 # 10) None;
    Movie.mk "The Avengers" 2012 "Blockbuster" "Action" (15188 # 10) (84 # 10) None;
    Movie.mk "Man From Toronto" 2022 "Streaming" "Action/Comedy" (123 # 10) (61 # 10) None;
    Movie.mk "Black Widow" 2021 "Blockbuster" "Action" (3798 # 10) (68 # 10) None;
    Movie.mk "Shazam!" 2019 "Blockbuster" "Family/Fantasy" (3646 # 10) (71 # 10) None;
    Movie.mk "John Wick" 2014 "Action Franchise" "Action/Thriller" (860 # 10) (74 # 10) None;
    Movie.mk "Spider-Man: No Way Home" 2021 "Blockbuster" "Action/Adventure" (19320 # 10) (81 # 10) None;
    Movie.mk "Inception" 2010 "Prestige" "Sci-Fi" (8299 # 10) (88 # 10) None;
    Movie.mk "The Godfather" 1972 "Classic" "Crime/Drama" (2461 # 10) (92 # 10) None;
    Movie.mk "Parasite" 2019 "Indie" "Thriller/Drama" (2588 # 10) (86 # 10) None;
    Movie.mk "La La Land" 2016 "Musical" "Musical/Romance" (4461 # 10) (80 # 10) None;
    Movie.mk "Toy Story" 1995 "Animation" "Family/Animation" (3736 # 10) (83 # 10) None;
    Movie.mk "The Dark Knight" 2008 "Prestige" "Action/Crime" (10049 # 10) (90 # 10) None;
    Movie.mk "Forrest Gump" 1994 "Classic" "Drama/Romance" (6782 # 10) (88 # 10) None;
    Movie.mk "The Shawshank Redemption" 1994 "Classic" "Drama" (583 # 10) (93 # 10) None;
    Movie.mk "Interstellar" 2014 "Prestige" "Sci-Fi/Drama" (6775 # 10) (86 # 10) None;
    Movie.mk "Get Out" 2017 "Indie" "Horror/Thriller" (2554 # 10) (77 # 10) None;
    Movie.mk "The Matrix" 1999 "Sci-Fi" "Action/Sci-Fi" (4635 # 10) (87 # 10) None;
    Movie.mk "Titanic" 1997 "Romance/Blockbuster" "Romance/Drama" (21875 # 10) (78 # 10) None;
    Movie.mk "Spirited Away" 2001 "Animation" "Fantasy/Animation" (3555 # 10) (86 # 10) None;
    Movie.mk "The Social Network" 2010 "Drama" "Drama/Biography" (2249 # 10) (77 # 10) None;
    Movie.mk "Mad Max: Fury Road" 2015 "Action" "Action/Adventure" (3789 # 10) (81 # 10) None;
    Movie.mk "City of God" 2002 "Indie" "Crime/Drama" (306 # 10) (86 # 10) None;
    Movie.mk "Coco" 2017 "Animation" "Family/Animation" (8071 # 10) (84 # 10) None
  ].

(** The collection once the module is loaded: the loop at the end of the
    module has run [ensure_search_fields] on every record. *)
Definition initial_movies : list Movie.t :=
  map ensure_search_fields movies_literal.

(** A list of keys without repetition. *)
Fixpoint distinct_keys (l : list ident) : bool :=
  match l with
  | [] => true
  | k :: l' => negb (existsb (ident_eqb k) l') && distinct_keys l'
  end.

(** A result with a function applied to what is returned. *)
Definition result_map {A B : Type} (f : A -> B) (r : result A) : result B :=
  match r with
  | Ok a => Ok (f a)
  | Raise e => Raise e
  end.

(** ** The collection as a store of objects

    A record of the collection is a [dict] object and the global [movies]
    is a list of references to such objects: a function that is handed a
    record can change it in place, and the list can be appended to.
    [find_matches] and [ensure_search_fields] are written here on that
    store, every access to an object being a step of its own. *)

Module Store.

Definition ref : Type := nat.

(** The objects, by address, and the list bound to [movies]. *)
Record t : Type := mk {
  objects : ref -> Movie.t;
  movies : list ref
}.

(** A computation on the store, which returns or raises. *)
Definition M (A : Type) : Type := t -> result A * t.

Definition ret {A : Type} (a : A) : M A := fun s => (Ok a, s).

Definition lift {A : Type} (r : result A) : M A := fun s => (r, s).

Definition bind {A B : Type} (c : M A) (k : A -> M B) : M B :=
  fun s =>
    match c s with
    | (Ok a, s') => k a s'
    | (Raise e, s') => (Raise e, s')
    end.

Notation "x <~ c ;; k" := (bind c (fun x => k))
  (at level 61, c at next level, right associativity).

(** [m.get(...)] and [m[...]]: the fields of the object as they are now. *)
Definition view (m : ref) : M Movie.t := fun s => (Ok (objects s m), s).

(** [m[...] = v]: the object is changed in place. *)
Definition update (m : ref) (f : Movie.t -> Movie.t) : M unit :=
  fun s =>
    (Ok tt,
     mk (fun r => if Nat.eqb r m then f (objects s r) else objects s r)
        (movies s)).

(** [list(movies)]: a new list of the same objects. *)
Definition snapshot : M (list ref) := fun s => (Ok (movies s), s).

(** [movies.append(m)] *)
Definition append (m : ref) : M unit :=
  fun s => (Ok tt, mk (objects s) (movies s ++ [m])%list).

(** [[x for x in l if p(x)]] *)
Fixpoint filterM {A : Type} (p : A -> M bool) (l : list A) : M (list A) :=
  match l with
  | [] => ret []
  | x :: l' =>
      b <~ p x ;;
      r <~ filterM p l' ;;
      ret (if b then x :: r else r)
  end.

(** [[f(x) for x in l]] *)
Fixpoint mapM {A B : Type} (body : A -> M B) (items : list A) : M (list B) :=
  match items with
  | [] => ret []
  | x :: rest =>
      y <~ body x ;;
      r <~ mapM body rest ;;
      ret (y :: r)
  end.

(** A loop that updates a local variable. *)
Fixpoint foldM {A B : Type} (f : B -> A -> M B) (l : list A) (b : B) : M B :=
  match l with
  | [] => ret b
  | x :: l' => b' <~ f b x ;; foldM f l' b'
  end.

(** [sorted(l, key=key, reverse=True)] and [l.sort(key=key, reverse=True)]:
    the key of every element is computed first, then the elements are
    sorted by their keys. *)
Definition sortedM {A : Type} (key : A -> M key3) (l : list A) : M (list A) :=
  keys <~ mapM key l ;;
  ret (map snd (sorted_desc fst (combine keys l))).

(** [(m.get('name'), m.get('year'))] *)
Definition key_of (m : ref) : M ident :=
  x <~ view m ;; ret (ident_of x).

(** [ensure_search_fields]: the search text is stored on the object. *)
Definition ensure_search_fields (movie : ref) : M unit :=
  x <~ view movie ;;
  let name := PyStr.lower (Movie.name x) in
  let genre := PyStr.lower (Movie.genre x) in
  let category := PyStr.lower (Movie.category x) in
  let search_text := PyStr.strip (name ++ " " ++ genre ++ " " ++ category)%string in
  update movie
    (fun o => Movie.mk (Movie.name o) (Movie.year o) (Movie.category o)
                (Movie.genre o) (Movie.box_office_millions o) (Movie.rating o)
                (Some search_text)).

(** [add_movie] on an object that has the fields of the schema; the test
    on the name is what is left of [validate_movie_schema]. *)
Definition add_movie (movie : ref) : M bool :=
  x <~ view movie ;;
  if PyStr.is_empty (Movie.name x) then ret false
  else
    ms <~ snapshot ;;
    existing <~
      mapM (fun m => y <~ view m ;; ret (PyStr.lower (Movie.name y), Movie.year y))
           ms ;;
    x <~ view movie ;;
    if existsb (ident_eqb (PyStr.lower (Movie.name x), Movie.year x)) existing
    then ret false
    else
      _ <~ append movie ;;
      _ <~ ensure_search_fields movie ;;
      ret true.

(** The loop over [results] of the fuzzy stage; it reads no object. *)
Fixpoint scored_of_results (fuzzy_threshold : Z) (candidate_subset : list ref)
  (results : list (string * Q * nat)) : result (list (Q * ref)) :=
  match results with
  | [] => Ok []
  | (_, score, idx) :: rs =>
      if threshold_reached fuzzy_threshold score then
        match nth_error candidate_subset idx with
        | Some m =>
            r <- scored_of_results fuzzy_threshold candidate_subset rs ;;
            Ok ((score, m) :: r)
        | None => Raise IndexError
        end
      else scored_of_results fuzzy_threshold candidate_subset rs
  end.

Section Search.
Variable _HAS_RAPIDFUZZ : bool.
Variable has_rprocess : bool.
Variable partial_ratio : string -> string -> option Q.

Definition filter_genre (genre : pyval) (movie_list : list ref) : M (list ref) :=
  if truthy genre then
    genre_lower <~ lift (py_lower genre) ;;
    filterM (fun m =>
               x <~ view m ;;
               ret (PyStr.contains (PyStr.lower (Movie.genre x)) genre_lower
                    || PyStr.contains (PyStr.lower (Movie.category x)) genre_lower))
            movie_list
  else ret movie_list.

Definition filter_category (category : pyval) (movie_list : list ref)
  : M (list ref) :=
  if truthy category then
    cat_lower <~ lift (py_lower category) ;;
    filterM (fun m =>
               x <~ view m ;;
               ret (PyStr.contains (PyStr.lower (Movie.category x)) cat_lower
                    || PyStr.contains (PyStr.lower (Movie.genre x)) cat_lower))
            movie_list
  else ret movie_list.

Definition filter_min_rating (min_rating : pyval) (movie_list : list ref)
  : M (list ref) :=
  if is_not_None min_rating then
    filterM (fun m => x <~ view m ;; lift (py_ge (Movie.rating x) min_rating))
            movie_list
  else ret movie_list.

Definition filter_year (year : pyval) (movie_list : list ref) : M (list ref) :=
  if is_not_None year then
    filterM (fun m => x <~ view m ;; ret (py_eq (inject_Z (Movie.year x)) year))
            movie_list
  else ret movie_list.

Definition filter_year_from (year_from : pyval) (movie_list : list ref)
  : M (list ref) :=
  if is_not_None year_from then
    filterM (fun m => x <~ view m ;;
                      lift (py_ge (inject_Z (Movie.year x)) year_from))
            movie_list
  else ret movie_list.

Definition filter_year_to (year_to : pyval) (movie_list : list ref)
  : M (list ref) :=
  if is_not_None year_to then
    filterM (fun m => x <~ view m ;;
                      lift (py_le (inject_Z (Movie.year x)) year_to))
            movie_list
  else ret movie_list.

Definition apply_filters (genre category min_rating year year_from year_to : pyval)
  (movie_list : list ref) : M (list ref) :=
  l <~ filter_genre genre movie_list ;;
  l <~ filter_category category l ;;
  l <~ filter_min_rating min_rating l ;;
  l <~ filter_year year l ;;
  l <~ filter_year_from year_from l ;;
  filter_year_to year_to l.

(** The loop over the records for a text query. *)
Fixpoint tier_matches (tokens : list string) (movie_list : list ref)
  : M (list (ref * Z)) :=
  match movie_list with
  | [] => ret []
  | m :: l =>
      x <~ view m ;;
      r <~ tier_matches tokens l ;;
      ret (match tier_of tokens x with
           | Some p => (m, p) :: r
           | None => r
           end)
  end.

Definition text_matches (q_lower : string) (present : bool)
  (movie_list : list ref) : M (list (ref * Z)) :=
  if PyStr.is_empty q_lower && present then
    ret (map (fun m => (m, 1000)) movie_list)
  else if PyStr.isdigit q_lower then
    y <~ lift (PyStr.int q_lower) ;;
    l <~ filterM (fun m => x <~ view m ;; ret (Movie.year x =? y)) movie_list ;;
    ret (map (fun m => (m, 1000)) l)
  else tier_matches (query_tokens q_lower) movie_list.

Definition candidate_subset_of (movie_list : list ref)
  (matches_with_priority : list (ref * Z)) : M (list ref) :=
  existing_keys <~ mapM (fun mp => key_of (fst mp)) matches_with_priority ;;
  candidates <~
    filterM (fun m =>
               k <~ key_of m ;;
               ret (negb (existsb (ident_eqb k) existing_keys)))
            movie_list ;;
  candidates_sorted <~
    sortedM (fun m =>
               x <~ view m ;;
               ret (key2 (Movie.rating x) (Movie.box_office_millions x)))
            candidates ;;
  ret (firstn FUZZY_MAX_CANDIDATES candidates_sorted).

(** The loop over [candidate_subset] when [rprocess] is [None]. *)
Fixpoint scored_each (q_lower : string) (fuzzy_threshold : Z)
  (candidate_subset : list ref) : M (list (Q * ref)) :=
  match candidate_subset with
  | [] => ret []
  | m :: l =>
      x <~ view m ;;
      let score :=
        match partial_ratio q_lower (search_text x) with
        | Some s => s
        | None => 0%Q
        end in
      r <~ scored_each q_lower fuzzy_threshold l ;;
      ret (if threshold_reached fuzzy_threshold score then (score, m) :: r else r)
  end.

Definition fuzzy_scored (q_lower : string) (fuzzy_threshold : Z)
  (candidate_subset : list ref) : M (list (Q * ref)) :=
  if has_rprocess then
    choices <~ mapM (fun m => x <~ view m ;; ret (search_text x))
                    candidate_subset ;;
    let results :=
      match extract partial_ratio q_lower choices with
      | Some r => r
      | None => []
      end in
    lift (scored_of_results fuzzy_threshold candidate_subset results)
  else scored_each q_lower fuzzy_threshold candidate_subset.

Definition fuzzy_matches (q_lower : string) (fuzzy_threshold : Z)
  (movie_list : list ref) (matches_with_priority : list (ref * Z))
  : M (list (ref * Z)) :=
  candidate_subset <~ candidate_subset_of movie_list matches_with_priority ;;
  scored <~ fuzzy_scored q_lower fuzzy_threshold candidate_subset ;;
  scored <~
    sortedM (fun sm =>
               x <~ view (snd sm) ;;
               ret (fst sm, Movie.rating x, Movie.box_office_millions x))
            scored ;;
  ret (map (fun sm => (snd sm, py_int (fst sm))) scored).

Definition fuzzy_stage (enable_fuzzy : bool) (q_lower : string)
  (fuzzy_threshold : Z) (movie_list : list ref)
  (matches_with_priority : list (ref * Z)) : M (list (ref * Z)) :=
  if enable_fuzzy && _HAS_RAPIDFUZZ && negb (PyStr.is_empty q_lower) then
    extra <~ fuzzy_matches q_lower fuzzy_threshold movie_list
               matches_with_priority ;;
    ret (matches_with_priority ++ extra)%list
  else ret matches_with_priority.

(** The deduplication loop. *)
Definition best_step (best : PyDict.t (Z * ref)) (mp : ref * Z)
  : M (PyDict.t (Z * ref)) :=
  key <~ key_of (fst mp) ;;
  ret (match PyDict.get best key with
       | None => PyDict.set best key (snd mp, fst mp)
       | Some (p0, _) =>
           if p0 <? snd mp then PyDict.set best key (snd mp, fst mp) else best
       end).

Definition dedupe (matches_with_priority : list (ref * Z))
  : M (PyDict.t (Z * ref)) :=
  foldM best_step matches_with_priority [].

Definition _priority_of (best : PyDict.t (Z * ref)) (movie : ref) : M Z :=
  key <~ key_of movie ;;
  ret (match PyDict.get best key with
       | Some (p, _) => p
       | None => 0
       end).

Definition key_rating (best : PyDict.t (Z * ref)) (x : ref) : M key3 :=
  v <~ view x ;;
  p <~ _priority_of best x ;;
  ret (Movie.rating v, Movie.box_office_millions v, inject_Z p).

Definition key_box_office (best : PyDict.t (Z * ref)) (x : ref) : M key3 :=
  v <~ view x ;;
  p <~ _priority_of best x ;;
  ret (Movie.box_office_millions v, Movie.rating v, inject_Z p).

Definition key_year (best : PyDict.t (Z * ref)) (x : ref) : M key3 :=
  v <~ view x ;;
  p <~ _priority_of best x ;;
  ret (inject_Z (Movie.year v), Movie.rating v, inject_Z p).

Definition key_priority (best : PyDict.t (Z * ref)) (x : ref) : M key3 :=
  p <~ _priority_of best x ;;
  v <~ view x ;;
  ret (inject_Z p, Movie.rating v, Movie.box_office_millions v).

Definition sort_key (sort_by : pyval) (best : PyDict.t (Z * ref))
  : result (ref -> M key3) :=
  if truthy sort_by then
    sb <- py_lower sort_by ;;
    if String.eqb sb "rating" then Ok (key_rating best)
    else if String.eqb sb "box_office" || String.eqb sb "box_office_millions"
    then Ok (key_box_office best)
    else if String.eqb sb "year" then Ok (key_year best)
    else Ok (key_priority best)
  else Ok (key_priority best).

Definition rank (sort_by : pyval) (matches_with_priority : list (ref * Z))
  : M (list ref) :=
  best <~ dedupe matches_with_priority ;;
  let ordered := map snd (PyDict.values best) in
  key <~ lift (sort_key sort_by best) ;;
  sortedM key ordered.

Definition find_matches (query_text : pyval) (max_results : option Z)
  (enable_fuzzy : bool) (fuzzy_threshold : Z)
  (genre category min_rating year year_from year_to sort_by : pyval)
  : M (list ref) :=
  match sanitized_query query_text with
  | Raise _ => ret []
  | Ok q =>
      let q_lower := if PyStr.is_empty q then "" else PyStr.lower q in
      movie_list <~ snapshot ;;
      movie_list <~
        apply_filters genre category min_rating year year_from year_to
          movie_list ;;
      matches_with_priority <~
        text_matches q_lower
          (filters_present genre category min_rating year year_from year_to)
          movie_list ;;
      matches_with_priority <~
        fuzzy_stage enable_fuzzy q_lower fuzzy_threshold movie_list
          matches_with_priority ;;
      ordered <~ rank sort_by matches_with_priority ;;
      ret (cap max_results ordered)
  end.

End Search.

(** What the objects of a list hold: the records behind the references,
    for the results of the steps of a search. *)
Definition contents (s : t) (l : list ref) : list Movie.t := map (objects s) l.

Definition contents_pairs (s : t) (l : list (ref * Z)) : list (Movie.t * Z) :=
  map (fun mp => (objects s (fst mp), snd mp)) l.

Definition contents_scored (s : t) (l : list (Q * ref)) : list (Q * Movie.t) :=
  map (fun sm => (fst sm, objects s (snd sm))) l.

Definition contents_dict (s : t) (best : PyDict.t (Z * ref))
  : PyDict.t (Z * Movie.t) :=
  map (fun kv => (fst kv, (fst (snd kv), objects s (snd (snd kv))))) best.

(** A computation that leaves every store as it finds it. *)
Definition read_only {A : Type} (c : M A) : Prop := forall s, snd (c s) = s.

End Store.

(** ** Favorites

    The globals [movies], [favorites] and [_favorites_set], and the
    favorites file.  A favorite is the entry [{'name': n, 'year': y}];
    [_favorites_set] holds the keys [(n.lower(), y)].  The functions are
    modelled for a [str] name and an [int] year; with other types
    [add_favorite] returns [False] before it reads anything. *)

Module Fav.

(** What the favorites file holds: nothing, something [json.load] or the
    list check refuses, or a list of entries. *)
Inductive disk : Type :=
  | Missing
  | Unreadable
  | Holds (entries : list ident).

(** How a call of [save_favorites] ends: the file holds the favorites, or
    the write raised and left the file in some state. *)
Inductive save_outcome : Type :=
  | Saved
  | Failed (left_on_disk : disk).

Record state : Type := mk {
  movies : list Movie.t;
  favorites : list ident;
  _favorites_set : list ident;
  file : disk
}.

(** A [set] of keys as the list of its members. *)
Definition set_mem (k : ident) (s : list ident) : bool := existsb (ident_eqb k) s.

Definition set_add (k : ident) (s : list ident) : list ident :=
  if set_mem k s then s else k :: s.

Definition set_discard (k : ident) (s : list ident) : list ident :=
  filter (fun x => negb (ident_eqb k x)) s.

Definition lower_key (f : ident) : ident := (PyStr.lower (fst f), snd f).

(** [l.remove(x)]: the first element equal to [x] goes; [None] when there
    is none and the call raises. *)
Fixpoint list_remove (x : ident) (l : list ident) : option (list ident) :=
  match l with
  | [] => None
  | y :: l' =>
      if ident_eqb y x then Some l'
      else match list_remove x l' with
           | Some r => Some (y :: r)
           | None => None
           end
  end.

Definition save_favorites (o : save_outcome) (st : state) : bool * state :=
  match o with
  | Saved =>
      (true, mk (movies st) (favorites st) (_favorites_set st)
                (Holds (favorites st)))
  | Failed d => (false, mk (movies st) (favorites st) (_favorites_set st) d)
  end.

Definition load_favorites (st : state) : state :=
  match file st with
  | Holds entries =>
      mk (movies st) entries (map lower_key entries) (file st)
  | _ => mk (movies st) [] [] (file st)
  end.

Definition add_favorite (name : string) (year : Z) (o : save_outcome) (st : state)
  : result bool * state :=
  let name_lower := PyStr.lower name in
  if set_mem (name_lower, year) (_favorites_set st) then (Ok false, st)
  else
    let movie_exists :=
      existsb (fun m => String.eqb (PyStr.lower (Movie.name m)) name_lower
                        && (Movie.year m =? year)) (movies st) in
    if negb movie_exists then (Ok false, st)
    else
      let entry := (name, year) in
      let st1 := mk (movies st) (favorites st ++ [entry])%list
                    (set_add (name_lower, year) (_favorites_set st)) (file st) in
      let '(saved, st2) := save_favorites o st1 in
      if saved then (Ok true, st2)
      else
        match list_remove entry (favorites st2) with
        | Some l =>
            (Ok false,
             mk (movies st2) l
                (set_discard (name_lower, year) (_favorites_set st2)) (file st2))
        | None => (Raise ValueError, st2)
        end.

Definition remove_favorite (name : string) (year : Z) (o : save_outcome)
  (st : state) : bool * state :=
  let name_lower := PyStr.lower name in
  if negb (set_mem (name_lower, year) (_favorites_set st)) then (false, st)
  else
    let kept :=
      filter (fun f => negb (String.eqb (PyStr.lower (fst f)) name_lower
                             && (snd f =? year))) (favorites st) in
    save_favorites o
      (mk (movies st) kept (set_discard (name_lower, year) (_favorites_set st))
          (file st)).

Definition get_favorite_entries (st : state) : list ident := favorites st.

(** The first record of [movies] with exactly the name and year of [fav]. *)
Definition resolve (ms : list Movie.t) (fav : ident) : option Movie.t :=
  find (fun m => String.eqb (Movie.name m) (fst fav) && (Movie.year m =? snd fav)) ms.

Fixpoint get_favorite_movies_of (ms : list Movie.t) (favs : list ident)
  : list Movie.t :=
  match favs with
  | [] => []
  | fav :: rest =>
      match resolve ms fav with
      | Some m => m :: get_favorite_movies_of ms rest
      | None => get_favorite_movies_of ms rest
      end
  end.

Definition get_favorite_movies (st : state) : list Movie.t :=
  get_favorite_movies_of (movies st) (favorites st).

(** Whether a save succeeded. *)
Definition saved (o : save_outcome) : bool :=
  match o with
  | Saved => true
  | Failed _ => false
  end.


(** The set holds exactly the keys of the favorites. *)
Definition coherent (st : state) : Prop :=
  forall k, set_mem k (_favorites_set st) = true
            <-> In k (map lower_key (favorites st)).

End Fav.

(** ** Further sample data *)

Module Sample2.
(** The query made of the digit 2 and the superscript 2 (code point 178). *)
Definition two_squared : string :=
  String "2"%char (String (ascii_of_N 178) EmptyString).

(** Conversions that accept decimal digits only, for the examples. *)
Definition digits_to_Z (s : string) : option Z :=
  match PyStr.int s with
  | Ok z => Some z
  | Raise _ => None
  end.

Definition digits_to_Q (s : string) : option Q :=
  match PyStr.int s with
  | Ok z => Some (inject_Z z)
  | Raise _ => None
  end.

(** The sample library with no favorite and no favorites file. *)
Definition fav0 : Fav.state := Fav.mk Sample.library [] [] Fav.Missing.

(** The state after [add_favorite('Inception', 2010)]. *)
Definition fav1 : Fav.state :=
  Fav.mk Sample.library [("Inception", 2010)] [("inception", 2010)]
    (Fav.Holds [("Inception", 2010)]).

(** The state after [add_favorite('inception', 2010)]. *)
Definition fav_lower : Fav.state :=
  Fav.mk Sample.library [("inception", 2010)] [("inception", 2010)]
    (Fav.Holds [("inception", 2010)]).
(** A store whose collection is the sample library. *)
Definition store : Store.t :=
  Store.mk (fun r => nth r Sample.library Sample.inception) [0; 1; 2; 3]%nat.
End Sample2.

(** * Properties *)

(** ** The result monad *)

Lemma bind_ok {A B : Type} (r : result A) (k : A -> result B) (b : B) :
  bind r k = Ok b -> exists a, r = Ok a /\ k a = Ok b.
Proof.
  destruct r as [a | e]; simpl; intros H; [ eauto | discriminate ].
Qed.

Ltac inv_bind H :=
  let a := fresh "x" in
  let Ha := fresh "Hx" in
  apply bind_ok in H; destruct H as (a & Ha & H).

Ltac inv_ok H := injection H as H; subst.

(** ** Keys *)

Lemma key3_ltb_false (a b : key3) : key3_ltb a b = false <-> key3_ge a b.
Proof.
  destruct a as [[a1 a2] a3], b as [[b1 b2] b3].
  unfold key3_ltb, key3_ge, key3_compare.
  destruct (Qcompare_spec a1 b1) as [H1 | H1 | H1].
  - destruct (Qcompare_spec a2 b2) as [H2 | H2 | H2].
    + destruct (Qcompare_spec a3 b3) as [H3 | H3 | H3]; split; intros H;
        try discriminate; try reflexivity.
      * right; split; [ exact H1 | right; split; [ exact H2 | lra ] ].
      * exfalso; lra.
      * right; split; [ exact H1 | right; split; [ exact H2 | lra ] ].
    + split; intros H; [ discriminate | exfalso; lra ].
    + split; intros H; [ right; split; [ exact H1 | left; exact H2 ] | reflexivity ].
  - split; intros H; [ discriminate | exfalso; lra ].
  - split; intros H; [ left; exact H1 | reflexivity ].
Qed.

Lemma key3_ge_trans (a b c : key3) : key3_ge a b -> key3_ge b c -> key3_ge a c.
Proof.
  destruct a as [[a1 a2] a3], b as [[b1 b2] b3], c as [[c1 c2] c3].
  unfold key3_ge.
  intros [H | (H & [H' | (H' & H'')])] [K | (K & [K' | (K' & K'')])];
    try (left; lra);
    try (right; split; [ lra | left; lra ]).
  right; split; [ lra | right; split; lra ].
Qed.

Lemma key3_ltb_true_ge (a b : key3) : key3_ltb a b = true -> key3_ge b a.
Proof.
  destruct a as [[a1 a2] a3], b as [[b1 b2] b3].
  unfold key3_ltb, key3_ge, key3_compare.
  destruct (Qcompare_spec a1 b1) as [H1 | H1 | H1]; try discriminate.
  - destruct (Qcompare_spec a2 b2) as [H2 | H2 | H2]; try discriminate.
    + destruct (Qcompare_spec a3 b3) as [H3 | H3 | H3]; try discriminate.
      intros _. right; split; [ lra | right; split; lra ].
    + intros _. right; split; [ lra | left; exact H2 ].
  - intros _. left; exact H1.
Qed.

Lemma key3_eqb_spec (a b : key3) :
  key3_eqb a b = true
  <-> (fst (fst a) == fst (fst b) /\ snd (fst a) == snd (fst b) /\ snd a == snd b)%Q.
Proof.
  destruct a as [[a1 a2] a3], b as [[b1 b2] b3].
  unfold key3_eqb, key3_compare. simpl.
  destruct (Qcompare_spec a1 b1) as [H1 | H1 | H1];
    [ destruct (Qcompare_spec a2 b2) as [H2 | H2 | H2];
      [ destruct (Qcompare_spec a3 b3) as [H3 | H3 | H3] | | ] | | ];
    split; intros H; try discriminate; try reflexivity;
    try (repeat split; assumption);
    exfalso; destruct H as (K1 & K2 & K3); lra.
Qed.

(** A key below another one is not equal to what the other is equal to. *)
Lemma key3_ltb_eqb (a b k : key3) :
  key3_ltb a b = true -> key3_eqb a k = true -> key3_eqb b k = true -> False.
Proof.
  intros Hlt Ha Hb. apply key3_eqb_spec in Ha, Hb.
  destruct Ha as (A1 & A2 & A3), Hb as (B1 & B2 & B3).
  assert (He : key3_eqb a b = true).
  { apply key3_eqb_spec. repeat split; lra. }
  unfold key3_ltb in Hlt. unfold key3_eqb in He.
  destruct (key3_compare a b); discriminate.
Qed.

(** ** The stable descending sort *)

Section SortingFacts.
Context {A : Type}.
Variable key : A -> key3.

Lemma insert_desc_perm (x : A) (l : list A) :
    Permutation (insert_desc key x l) (x :: l).
  Proof.
    induction l as [| y l IH]; simpl.
    - apply Permutation_refl.
    - destruct (key3_ltb (key x) (key y)).
      + eapply perm_trans; [ apply perm_skip, IH | apply perm_swap ].
      + apply Permutation_refl.
  Qed.

Lemma sorted_desc_perm (l : list A) : Permutation (sorted_desc key l) l.
  Proof.
    induction l as [| x l IH]; simpl.
    - apply perm_nil.
    - eapply perm_trans; [ apply insert_desc_perm | apply perm_skip, IH ].
  Qed.

Lemma sorted_desc_in (l : list A) (x : A) : In x (sorted_desc key l) <-> In x l.
  Proof.
    split; apply Permutation_in;
      [ apply sorted_desc_perm | apply Permutation_sym, sorted_desc_perm ].
  Qed.

Lemma sorted_desc_length (l : list A) :
    List.length (sorted_desc key l) = List.length l.
  Proof. apply Permutation_length, sorted_desc_perm. Qed.

Lemma insert_desc_sorted (x : A) (l : list A) :
    StronglySorted (desc key) l -> StronglySorted (desc key) (insert_desc key x l).
  Proof.
    induction l as [| y l IH]; simpl; intros Hs.
    - constructor; [ constructor | constructor ].
    - inversion Hs as [| ? ? Hl Hy]; subst.
      destruct (key3_ltb (key x) (key y)) eqn:E.
      + constructor; [ apply IH, Hl | ].
        rewrite Forall_forall in *. intros z Hz.
        apply (Permutation_in _ (insert_desc_perm x l)) in Hz.
        destruct Hz as [<- | Hz]; [ apply key3_ltb_true_ge, E | apply Hy, Hz ].
      + apply key3_ltb_false in E.
        constructor; [ exact Hs | ].
        constructor; [ exact E | ].
        rewrite Forall_forall in *. intros z Hz.
        eapply key3_ge_trans; [ exact E | apply Hy, Hz ].
  Qed.

Lemma sorted_desc_sorted (l : list A) : StronglySorted (desc key) (sorted_desc key l).
  Proof.
    induction l as [| x l IH]; simpl.
    - constructor.
    - apply insert_desc_sorted, IH.
  Qed.

  (** The sort is stable: the elements of one key keep their order. *)
Lemma insert_desc_filter (k : key3) (x : A) (l : list A) :
  filter (fun y => key3_eqb (key y) k) (insert_desc key x l)
  = if key3_eqb (key x) k then x :: filter (fun y => key3_eqb (key y) k) l
    else filter (fun y => key3_eqb (key y) k) l.
Proof.
  induction l as [| y l IH]; simpl.
  - destruct (key3_eqb (key x) k); reflexivity.
  - destruct (key3_ltb (key x) (key y)) eqn:E; simpl.
    + rewrite IH. destruct (key3_eqb (key x) k) eqn:Ex; [ | reflexivity ].
      destruct (key3_eqb (key y) k) eqn:Ey; [ | reflexivity ].
      exfalso. exact (key3_ltb_eqb _ _ _ E Ex Ey).
    + destruct (key3_eqb (key x) k); reflexivity.
Qed.

Lemma sorted_desc_stable (k : key3) (l : list A) :
  filter (fun y => key3_eqb (key y) k) (sorted_desc key l)
  = filter (fun y => key3_eqb (key y) k) l.
Proof.
  induction l as [| x l IH]; simpl; [ reflexivity | ].
  rewrite insert_desc_filter, IH. reflexivity.
Qed.
End SortingFacts.

Lemma firstn_in {A : Type} (n : nat) (l : list A) (x : A) :
  In x (firstn n l) -> In x l.
Proof.
  revert n. induction l as [| y l IH]; intros [| n]; simpl; try tauto.
  intros [H | H]; [ left; exact H | right; exact (IH n H) ].
Qed.

Lemma StronglySorted_firstn {A : Type} (R : A -> A -> Prop) (n : nat) (l : list A) :
  StronglySorted R l -> StronglySorted R (firstn n l).
Proof.
  revert n. induction l as [| x l IH]; intros [| n] Hs; simpl; try constructor.
  - inversion Hs; subst. apply IH; assumption.
  - inversion Hs as [| ? ? _ Hx]; subst.
    rewrite Forall_forall in *. intros z Hz. apply Hx.
    exact (firstn_in n l z Hz).
Qed.

Lemma NoDup_firstn {A : Type} (n : nat) (l : list A) : NoDup l -> NoDup (firstn n l).
Proof.
  revert n. induction l as [| x l IH]; intros [| n] Hn; simpl; try constructor.
  - inversion Hn; subst. intros Hx. apply firstn_in in Hx. contradiction.
  - inversion Hn; subst. apply IH; assumption.
Qed.

Lemma slice_to_firstn {A : Type} (n : Z) (l : list A) :
  exists k, slice_to n l = firstn k l.
Proof.
  unfold slice_to. destruct (0 <=? n); eexists; reflexivity.
Qed.

Lemma cap_firstn {A : Type} (max_results : option Z) (l : list A) :
  exists k, cap max_results l = firstn k l.
Proof.
  destruct max_results as [n |]; simpl.
  - destruct (n =? 0); [ | apply slice_to_firstn ].
    exists (List.length l). symmetry. apply firstn_all.
  - exists (List.length l). symmetry. apply firstn_all.
Qed.

Lemma cap_in {A : Type} (max_results : option Z) (l : list A) (x : A) :
  In x (cap max_results l) -> In x l.
Proof.
  destruct (cap_firstn max_results l) as [k ->]. apply firstn_in.
Qed.

(** ** The dictionary and the deduplication *)

Lemma ident_eqb_eq (a b : ident) : ident_eqb a b = true <-> a = b.
Proof.
  destruct a as [n y], b as [n' y']. unfold ident_eqb; simpl.
  rewrite andb_true_iff, String.eqb_eq, Z.eqb_eq.
  split; [ intros [-> ->]; reflexivity | intros H; inversion H; auto ].
Qed.

Lemma ident_eqb_refl (a : ident) : ident_eqb a a = true.
Proof. apply ident_eqb_eq; reflexivity. Qed.

Lemma ident_eqb_neq (a b : ident) : ident_eqb a b = false <-> a <> b.
Proof.
  rewrite <- ident_eqb_eq. destruct (ident_eqb a b); split; congruence.
Qed.

Section DictFacts.
Context {V : Type}.
Implicit Types (d : PyDict.t V) (k : ident) (v : V).

Lemma get_set d k v k' :
    PyDict.get (PyDict.set d k v) k' =
    if ident_eqb k' k then Some v else PyDict.get d k'.
  Proof.
    induction d as [| [k0 v0] d IH]; simpl.
    - destruct (ident_eqb k' k); reflexivity.
    - destruct (ident_eqb k k0) eqn:E; simpl.
      + apply ident_eqb_eq in E; subst k0.
        destruct (ident_eqb k' k); reflexivity.
      + destruct (ident_eqb k' k0) eqn:E'.
        * apply ident_eqb_eq in E'; subst k0.
          destruct (ident_eqb k' k) eqn:E''; [ | reflexivity ].
          apply ident_eqb_eq in E''; subst k'.
          rewrite ident_eqb_refl in E; discriminate.
        * exact IH.
  Qed.

Lemma keys_set_in d k v k' :
    In k' (PyDict.keys (PyDict.set d k v)) -> k' = k \/ In k' (PyDict.keys d).
  Proof.
    induction d as [| [k0 v0] d IH]; simpl.
    - intros [H | []]; left; congruence.
    - destruct (ident_eqb k k0); simpl; intros [H | H]; auto.
      destruct (IH H); auto.
  Qed.

Lemma keys_set_nodup d k v :
    NoDup (PyDict.keys d) -> NoDup (PyDict.keys (PyDict.set d k v)).
  Proof.
    induction d as [| [k0 v0] d IH]; simpl; intros Hn.
    - constructor; [ intros [] | constructor ].
    - inversion Hn as [| ? ? Hk Hd]; subst.
      destruct (ident_eqb k k0) eqn:E; simpl.
      + constructor; assumption.
      + constructor; [ | apply IH, Hd ].
        intros Hin. apply keys_set_in in Hin. destruct Hin as [-> | Hin].
        * rewrite ident_eqb_refl in E; discriminate.
        * contradiction.
  Qed.

Lemma get_in d k v : PyDict.get d k = Some v -> In (k, v) d.
  Proof.
    induction d as [| [k0 v0] d IH]; simpl; [ discriminate | ].
    destruct (ident_eqb k k0) eqn:E.
    - apply ident_eqb_eq in E; subst. intros H; inversion H; auto.
    - auto.
  Qed.

Lemma in_get d k v : NoDup (PyDict.keys d) -> In (k, v) d -> PyDict.get d k = Some v.
  Proof.
    induction d as [| [k0 v0] d IH]; simpl; [ tauto | ].
    intros Hn [H | H]; inversion Hn as [| ? ? Hk Hd]; subst.
    - inversion H; subst. rewrite ident_eqb_refl. reflexivity.
    - destruct (ident_eqb k k0) eqn:E; [ | exact (IH Hd H) ].
      apply ident_eqb_eq in E; subst k0. exfalso. apply Hk.
      change k with (fst (k, v)). apply in_map, H.
  Qed.

Lemma get_none_keys d k :
  PyDict.get d k = None <-> existsb (ident_eqb k) (PyDict.keys d) = false.
Proof.
  induction d as [| [k0 v0] d IH]; simpl; [ tauto | ].
  destruct (ident_eqb k k0); simpl; [ split; discriminate | exact IH ].
Qed.

Lemma keys_set d k v :
  PyDict.keys (PyDict.set d k v)
  = if existsb (ident_eqb k) (PyDict.keys d) then PyDict.keys d
    else (PyDict.keys d ++ [k])%list.
Proof.
  induction d as [| [k0 v0] d IH]; simpl; [ reflexivity | ].
  destruct (ident_eqb k k0); simpl; [ reflexivity | ].
  rewrite IH. destruct (existsb (ident_eqb k) (PyDict.keys d)); reflexivity.
Qed.
End DictFacts.

Lemma best_inv_nil : best_inv [] [].
Proof.
  split; simpl.
  - constructor.
  - discriminate.
  - tauto.
Qed.

Lemma best_inv_step best seen m p :
  best_inv best seen -> best_inv (best_step best (m, p)) (seen ++ [(m, p)]).
Proof.
  intros [Hk Hm Ha]. unfold best_step.
  assert (Hset : forall p0,
             (forall m' p', In (m', p') seen -> ident_of m' = ident_of m -> p' <= p0) ->
             p0 <= p ->
             best_inv (PyDict.set best (ident_of m) (p, m)) (seen ++ [(m, p)])).
  { intros p0 Hp0 Hle. split.
    - apply keys_set_nodup, Hk.
    - intros k q m0. rewrite get_set.
      destruct (ident_eqb k (ident_of m)) eqn:E.
      + apply ident_eqb_eq in E. intros H; inversion H; subst.
        split; [ reflexivity | split; [ apply in_or_app; right; left; reflexivity | ] ].
        intros m' p' Hin Hid. apply in_app_or in Hin.
        destruct Hin as [Hin | [Heq | []]].
        * specialize (Hp0 _ _ Hin Hid). lia.
        * inversion Heq; lia.
      + apply ident_eqb_neq in E. intros H.
        destruct (Hm _ _ _ H) as (Hid & Hin & Hmax).
        split; [ exact Hid | split; [ apply in_or_app; left; exact Hin | ] ].
        intros m' p' Hin' Hid'. apply in_app_or in Hin'.
        destruct Hin' as [Hin' | [Heq | []]]; [ eauto | ].
        inversion Heq; subst. congruence.
    - intros m0 q Hin. rewrite get_set.
      destruct (ident_eqb (ident_of m0) (ident_of m)) eqn:E; [ discriminate | ].
      apply in_app_or in Hin. destruct Hin as [Hin | [Heq | []]]; [ eauto | ].
      exfalso. inversion Heq; subst.
      revert E. rewrite ident_eqb_refl. discriminate. }
  destruct (PyDict.get best (ident_of m)) as [[p0 m0] |] eqn:G.
  - destruct (Hm _ _ _ G) as (Hid & Hin & Hmax).
    destruct (p0 <? p) eqn:L.
    + apply Z.ltb_lt in L. apply (Hset p0); [ exact Hmax | lia ].
    + apply Z.ltb_ge in L. split.
      * exact Hk.
      * intros k q m1 H. destruct (Hm _ _ _ H) as (Hid' & Hin' & Hmax').
        split; [ exact Hid' | split; [ apply in_or_app; left; exact Hin' | ] ].
        intros m' p' Hin'' Hid''. apply in_app_or in Hin''.
        destruct Hin'' as [Hin'' | [Heq | []]]; [ eauto | ].
        inversion Heq; subst. rewrite Hid'' in G. rewrite G in H.
        inversion H; subst. exact L.
      * intros m1 q Hin1. apply in_app_or in Hin1.
        destruct Hin1 as [Hin1 | [Heq | []]]; [ eauto | ].
        inversion Heq; subst. rewrite G. discriminate.
  - apply (Hset p); [ | lia ].
    intros m' p' Hin Hid. exfalso. apply (Ha _ _ Hin). rewrite Hid. exact G.
Qed.

Lemma best_inv_fold l : forall best seen,
  best_inv best seen -> best_inv (fold_left best_step l best) (seen ++ l).
Proof.
  induction l as [| [m p] l IH]; intros best seen H; simpl.
  - rewrite app_nil_r. exact H.
  - replace (seen ++ (m, p) :: l)%list with ((seen ++ [(m, p)]) ++ l)%list
      by (rewrite <- app_assoc; reflexivity).
    apply IH, best_inv_step, H.
Qed.

Lemma dedupe_inv (mwp : list (Movie.t * Z)) : best_inv (dedupe mwp) mwp.
Proof. exact (best_inv_fold mwp [] [] best_inv_nil). Qed.

Lemma dedupe_idents (mwp : list (Movie.t * Z)) :
  map ident_of (map snd (PyDict.values (dedupe mwp))) = PyDict.keys (dedupe mwp).
Proof.
  destruct (dedupe_inv mwp) as [Hk Hm _].
  unfold PyDict.values, PyDict.keys. rewrite !map_map.
  apply map_ext_in. intros [k [p m]] Hin; simpl.
  apply (in_get _ _ _ Hk) in Hin. destruct (Hm _ _ _ Hin) as (-> & _). reflexivity.
Qed.

(** The keys of [best] are the identities of the collected pairs, each at
    the place of its first occurrence. *)
Lemma best_step_keys (best : PyDict.t (Z * Movie.t)) (mp : Movie.t * Z) :
  PyDict.keys (best_step best mp)
  = if existsb (ident_eqb (ident_of (fst mp))) (PyDict.keys best)
    then PyDict.keys best
    else (PyDict.keys best ++ [ident_of (fst mp)])%list.
Proof.
  destruct mp as [m p]. unfold best_step. cbn [fst].
  destruct (PyDict.get best (ident_of m)) as [[p0 m0] |] eqn:G.
  - assert (He : existsb (ident_eqb (ident_of m)) (PyDict.keys best) = true).
    { destruct (existsb (ident_eqb (ident_of m)) (PyDict.keys best)) eqn:E;
        [ reflexivity | ].
      apply get_none_keys in E. congruence. }
    rewrite He. destruct (p0 <? p); [ | reflexivity ].
    rewrite keys_set, He. reflexivity.
  - rewrite keys_set. reflexivity.
Qed.

Lemma dedupe_keys_first (mwp : list (Movie.t * Z)) :
  PyDict.keys (dedupe mwp)
  = first_collected [] (map (fun mp => ident_of (fst mp)) mwp).
Proof.
  unfold dedupe.
  change (first_collected [] (map (fun mp => ident_of (fst mp)) mwp))
    with (PyDict.keys (@nil (ident * (Z * Movie.t)))
          ++ first_collected (PyDict.keys (@nil (ident * (Z * Movie.t))))
               (map (fun mp => ident_of (fst mp)) mwp))%list.
  generalize (@nil (ident * (Z * Movie.t))) as best.
  induction mwp as [| mp l IH]; intros best; simpl.
  - rewrite app_nil_r. reflexivity.
  - rewrite IH, best_step_keys.
    destruct (existsb (ident_eqb (ident_of (fst mp))) (PyDict.keys best));
      [ reflexivity | ].
    rewrite <- app_assoc. reflexivity.
Qed.

Lemma dedupe_values_in (mwp : list (Movie.t * Z)) (m : Movie.t) :
  In m (map snd (PyDict.values (dedupe mwp))) ->
  In (m, _priority_of (dedupe mwp) m) mwp.
Proof.
  destruct (dedupe_inv mwp) as [Hk Hm _].
  unfold PyDict.values. rewrite map_map, in_map_iff.
  intros ([k [p m0]] & Heq & Hin); simpl in Heq; subst m0.
  apply (in_get _ _ _ Hk) in Hin. destruct (Hm _ _ _ Hin) as (-> & Hin' & _).
  unfold _priority_of. rewrite Hin. exact Hin'.
Qed.

Lemma dedupe_key_present (mwp : list (Movie.t * Z)) m p :
  In (m, p) mwp -> In (ident_of m) (map ident_of (collected_order mwp)).
Proof.
  intros Hin. unfold collected_order. rewrite dedupe_idents.
  destruct (dedupe_inv mwp) as [_ _ Hall]. specialize (Hall _ _ Hin).
  destruct (PyDict.get (dedupe mwp) (ident_of m)) as [v |] eqn:G; [ | congruence ].
  apply get_in in G. change (ident_of m) with (fst (ident_of m, v)).
  apply in_map, G.
Qed.

(** ** The structured filters *)

Lemma filter_r_in {A : Type} (p : A -> result bool) (l r : list A) :
  filter_r p l = Ok r -> forall x, In x r <-> In x l /\ p x = Ok true.
Proof.
  revert r. induction l as [| y l IH]; simpl; intros r H x.
  - inv_ok H. simpl. tauto.
  - inv_bind H. inv_bind H. inv_ok H. specialize (IH _ Hx0 x).
    destruct x0; simpl; rewrite IH; split.
    + intros [<- | [H1 H2]]; auto.
    + intros [[<- | H1] H2]; auto.
    + intros [H1 H2]; auto.
    + intros [[<- | H1] H2]; [ congruence | auto ].
Qed.

Lemma truthy_str (s : string) : truthy (PyStr s) = true <-> s <> "".
Proof.
  destruct s; simpl; split; congruence.
Qed.

Lemma filter_genre_in genre l r m :
  filter_genre genre l = Ok r -> In m r ->
  In m l /\ forall s, genre = PyStr s -> s <> "" -> genre_or_category_contains s m.
Proof.
  unfold filter_genre. destruct (truthy genre) eqn:T.
  - destruct genre as [| g | q]; simpl; try discriminate.
    intros H Hin. inv_ok H. apply filter_In in Hin. destruct Hin as [Hin Hc].
    split; [ exact Hin | ]. intros s Hs _. inversion Hs; subst.
    apply orb_true_iff in Hc. exact Hc.
  - intros H Hin. inv_ok H. split; [ exact Hin | ].
    intros s -> Hs. apply truthy_str in Hs. congruence.
Qed.

Lemma filter_category_in category l r m :
  filter_category category l = Ok r -> In m r ->
  In m l /\ forall s, category = PyStr s -> s <> "" -> genre_or_category_contains s m.
Proof.
  unfold filter_category. destruct (truthy category) eqn:T.
  - destruct category as [| g | q]; simpl; try discriminate.
    intros H Hin. inv_ok H. apply filter_In in Hin. destruct Hin as [Hin Hc].
    split; [ exact Hin | ]. intros s Hs _. inversion Hs; subst.
    apply orb_true_iff in Hc. unfold genre_or_category_contains. tauto.
  - intros H Hin. inv_ok H. split; [ exact Hin | ].
    intros s -> Hs. apply truthy_str in Hs. congruence.
Qed.

Lemma filter_min_rating_in v l r m :
  filter_min_rating v l = Ok r -> In m r ->
  In m l /\ forall q, v = PyNum q -> (q <= Movie.rating m)%Q.
Proof.
  unfold filter_min_rating. destruct v as [| s | q]; simpl; intros H Hin.
  - inv_ok H. split; [ exact Hin | discriminate ].
  - apply (filter_r_in _ _ _ H) in Hin. destruct Hin as [_ Hin]. discriminate.
  - apply (filter_r_in _ _ _ H) in Hin. destruct Hin as [Hin Hq].
    split; [ exact Hin | ]. intros q' Hq'. inversion Hq'; subst.
    simpl in Hq. inversion Hq as [Hb]. apply Qle_bool_iff, Hb.
Qed.

Lemma filter_year_in v l r m :
  filter_year v l = Ok r -> In m r ->
  In m l /\ forall q, v = PyNum q -> (inject_Z (Movie.year m) == q)%Q.
Proof.
  unfold filter_year. destruct v as [| s | q]; simpl; intros H Hin; inv_ok H.
  - split; [ exact Hin | discriminate ].
  - apply filter_In in Hin. destruct Hin as [_ Hin]. discriminate.
  - apply filter_In in Hin. destruct Hin as [Hin Hq].
    split; [ exact Hin | ]. intros q' Hq'. inversion Hq'; subst.
    apply Qeq_bool_iff, Hq.
Qed.

Lemma filter_year_from_in v l r m :
  filter_year_from v l = Ok r -> In m r ->
  In m l /\ forall q, v = PyNum q -> (q <= inject_Z (Movie.year m))%Q.
Proof.
  unfold filter_year_from. destruct v as [| s | q]; simpl; intros H Hin.
  - inv_ok H. split; [ exact Hin | discriminate ].
  - apply (filter_r_in _ _ _ H) in Hin. destruct Hin as [_ Hin]. discriminate.
  - apply (filter_r_in _ _ _ H) in Hin. destruct Hin as [Hin Hq].
    split; [ exact Hin | ]. intros q' Hq'. inversion Hq'; subst.
    simpl in Hq. inversion Hq as [Hb]. apply Qle_bool_iff, Hb.
Qed.

Lemma filter_year_to_in v l r m :
  filter_year_to v l = Ok r -> In m r ->
  In m l /\ forall q, v = PyNum q -> (inject_Z (Movie.year m) <= q)%Q.
Proof.
  unfold filter_year_to. destruct v as [| s | q]; simpl; intros H Hin.
  - inv_ok H. split; [ exact Hin | discriminate ].
  - apply (filter_r_in _ _ _ H) in Hin. destruct Hin as [_ Hin]. discriminate.
  - apply (filter_r_in _ _ _ H) in Hin. destruct Hin as [Hin Hq].
    split; [ exact Hin | ]. intros q' Hq'. inversion Hq'; subst.
    simpl in Hq. inversion Hq as [Hb]. apply Qle_bool_iff, Hb.
Qed.

Lemma apply_filters_in genre category min_rating year year_from year_to l r m :
  apply_filters genre category min_rating year year_from year_to l = Ok r ->
  In m r ->
  In m l /\ satisfies_filters genre category min_rating year year_from year_to m.
Proof.
  unfold apply_filters, genre_category_filters. intros H Hin.
  inv_bind H. inv_bind Hx. inv_bind H. inv_bind H. inv_bind H.
  destruct (filter_year_to_in _ _ _ _ H Hin) as [Hin5 H5].
  destruct (filter_year_from_in _ _ _ _ Hx3 Hin5) as [Hin4 H4].
  destruct (filter_year_in _ _ _ _ Hx2 Hin4) as [Hin3 H3].
  destruct (filter_min_rating_in _ _ _ _ Hx1 Hin3) as [Hin2 H2].
  destruct (filter_category_in _ _ _ _ Hx Hin2) as [Hin1 H1].
  destruct (filter_genre_in _ _ _ _ Hx0 Hin1) as [Hin0 H0].
  split; [ exact Hin0 | ]. unfold satisfies_filters. tauto.
Qed.

(** ** The matching stages only pair records of the filtered list *)

Lemma tier_matches_in tokens l m p :
  In (m, p) (tier_matches tokens l) -> In m l /\ tier_of tokens m = Some p.
Proof.
  induction l as [| y l IH]; simpl; [ tauto | ].
  destruct (tier_of tokens y) as [py |] eqn:E.
  - intros [H | H]; [ inversion H; subst; auto | destruct (IH H); auto ].
  - intros H; destruct (IH H); auto.
Qed.

Lemma text_matches_in q_lower present l mwp m p :
  text_matches q_lower present l = Ok mwp -> In (m, p) mwp -> In m l.
Proof.
  unfold text_matches.
  destruct (PyStr.is_empty q_lower && present).
  - intros H Hin. inv_ok H. apply in_map_iff in Hin.
    destruct Hin as (m' & Heq & Hin). inversion Heq; subst. exact Hin.
  - destruct (PyStr.isdigit q_lower).
    + intros H Hin. inv_bind H. inv_ok H. apply in_map_iff in Hin.
      destruct Hin as (m' & Heq & Hin). inversion Heq; subst.
      apply filter_In in Hin. tauto.
    + intros H Hin. inv_ok H. apply tier_matches_in in Hin. tauto.
Qed.

Section EngineFacts.
Variable _HAS_RAPIDFUZZ : bool.
Variable has_rprocess : bool.
Variable partial_ratio : string -> string -> option Q.

Lemma candidate_subset_in l mwp m :
  In m (candidate_subset_of l mwp) ->
  In m l /\ ~ In (ident_of m) (map (fun mp => ident_of (fst mp)) mwp).
Proof.
  unfold candidate_subset_of. intros H.
  apply firstn_in, sorted_desc_in, filter_In in H. destruct H as [H Hk].
  split; [ exact H | ]. intros Hin. apply negb_true_iff in Hk.
  assert (existsb (ident_eqb (ident_of m)) (map (fun mp => ident_of (fst mp)) mwp) = true)
    as Hex; [ | congruence ].
  apply existsb_exists. exists (ident_of m). split; [ exact Hin | apply ident_eqb_refl ].
Qed.

Lemma scored_of_results_in thr subset results sc s m :
  scored_of_results thr subset results = Ok sc -> In (s, m) sc -> In m subset.
Proof.
  revert sc. induction results as [| [[c s0] idx] rs IH]; simpl; intros sc H Hin.
  - inv_ok H. destruct Hin.
  - destruct (threshold_reached thr s0); [ | eauto ].
    destruct (nth_error subset idx) as [m0 |] eqn:E; [ | discriminate ].
    inv_bind H. inv_ok H. destruct Hin as [Heq | Hin]; [ | eauto ].
    inversion Heq; subst. eapply nth_error_In, E.
Qed.

Lemma scored_each_in q thr subset s m :
  In (s, m) (scored_each partial_ratio q thr subset) -> In m subset.
Proof.
  induction subset as [| y l IH]; simpl; [ tauto | ].
  destruct (threshold_reached thr _).
  - intros [H | H]; [ inversion H; auto | auto ].
  - auto.
Qed.

Lemma fuzzy_scored_in q thr subset sc s m :
  fuzzy_scored has_rprocess partial_ratio q thr subset = Ok sc ->
  In (s, m) sc -> In m subset.
Proof.
  unfold fuzzy_scored. destruct has_rprocess.
  - apply scored_of_results_in.
  - intros H. inv_ok H. apply scored_each_in.
Qed.

Lemma fuzzy_matches_in q thr l mwp extra m p :
  fuzzy_matches has_rprocess partial_ratio q thr l mwp = Ok extra ->
  In (m, p) extra ->
  In m l /\ ~ In (ident_of m) (map (fun mp => ident_of (fst mp)) mwp).
Proof.
  unfold fuzzy_matches. intros H Hin. inv_bind H. inv_ok H.
  apply in_map_iff in Hin. destruct Hin as ([s m'] & Heq & Hin).
  inversion Heq; subst. apply sorted_desc_in in Hin.
  eapply candidate_subset_in, fuzzy_scored_in; eassumption.
Qed.

Lemma fuzzy_stage_in enable_fuzzy q thr l mwp all m p :
  fuzzy_stage _HAS_RAPIDFUZZ has_rprocess partial_ratio enable_fuzzy q thr l mwp
  = Ok all ->
  In (m, p) all -> In (m, p) mwp \/ In m l.
Proof.
  unfold fuzzy_stage.
  destruct (enable_fuzzy && _HAS_RAPIDFUZZ && negb (PyStr.is_empty q)).
  - intros H Hin. inv_bind H. inv_ok H. apply in_app_or in Hin.
    destruct Hin as [Hin | Hin]; [ left; exact Hin | right ].
    eapply fuzzy_matches_in; eassumption.
  - intros H Hin. inv_ok H. left; exact Hin.
Qed.

Lemma collect_in q enable_fuzzy thr genre category min_rating year year_from
  year_to l mwp m p :
  collect _HAS_RAPIDFUZZ has_rprocess partial_ratio q enable_fuzzy thr genre
    category min_rating year year_from year_to l = Ok mwp ->
  In (m, p) mwp ->
  In m l /\ satisfies_filters genre category min_rating year year_from year_to m.
Proof.
  unfold collect. intros H Hin. inv_bind H. inv_bind H.
  apply (apply_filters_in _ _ _ _ _ _ _ _ m Hx).
  destruct (fuzzy_stage_in _ _ _ _ _ _ _ _ H Hin) as [Hin' | Hin'];
    [ eapply text_matches_in; eassumption | exact Hin' ].
Qed.

Lemma rank_in sort_by mwp ordered m :
  rank sort_by mwp = Ok ordered -> In m ordered ->
  In (m, _priority_of (dedupe mwp) m) mwp.
Proof.
  unfold rank. intros H Hin. inv_bind H. inv_ok H.
  apply sorted_desc_in in Hin. apply dedupe_values_in, Hin.
Qed.

Lemma rank_nodup sort_by mwp ordered :
  rank sort_by mwp = Ok ordered -> NoDup (map ident_of ordered).
Proof.
  unfold rank. intros H. inv_bind H. inv_ok H.
  eapply Permutation_NoDup.
  - apply Permutation_map, Permutation_sym, sorted_desc_perm.
  - rewrite dedupe_idents. apply (best_keys _ _ (dedupe_inv mwp)).
Qed.

(** [find_matches] either returns early with the empty list or runs
    [search] on the sanitized query. *)
Lemma find_matches_on_cases movies query_text max_results enable_fuzzy thr genre
  category min_rating year year_from year_to sort_by res :
  find_matches_on _HAS_RAPIDFUZZ has_rprocess partial_ratio movies query_text
    max_results enable_fuzzy thr genre category min_rating year year_from year_to
    sort_by = Ok res ->
  res = [] \/
  exists q mwp ordered,
    collect _HAS_RAPIDFUZZ has_rprocess partial_ratio q enable_fuzzy thr genre
      category min_rating year year_from year_to movies = Ok mwp
    /\ rank sort_by mwp = Ok ordered
    /\ res = cap max_results ordered.
Proof.
  unfold find_matches_on, search.
  destruct (if is_not_None query_text then sanitize_query query_text 100 else Ok "")
    as [q | e].
  - intros H. inv_bind H. inv_bind H. inv_ok H. right. eauto 6.
  - intros H. inv_ok H. left; reflexivity.
Qed.

(** The same with the query pinned: the pairs are those collected for the
    sanitized query of this call. *)
Lemma find_matches_on_run movies query_text max_results enable_fuzzy thr genre
  category min_rating year year_from year_to sort_by res :
  find_matches_on _HAS_RAPIDFUZZ has_rprocess partial_ratio movies query_text
    max_results enable_fuzzy thr genre category min_rating year year_from year_to
    sort_by = Ok res ->
  (forall e, sanitized_query query_text = Raise e -> res = [])
  /\ (forall q, sanitized_query query_text = Ok q ->
       exists mwp ordered,
         collect _HAS_RAPIDFUZZ has_rprocess partial_ratio q enable_fuzzy thr
           genre category min_rating year year_from year_to movies = Ok mwp
         /\ rank sort_by mwp = Ok ordered
         /\ res = cap max_results ordered).
Proof.
  unfold find_matches_on, search. fold (sanitized_query query_text).
  destruct (sanitized_query query_text) as [q0 | e0].
  - intros H. inv_bind H. inv_bind H. inv_ok H.
    split; [ discriminate | ].
    intros q Hq. inv_ok Hq. eauto.
  - intros H. inv_ok H. split; [ reflexivity | discriminate ].
Qed.

(** Every collected pair is represented in the ranked list. *)
Lemma rank_represents sort_by mwp ordered m p :
  rank sort_by mwp = Ok ordered -> In (m, p) mwp ->
  exists m', In m' ordered /\ ident_of m' = ident_of m.
Proof.
  unfold rank. intros H Hin. inv_bind H. inv_ok H.
  pose proof (dedupe_key_present mwp m p Hin) as Hk.
  apply in_map_iff in Hk. destruct Hk as (m' & He & Hm').
  exists m'. split; [ apply sorted_desc_in; exact Hm' | exact He ].
Qed.

End EngineFacts.

(** ** Claims on the whole search *)

Section Claims.
Variable _HAS_RAPIDFUZZ : bool.
Variable has_rprocess : bool.
Variable partial_ratio : string -> string -> option Q.


Lemma find_matches_on_in movies query_text max_results enable_fuzzy thr genre
  category min_rating year year_from year_to sort_by res m :
  find_matches_on _HAS_RAPIDFUZZ has_rprocess partial_ratio movies query_text max_results enable_fuzzy thr genre category
    min_rating year year_from year_to sort_by = Ok res ->
  In m res ->
  In m movies
  /\ satisfies_filters genre category min_rating year year_from year_to m.
Proof.
  intros H Hin. apply find_matches_on_cases in H.
  destruct H as [-> | (q & mwp & ordered & Hc & Hr & ->)]; [ destruct Hin | ].
  apply cap_in in Hin. eapply collect_in; [ exact Hc | ].
  eapply rank_in; eassumption.
Qed.

(** C5: every record returned by a search with a genre filter [g] and a
    minimum rating [r] (for instance ["Animation"] and [8.0]) has [g] as a
    case-insensitive substring of its genre or of its category and has a
    rating of at least [r]; it also passes every other supplied filter,
    the filters being a conjunction. *)
Theorem filter_conjunction movies query_text max_results enable_fuzzy thr g
  category r year year_from year_to sort_by res m :
  g <> "" ->
  find_matches_on _HAS_RAPIDFUZZ has_rprocess partial_ratio movies query_text max_results enable_fuzzy thr (PyStr g)
    category (PyNum r) year year_from year_to sort_by = Ok res ->
  In m res ->
  genre_or_category_contains g m
  /\ (r <= Movie.rating m)%Q
  /\ satisfies_filters (PyStr g) category (PyNum r) year year_from year_to m.
Proof.
  intros Hg H Hin.
  destruct (find_matches_on_in _ _ _ _ _ _ _ _ _ _ _ _ _ _ H Hin) as [_ Hs].
  pose proof Hs as (Hgenre & _ & Hrating & _).
  split; [ apply (Hgenre g eq_refl Hg) | ].
  split; [ apply (Hrating r eq_refl) | exact Hs ].
Qed.

(** C6: the returned list never holds two records with the same
    [(name, year)].  With the pairs collected for the query of the call,
    the merger keeps one record for each key collected, and each returned
    record is a pair of the highest priority among the collected pairs
    with its key. *)
Theorem identity_uniqueness movies query_text max_results enable_fuzzy thr genre
  category min_rating year year_from year_to sort_by res :
  find_matches_on _HAS_RAPIDFUZZ has_rprocess partial_ratio movies query_text max_results enable_fuzzy thr genre category
    min_rating year year_from year_to sort_by = Ok res ->
  NoDup (map ident_of res)
  /\ forall q, sanitized_query query_text = Ok q ->
       exists mwp ordered,
         collect _HAS_RAPIDFUZZ has_rprocess partial_ratio q enable_fuzzy thr genre category min_rating year year_from
           year_to movies = Ok mwp
         /\ rank sort_by mwp = Ok ordered
         /\ res = cap max_results ordered
         /\ NoDup (map ident_of ordered)
         /\ (forall m' p', In (m', p') mwp ->
                exists m, In m ordered /\ ident_of m = ident_of m')
         /\ forall m, In m ordered ->
              In (m, _priority_of (dedupe mwp) m) mwp
              /\ forall m' p', In (m', p') mwp -> ident_of m' = ident_of m ->
                               p' <= _priority_of (dedupe mwp) m.
Proof.
  intros H. apply find_matches_on_run in H. destruct H as [Hraise Hrun].
  split.
  - destruct (sanitized_query query_text) as [q | e] eqn:Hq.
    + destruct (Hrun q eq_refl) as (mwp & ordered & _ & Hr & ->).
      destruct (cap_firstn max_results ordered) as [k ->].
      rewrite <- firstn_map. apply NoDup_firstn. eapply rank_nodup, Hr.
    + rewrite (Hraise e eq_refl). constructor.
  - intros q Hq. destruct (Hrun q Hq) as (mwp & ordered & Hc & Hr & ->).
    exists mwp, ordered.
    split; [ exact Hc | split; [ exact Hr | split; [ reflexivity | ] ] ].
    split; [ eapply rank_nodup, Hr | split ].
    + intros m' p' Hin. eapply rank_represents; eassumption.
    + intros m Hin.
      pose proof (rank_in _ _ _ _ Hr Hin) as Hp.
      split; [ exact Hp | ].
      destruct (dedupe_inv mwp) as [_ Hmax Hall].
      unfold _priority_of in *.
      destruct (PyDict.get (dedupe mwp) (ident_of m)) as [[p0 m0] |] eqn:G.
      * destruct (Hmax _ _ _ G) as (_ & _ & Hle). exact Hle.
      * exfalso. exact (Hall _ _ Hp G).
Qed.

Lemma apply_filters_none (l : list Movie.t) :
  apply_filters PyNone PyNone PyNone PyNone PyNone PyNone l = Ok l.
Proof. reflexivity. Qed.

Lemma tier_matches_no_token (l : list Movie.t) : tier_matches [] l = [].
Proof.
  induction l as [| m l IH]; simpl; [ reflexivity | exact IH ].
Qed.

Lemma fuzzy_stage_empty_query enable_fuzzy thr l mwp :
  fuzzy_stage _HAS_RAPIDFUZZ has_rprocess partial_ratio enable_fuzzy "" thr l mwp
  = Ok mwp.
Proof.
  unfold fuzzy_stage. simpl. rewrite andb_false_r. reflexivity.
Qed.

Lemma sort_key_typed (o : option string) best :
  exists key, sort_key (opt_str o) best = Ok key.
Proof.
  unfold sort_key, opt_str, py_lower, bind.
  destruct o as [s |]; [ | simpl; eauto ].
  repeat match goal with
         | |- context [if ?b then _ else _] => destruct b
         end; eauto.
Qed.

Lemma rank_typed (o : option string) mwp :
  exists key,
    rank (opt_str o) mwp
    = Ok (sorted_desc key (map snd (PyDict.values (dedupe mwp)))).
Proof.
  unfold rank. destruct (sort_key_typed o (dedupe mwp)) as [key ->].
  exists key. reflexivity.
Qed.

Lemma cap_nil {A : Type} (max_results : option Z) : cap max_results (@nil A) = [].
Proof.
  destruct (cap_firstn max_results (@nil A)) as [k ->]. apply firstn_nil.
Qed.

Lemma search_empty_query movies max_results enable_fuzzy thr (o : option string) :
  search _HAS_RAPIDFUZZ has_rprocess partial_ratio "" max_results enable_fuzzy thr
    PyNone PyNone PyNone PyNone PyNone PyNone (opt_str o) movies = Ok [].
Proof.
  unfold search, collect. rewrite apply_filters_none. simpl.
  unfold text_matches. simpl. unfold query_tokens. simpl.
  rewrite tier_matches_no_token, fuzzy_stage_empty_query. simpl.
  destruct (rank_typed o []) as [key ->]. simpl. rewrite cap_nil. reflexivity.
Qed.

(** C10: with an empty query, or [None], and no filter, the search returns
    the empty list whatever the collection; the fuzzy stage adds nothing
    to an empty query. *)
Theorem empty_query_no_filters movies max_results enable_fuzzy thr
  (o : option string) :
  find_matches_on _HAS_RAPIDFUZZ has_rprocess partial_ratio movies PyNone
    max_results enable_fuzzy thr PyNone PyNone PyNone PyNone PyNone PyNone
    (opt_str o) = Ok []
  /\ find_matches_on _HAS_RAPIDFUZZ has_rprocess partial_ratio movies (PyStr "")
       max_results enable_fuzzy thr PyNone PyNone PyNone PyNone PyNone PyNone
       (opt_str o) = Ok []
  /\ forall l mwp,
       fuzzy_stage _HAS_RAPIDFUZZ has_rprocess partial_ratio enable_fuzzy "" thr
         l mwp = Ok mwp.
Proof.
  split; [ | split ].
  - apply search_empty_query.
  - apply search_empty_query.
  - intros l mwp. apply fuzzy_stage_empty_query.
Qed.

(** C3, as the code has it: [sanitize_query] raises a [TypeError] on an
    input that is not text; [find_matches] catches it and returns the empty
    list for a query that is neither text nor [None], and reads [None] as
    the empty query. *)
Theorem non_text_query movies (x : Q) (n : Z) max_results enable_fuzzy thr genre
  category min_rating year year_from year_to sort_by :
  sanitize_query (PyNum x) n = Raise TypeError
  /\ sanitize_query PyNone n = Raise TypeError
  /\ find_matches_on _HAS_RAPIDFUZZ has_rprocess partial_ratio movies (PyNum x)
       max_results enable_fuzzy thr genre category min_rating year year_from
       year_to sort_by = Ok []
  /\ find_matches_on _HAS_RAPIDFUZZ has_rprocess partial_ratio movies PyNone
       max_results enable_fuzzy thr genre category min_rating year year_from
       year_to sort_by
     = find_matches_on _HAS_RAPIDFUZZ has_rprocess partial_ratio movies
         (PyStr "") max_results enable_fuzzy thr genre category min_rating year
         year_from year_to sort_by.
Proof.
  repeat split; reflexivity.
Qed.

(** C8, as the code has it: a positive [max_results = n] returns at most
    [n] records; the default of [max_results] is 50, so a call that leaves
    it unset returns at most 50; with [max_results = 0] or [None] the result
    is the whole ranked list of the pairs collected for the query of the
    call, every collected record being represented in it. *)
Theorem max_results_cap movies query_text enable_fuzzy thr genre category
  min_rating year year_from year_to sort_by :
  (forall n res,
      0 < n ->
      find_matches_on _HAS_RAPIDFUZZ has_rprocess partial_ratio movies query_text
        (Some n) enable_fuzzy thr genre category min_rating year year_from
        year_to sort_by = Ok res ->
      Z.of_nat (List.length res) <= n)
  /\ (forall res,
         find_matches_on _HAS_RAPIDFUZZ has_rprocess partial_ratio movies
           query_text DEFAULT_MAX_RESULTS enable_fuzzy thr genre category
           min_rating year year_from year_to sort_by = Ok res ->
         Z.of_nat (List.length res) <= 50)
  /\ (forall max_results res,
         max_results = Some 0 \/ max_results = None ->
         find_matches_on _HAS_RAPIDFUZZ has_rprocess partial_ratio movies
           query_text max_results enable_fuzzy thr genre category min_rating
           year year_from year_to sort_by = Ok res ->
         forall q, sanitized_query query_text = Ok q ->
           exists mwp,
             collect _HAS_RAPIDFUZZ has_rprocess partial_ratio q enable_fuzzy thr
               genre category min_rating year year_from year_to movies = Ok mwp
             /\ rank sort_by mwp = Ok res
             /\ forall m p, In (m, p) mwp ->
                  exists m', In m' res /\ ident_of m' = ident_of m).
Proof.
  assert (Hpos : forall n res,
             0 < n ->
             find_matches_on _HAS_RAPIDFUZZ has_rprocess partial_ratio movies
               query_text (Some n) enable_fuzzy thr genre category min_rating
               year year_from year_to sort_by = Ok res ->
             Z.of_nat (List.length res) <= n).
  { intros n res Hn H. apply find_matches_on_cases in H.
    destruct H as [-> | (q & mwp & ordered & _ & _ & ->)]; [ simpl; lia | ].
    simpl. destruct (n =? 0) eqn:E; [ apply Z.eqb_eq in E; lia | ].
    unfold slice_to. destruct (0 <=? n) eqn:E'; [ | apply Z.leb_gt in E'; lia ].
    pose proof (firstn_le_length (Z.to_nat n) ordered). lia. }
  split; [ exact Hpos | split ].
  - intros res H. apply (Hpos 50 res); [ lia | exact H ].
  - intros max_results res Hmax H q Hq. apply find_matches_on_run in H.
    destruct H as [_ Hrun].
    destruct (Hrun q Hq) as (mwp & ordered & Hc & Hr & ->).
    assert (Hcap : cap max_results ordered = ordered)
      by (destruct Hmax as [-> | ->]; reflexivity).
    rewrite Hcap. exists mwp. split; [ exact Hc | split; [ exact Hr | ] ].
    intros m p Hin. eapply rank_represents; eassumption.
Qed.

Lemma StronglySorted_weaken {A : Type} (R R' : A -> A -> Prop) (l : list A) :
  (forall a b, R a b -> R' a b) -> StronglySorted R l -> StronglySorted R' l.
Proof.
  intros HR. induction 1 as [| a l Hs IH Ha]; constructor; [ exact IH | ].
  rewrite Forall_forall in *. intros b Hb. apply HR, Ha, Hb.
Qed.

Lemma key_year_order best a b :
  desc (key_year best) a b -> year_rating_priority_order (_priority_of best) a b.
Proof.
  unfold desc, key_year, key3_ge, year_rating_priority_order.
  rewrite <- Zlt_Qlt, inject_Z_injective, <- Zle_Qle. tauto.
Qed.

Lemma sort_key_year sort_by best :
  py_lower sort_by = Ok "year" -> sort_key sort_by best = Ok (key_year best).
Proof.
  destruct sort_by as [| s | q]; simpl; try discriminate.
  intros H. inv_ok H. unfold sort_key.
  assert (truthy (PyStr s) = true) as ->.
  { destruct s; [ discriminate | reflexivity ]. }
  simpl. rewrite H. reflexivity.
Qed.

Lemma key_year_same best (y : Z) (r : Q) (p : Z) (m : Movie.t) :
  key3_eqb (key_year best m) (inject_Z y, r, inject_Z p)
  = same_year_rating_priority (_priority_of best) y r p m.
Proof.
  apply Bool.eq_iff_eq_true. rewrite key3_eqb_spec.
  unfold same_year_rating_priority, key_year. simpl.
  rewrite !andb_true_iff, !Z.eqb_eq, Qeq_bool_iff, !inject_Z_injective. tauto.
Qed.

Lemma filter_firstn_prefix {A : Type} (f : A -> bool) (k : nat) (l : list A) :
  (filter f (firstn k l) ++ filter f (skipn k l))%list = filter f l.
Proof.
  rewrite <- filter_app, firstn_skipn. reflexivity.
Qed.

(** C1, as the code has it: with [sort_by] equal to ["year"] in any letter
    case the returned list is in descending order of the year, records of
    one year in descending order of the rating, and records of one year and
    rating in descending order of their match priority, the priority each
    record got for the query of the call; the revenue plays no part, and
    records equal in year, rating and priority come in the order in which
    they were collected, that is, in the order in which their keys
    [(name, year)] first occur among the collected pairs. *)
Theorem sort_by_year movies query_text max_results enable_fuzzy thr genre
  category min_rating year year_from year_to sort_by res :
  py_lower sort_by = Ok "year" ->
  find_matches_on _HAS_RAPIDFUZZ has_rprocess partial_ratio movies query_text
    max_results enable_fuzzy thr genre category min_rating year year_from year_to
    sort_by = Ok res ->
  StronglySorted (fun a b => Movie.year b <= Movie.year a) res
  /\ forall q, sanitized_query query_text = Ok q ->
       exists mwp,
         collect _HAS_RAPIDFUZZ has_rprocess partial_ratio q enable_fuzzy thr
           genre category min_rating year year_from year_to movies = Ok mwp
         /\ StronglySorted
              (year_rating_priority_order (_priority_of (dedupe mwp))) res
         /\ map ident_of (collected_order mwp)
            = first_collected [] (map (fun mp => ident_of (fst mp)) mwp)
         /\ forall y r p,
              exists rest,
                (filter (same_year_rating_priority (_priority_of (dedupe mwp))
                           y r p) res ++ rest)%list
                = filter (same_year_rating_priority (_priority_of (dedupe mwp))
                            y r p) (collected_order mwp).
Proof.
  intros Hsb H. apply find_matches_on_run in H. destruct H as [Hraise Hrun].
  assert (Hsorted : forall mwp ordered,
             rank sort_by mwp = Ok ordered ->
             StronglySorted
               (year_rating_priority_order (_priority_of (dedupe mwp)))
               (cap max_results ordered)).
  { intros mwp ordered Hr.
    destruct (cap_firstn max_results ordered) as [k ->].
    apply StronglySorted_firstn.
    unfold rank in Hr. rewrite (sort_key_year _ _ Hsb) in Hr. simpl in Hr.
    inv_ok Hr.
    eapply StronglySorted_weaken; [ apply key_year_order | ].
    apply sorted_desc_sorted. }
  split.
  - destruct (sanitized_query query_text) as [q | e] eqn:Hq.
    + destruct (Hrun q eq_refl) as (mwp & ordered & _ & Hr & ->).
      eapply StronglySorted_weaken; [ | exact (Hsorted mwp ordered Hr) ].
      intros a b [Hlt | [Heq _]]; lia.
    + rewrite (Hraise e eq_refl). constructor.
  - intros q Hq. destruct (Hrun q Hq) as (mwp & ordered & Hc & Hr & ->).
    exists mwp. split; [ exact Hc | split; [ exact (Hsorted mwp ordered Hr) | ] ].
    split.
    { unfold collected_order. rewrite dedupe_idents. apply dedupe_keys_first. }
    intros y r p.
    destruct (cap_firstn max_results ordered) as [k ->].
    exists (filter (same_year_rating_priority (_priority_of (dedupe mwp)) y r p)
              (skipn k ordered)).
    rewrite filter_firstn_prefix.
    unfold rank in Hr. rewrite (sort_key_year _ _ Hsb) in Hr. simpl in Hr.
    inv_ok Hr. unfold collected_order.
    transitivity
      (filter (fun m => key3_eqb (key_year (dedupe mwp) m)
                          (inject_Z y, r, inject_Z p))
              (sorted_desc (key_year (dedupe mwp))
                 (map snd (PyDict.values (dedupe mwp))))).
    { apply filter_ext. intros m. symmetry. apply key_year_same. }
    rewrite sorted_desc_stable.
    apply filter_ext. intros m. apply key_year_same.
Qed.

Lemma sanitized_typed (o : option string) :
  exists q,
    (if is_not_None (opt_str o) then sanitize_query (opt_str o) 100 else Ok "")
    = Ok q.
Proof.
  destruct o as [s |]; simpl; eauto.
Qed.

(** C4, as the code has it: a [min_rating] that is not a number is not
    read as an absent filter; for a text or [None] query the comparison
    [rating >= min_rating] raises a [TypeError] as soon as one record
    survives the genre and category filters.  A numeric [min_rating] is
    the inclusive bound on the rating of every returned record. *)
Theorem non_numeric_min_rating movies (o : option string) max_results enable_fuzzy
  thr genre category year year_from year_to sort_by :
  (forall s l,
      genre_category_filters genre category movies = Ok l ->
      l <> [] ->
      find_matches_on _HAS_RAPIDFUZZ has_rprocess partial_ratio movies (opt_str o)
        max_results enable_fuzzy thr genre category (PyStr s) year year_from
        year_to sort_by = Raise TypeError)
  /\ (forall r res m,
         find_matches_on _HAS_RAPIDFUZZ has_rprocess partial_ratio movies
           (opt_str o) max_results enable_fuzzy thr genre category (PyNum r) year
           year_from year_to sort_by = Ok res ->
         In m res -> (r <= Movie.rating m)%Q).
Proof.
  split.
  - intros s l Hl Hne. unfold find_matches_on.
    destruct (sanitized_typed o) as [q ->].
    unfold search, collect, apply_filters. rewrite Hl.
    destruct l as [| m l]; [ congruence | reflexivity ].
  - intros r res m H Hin.
    destruct (find_matches_on_in _ _ _ _ _ _ _ _ _ _ _ _ _ _ H Hin)
      as (_ & _ & _ & Hr & _).
    apply (Hr r eq_refl).
Qed.

Lemma lower_decimal_char (c : ascii) :
  PyStr.is_decimal_char c = true -> PyStr.lower_char c = c.
Proof.
  destruct c as [b0 b1 b2 b3 b4 b5 b6 b7].
  destruct b0, b1, b2, b3, b4, b5, b6, b7; vm_compute;
    intros H; solve [ reflexivity | discriminate H ].
Qed.

Lemma lower_decimal (q : string) :
  PyStr.forallb PyStr.is_decimal_char q = true -> PyStr.lower q = q.
Proof.
  induction q as [| c q IH]; simpl; [ reflexivity | ].
  intros H. apply andb_true_iff in H. destruct H as [Hc Hq].
  rewrite (lower_decimal_char c Hc), (IH Hq). reflexivity.
Qed.

Lemma decimal_isdigit (q : string) :
  PyStr.forallb PyStr.is_decimal_char q = true ->
  PyStr.forallb PyStr.is_digit_char q = true.
Proof.
  induction q as [| c q IH]; simpl; [ reflexivity | ].
  intros H. apply andb_true_iff in H. destruct H as [Hc Hq].
  rewrite (IH Hq). unfold PyStr.is_digit_char, PyStr.is_decimal_char in *.
  rewrite Hc. reflexivity.
Qed.

Lemma int_ok (q : string) (y : Z) :
  PyStr.int q = Ok y ->
  PyStr.is_empty q = false /\ PyStr.forallb PyStr.is_decimal_char q = true.
Proof.
  unfold PyStr.int.
  destruct (negb (PyStr.is_empty q) && PyStr.forallb PyStr.is_decimal_char q) eqn:E;
    [ | discriminate ].
  intros _. apply andb_true_iff in E. destruct E as [E1 E2].
  apply negb_true_iff in E1. auto.
Qed.

Lemma text_matches_numeric (q : string) (y : Z) present l :
  PyStr.int q = Ok y ->
  text_matches (if PyStr.is_empty q then "" else PyStr.lower q) present l
  = Ok (map (fun m => (m, 1000)) (filter (fun m => Movie.year m =? y) l)).
Proof.
  intros Hy. destruct (int_ok q y Hy) as [He Hd].
  rewrite He, (lower_decimal q Hd). unfold text_matches, PyStr.isdigit.
  rewrite He, (decimal_isdigit q Hd), Hy. reflexivity.
Qed.

Lemma fuzzy_stage_off enable_fuzzy q thr l mwp :
  enable_fuzzy && _HAS_RAPIDFUZZ = false ->
  fuzzy_stage _HAS_RAPIDFUZZ has_rprocess partial_ratio enable_fuzzy q thr l mwp
  = Ok mwp.
Proof.
  unfold fuzzy_stage. intros ->. reflexivity.
Qed.

Lemma dedupe_key_in (mwp : list (Movie.t * Z)) m p :
  In (m, p) mwp ->
  In (ident_of m) (map ident_of (map snd (PyDict.values (dedupe mwp)))).
Proof.
  intros Hin. rewrite dedupe_idents.
  destruct (dedupe_inv mwp) as [_ _ Hall]. specialize (Hall _ _ Hin).
  destruct (PyDict.get (dedupe mwp) (ident_of m)) as [v |] eqn:G; [ | congruence ].
  apply get_in in G. change (ident_of m) with (fst (ident_of m, v)).
  apply in_map, G.
Qed.

(** C2, as the code has it: for a query of decimal digits the tiered
    matcher pairs exactly the filtered records whose year is that integer
    with priority 1000 and runs no substring, prefix or token tier.  The
    fuzzy stage is not skipped for such a query; when it is disabled or no
    scorer is installed, the search returns only filtered records of that
    year, and all of them (up to identity) when the result is not capped. *)
Theorem numeric_query movies (s q : string) (y : Z) max_results enable_fuzzy thr
  genre category min_rating year year_from year_to (o : option string) fl :
  sanitize_query (PyStr s) 100 = Ok q ->
  PyStr.int q = Ok y ->
  apply_filters genre category min_rating year year_from year_to movies = Ok fl ->
  text_matches (if PyStr.is_empty q then "" else PyStr.lower q)
    (filters_present genre category min_rating year year_from year_to) fl
  = Ok (map (fun m => (m, 1000)) (filter (fun m => Movie.year m =? y) fl))
  /\ (enable_fuzzy && _HAS_RAPIDFUZZ = false ->
      exists res,
        find_matches_on _HAS_RAPIDFUZZ has_rprocess partial_ratio movies (PyStr s)
          max_results enable_fuzzy thr genre category min_rating year year_from
          year_to (opt_str o) = Ok res
        /\ (forall m, In m res -> In m fl /\ Movie.year m = y)
        /\ (max_results = Some 0 \/ max_results = None ->
            forall m, In m fl -> Movie.year m = y ->
                      In (ident_of m) (map ident_of res))).
Proof.
  intros Hs Hy Hf. split; [ apply text_matches_numeric, Hy | ].
  intros Hoff. unfold find_matches_on. simpl is_not_None. cbv iota. rewrite Hs.
  unfold search, collect. rewrite Hf. simpl bind at 1.
  rewrite (text_matches_numeric q y _ fl Hy). simpl bind at 1.
  rewrite (fuzzy_stage_off _ _ _ _ _ Hoff). simpl bind at 1.
  set (mwp := map (fun m => (m, 1000)) (filter (fun m => Movie.year m =? y) fl)).
  destruct (rank_typed o mwp) as [key Hr]. rewrite Hr. simpl bind.
  eexists. split; [ reflexivity | split ].
  - intros m Hin. apply cap_in in Hin.
    pose proof (rank_in _ _ _ _ Hr Hin) as Hp. unfold mwp in Hp.
    apply in_map_iff in Hp. destruct Hp as (m' & Heq & Hin').
    inversion Heq; subst m'. apply filter_In in Hin'.
    destruct Hin' as [Hin' Hyear]. apply Z.eqb_eq in Hyear. auto.
  - intros Hmax m Hin Hyear.
    assert (Hcap : cap max_results
                     (sorted_desc key (map snd (PyDict.values (dedupe mwp))))
                   = sorted_desc key (map snd (PyDict.values (dedupe mwp)))).
    { destruct Hmax as [-> | ->]; reflexivity. }
    rewrite Hcap.
    eapply Permutation_in;
      [ apply Permutation_map, Permutation_sym, sorted_desc_perm | ].
    apply (dedupe_key_in mwp m 1000). unfold mwp.
    apply in_map_iff. exists m. split; [ reflexivity | ].
    apply filter_In. split; [ exact Hin | apply Z.eqb_eq, Hyear ].
Qed.

(** ** The fuzzy stage *)

Lemma py_int_nonneg (s : Q) : (0 <= s)%Q -> py_int s = Qfloor s.
Proof.
  destruct s as [n d]. unfold py_int, Qfloor, Qle; simpl. intros H.
  apply Z.quot_div_nonneg; lia.
Qed.

Lemma py_int_integer (s : Q) (z : Z) : (s == inject_Z z)%Q -> py_int s = z.
Proof.
  destruct s as [n d]. unfold py_int, Qeq; simpl. intros H.
  rewrite Z.mul_1_r in H. subst n. apply Z.quot_mul. lia.
Qed.

Lemma py_int_range (s : Q) : (0 <= s)%Q -> (s <= 100)%Q -> 0 <= py_int s <= 100.
Proof.
  intros H0 H100. rewrite (py_int_nonneg s H0). split.
  - change 0 with (Qfloor (inject_Z 0)). apply Qfloor_resp_le, H0.
  - rewrite <- (Qfloor_Z 100). apply Qfloor_resp_le, H100.
Qed.

Lemma score_all_in q choices : forall i r,
  score_all partial_ratio q i choices = Some r ->
  forall c s idx,
    In (c, s, idx) r <->
    exists k, idx = (i + k)%nat /\ nth_error choices k = Some c
              /\ partial_ratio q c = Some s.
Proof.
  induction choices as [| c0 cs IH]; simpl; intros i r H c s idx.
  - inversion H; subst. simpl. split; [ tauto | ].
    intros ([| k] & _ & Hk & _); discriminate.
  - destruct (partial_ratio q c0) as [s0 |] eqn:E0; [ | discriminate ].
    destruct (score_all partial_ratio q (S i) cs) as [r' |] eqn:E; [ | discriminate ].
    inversion H; subst. simpl. rewrite (IH _ _ E c s idx). split.
    + intros [Heq | (k & -> & Hk & Hs)].
      * inversion Heq; subst. exists 0%nat. rewrite Nat.add_0_r. auto.
      * exists (S k). rewrite Nat.add_succ_r. auto.
    + intros ([| k] & -> & Hk & Hs); simpl in Hk.
      * inversion Hk; subst. left. rewrite Nat.add_0_r.
        rewrite E0 in Hs. inversion Hs. reflexivity.
      * right. exists k. rewrite Nat.add_succ_r. auto.
Qed.

Lemma score_all_total q choices : forall i,
  (forall c, In c choices -> partial_ratio q c <> None) ->
  exists r, score_all partial_ratio q i choices = Some r.
Proof.
  induction choices as [| c0 cs IH]; simpl; intros i H; [ eauto | ].
  destruct (partial_ratio q c0) as [s0 |] eqn:E0;
    [ | exfalso; apply (H c0); auto ].
  destruct (IH (S i)) as [r ->]; [ intros c Hc; apply H; auto | eauto ].
Qed.

Lemma scored_of_results_spec thr subset results :
  (forall c s idx, In (c, s, idx) results -> (idx < List.length subset)%nat) ->
  exists sc,
    scored_of_results thr subset results = Ok sc
    /\ forall s m,
         In (s, m) sc <->
         exists c idx, In (c, s, idx) results
                       /\ threshold_reached thr s = true
                       /\ nth_error subset idx = Some m.
Proof.
  induction results as [| [[c0 s0] i0] rs IH]; simpl; intros Hr.
  - exists []. split; [ reflexivity | ]. intros s m. simpl. split; [ tauto | ].
    intros (c & idx & [] & _).
  - destruct IH as (sc & Hsc & Hin); [ intros c s idx H; eapply Hr; eauto | ].
    rewrite Hsc. destruct (threshold_reached thr s0) eqn:T.
    + destruct (nth_error subset i0) as [m0 |] eqn:E.
      * exists ((s0, m0) :: sc). split; [ reflexivity | ].
        intros s m. simpl. rewrite Hin. split.
        -- intros [Heq | (c & idx & H1 & H2 & H3)].
           ++ inversion Heq; subst. exists c0, i0. auto.
           ++ exists c, idx. auto.
        -- intros (c & idx & [Heq | H1] & H2 & H3).
           ++ inversion Heq; subst. left. congruence.
           ++ right. exists c, idx. auto.
      * exfalso. apply nth_error_None in E.
        specialize (Hr c0 s0 i0 (or_introl eq_refl)). lia.
    + exists sc. split; [ reflexivity | ].
      intros s m. rewrite Hin. split.
      * intros (c & idx & H1 & H2 & H3). exists c, idx. auto.
      * intros (c & idx & [Heq | H1] & H2 & H3).
        -- inversion Heq; subst. congruence.
        -- exists c, idx. auto.
Qed.

Lemma scored_each_spec q thr subset s m :
  In (s, m) (scored_each partial_ratio q thr subset) <->
  In m subset
  /\ s = match partial_ratio q (search_text m) with Some x => x | None => 0%Q end
  /\ threshold_reached thr s = true.
Proof.
  induction subset as [| y l IH]; simpl; [ tauto | ].
  set (sy := match partial_ratio q (search_text y) with
             | Some x => x
             | None => 0%Q
             end).
  destruct (threshold_reached thr sy) eqn:T; simpl; rewrite IH; split.
  - intros [Heq | (H1 & H2 & H3)]; [ inversion Heq; subst; auto | auto ].
  - intros ([-> | H1] & H2 & H3); [ left; unfold sy; congruence | auto ].
  - intros (H1 & H2 & H3); auto.
  - intros ([-> | H1] & H2 & H3); [ unfold sy in T; congruence | auto ].
Qed.

(** Where the scorer answers on every candidate, a candidate is kept with
    its own score exactly when that score reaches the threshold. *)
Lemma fuzzy_scored_spec q thr subset :
  (has_rprocess = true ->
   forall m, In m subset -> partial_ratio q (search_text m) <> None) ->
  exists sc,
    fuzzy_scored has_rprocess partial_ratio q thr subset = Ok sc
    /\ forall m s,
         partial_ratio q (search_text m) = Some s ->
         forall s', In (s', m) sc <->
                    In m subset /\ s' = s /\ threshold_reached thr s = true.
Proof.
  intros Hall. unfold fuzzy_scored. destruct has_rprocess.
  - specialize (Hall eq_refl). unfold extract.
    destruct (score_all_total q (map search_text subset) 0) as [r Hr].
    { intros c Hc. apply in_map_iff in Hc. destruct Hc as (m & <- & Hm). auto. }
    rewrite Hr.
    assert (Hres : forall c s idx,
               In (c, s, idx) (sorted_desc (fun x => (snd (fst x), 0%Q, 0%Q)) r) <->
               exists m, nth_error subset idx = Some m /\ c = search_text m
                         /\ partial_ratio q c = Some s).
    { intros c s idx. rewrite sorted_desc_in, (score_all_in _ _ _ _ Hr). simpl.
      split.
      - intros (k & -> & Hk & Hs). rewrite nth_error_map in Hk.
        destruct (nth_error subset k) as [m |]; [ | discriminate ].
        inversion Hk; subst. eauto.
      - intros (m & Hm & -> & Hs). exists idx. rewrite nth_error_map, Hm. auto. }
    destruct (scored_of_results_spec thr subset
                (sorted_desc (fun x => (snd (fst x), 0%Q, 0%Q)) r))
      as (sc & Hsc & Hin).
    { intros c s idx H. apply Hres in H. destruct H as (m & Hm & _).
      apply nth_error_Some. congruence. }
    exists sc. split; [ exact Hsc | ].
    intros m s Hs s'. rewrite Hin. split.
    + intros (c & idx & H1 & H2 & H3). apply Hres in H1.
      destruct H1 as (m' & Hm' & -> & Hs').
      assert (m' = m) by congruence. subst m'.
      assert (s' = s) by congruence. subst s'.
      split; [ eapply nth_error_In, H3 | auto ].
    + intros (Hm & -> & T). destruct (In_nth_error _ _ Hm) as [idx Hidx].
      exists (search_text m), idx. split; [ | auto ].
      apply Hres. eauto.
  - eexists. split; [ reflexivity | ].
    intros m s Hs s'. rewrite scored_each_spec, Hs. split.
    + intros (H1 & -> & H3). auto.
    + intros (H1 & -> & H3). auto.
Qed.

(** C7: for a candidate of the fuzzy stage that the scorer gives the score
    [s], the stage pairs it with priority [int(s)] exactly when [s] is at
    least [fuzzy_threshold]: a score equal to the threshold is kept, a
    score of one less is dropped; on the scorer's range of 0 to 100 the
    priority lies between 0 and 100, below the tiers 800, 900 and 1000. *)
Theorem fuzzy_threshold_boundary q thr l mwp m s :
  In m (candidate_subset_of l mwp) ->
  partial_ratio q (search_text m) = Some s ->
  (has_rprocess = true ->
   forall m', In m' (candidate_subset_of l mwp) ->
              partial_ratio q (search_text m') <> None) ->
  exists extra,
    fuzzy_matches has_rprocess partial_ratio q thr l mwp = Ok extra
    /\ ((exists p, In (m, p) extra) <-> (inject_Z thr <= s)%Q)
    /\ (forall p, In (m, p) extra -> p = py_int s)
    /\ ((s == inject_Z thr)%Q -> In (m, thr) extra)
    /\ ((s == inject_Z (thr - 1))%Q -> forall p, ~ In (m, p) extra)
    /\ ((0 <= s)%Q -> (s <= 100)%Q ->
        forall p, In (m, p) extra -> 0 <= p <= 100 /\ p < 800).
Proof.
  intros Hm Hs Hall. unfold fuzzy_matches.
  destruct (fuzzy_scored_spec q thr (candidate_subset_of l mwp) Hall)
    as (sc & -> & Hsc).
  simpl. eexists. split; [ reflexivity | ].
  set (key := fun x : Q * Movie.t =>
                (fst x, Movie.rating (snd x), Movie.box_office_millions (snd x))).
  assert (Hin : forall p,
             In (m, p) (map (fun sm : Q * Movie.t => (snd sm, py_int (fst sm)))
                            (sorted_desc key sc))
             <-> p = py_int s /\ (inject_Z thr <= s)%Q).
  { intros p. rewrite in_map_iff. split.
    - intros ([s' m'] & Heq & H). simpl in Heq. inversion Heq; subst m' p.
      apply sorted_desc_in, (Hsc m s Hs) in H. destruct H as (_ & -> & T).
      split; [ reflexivity | apply Qle_bool_iff, T ].
    - intros (-> & T). exists (s, m). split; [ reflexivity | ].
      apply sorted_desc_in, (Hsc m s Hs).
      split; [ exact Hm | split; [ reflexivity | apply Qle_bool_iff, T ] ]. }
  split; [ | split; [ | split; [ | split ] ] ].
  - split.
    + intros (p & Hp). apply Hin in Hp. tauto.
    + intros T. exists (py_int s). apply Hin. auto.
  - intros p Hp. apply Hin in Hp. tauto.
  - intros Heq. apply Hin. split.
    + symmetry. apply py_int_integer, Heq.
    + rewrite Heq. apply Qle_refl.
  - intros Heq p Hp. apply Hin in Hp. destruct Hp as [_ T].
    rewrite Heq, <- Zle_Qle in T. lia.
  - intros H0 H100 p Hp. apply Hin in Hp. destruct Hp as [-> _].
    pose proof (py_int_range s H0 H100). lia.
Qed.

End Claims.

(** ** The store can change: [add_movie] appends to it *)

Lemma add_movie_extends (movie : Movie.t) (g : globals) :
  existsb (ident_eqb (PyStr.lower (Movie.name movie), Movie.year movie))
    (map (fun m => (PyStr.lower (Movie.name m), Movie.year m)) (movies g)) = false ->
  add_movie movie g
  = (true, mk_globals (movies g ++ [ensure_search_fields movie])%list (favorites g)).
Proof.
  intros H. unfold add_movie, st_bind, read_movies, write_movies, ret.
  rewrite H. reflexivity.
Qed.

(** ** The claims on concrete collections *)

(** A search for the genre ["Animation"] with a minimum rating of 8 on the
    sample library. *)
Lemma filter_conjunction_witness :
  find_matches_on true true Sample.substring_scorer Sample.library (PyStr "")
    DEFAULT_MAX_RESULTS true DEFAULT_FUZZY_THRESHOLD (PyStr "Animation") PyNone
    (PyNum 8) PyNone PyNone PyNone PyNone = Ok [Sample.coco; Sample.toy_story]
  /\ genre_or_category_contains "Animation" Sample.toy_story
  /\ (8 <= Movie.rating Sample.toy_story)%Q.
Proof.
  assert (H : find_matches_on true true Sample.substring_scorer Sample.library
                (PyStr "") DEFAULT_MAX_RESULTS true DEFAULT_FUZZY_THRESHOLD
                (PyStr "Animation") PyNone (PyNum 8) PyNone PyNone PyNone PyNone
              = Ok [Sample.coco; Sample.toy_story]) by (vm_compute; reflexivity).
  split; [ exact H | ].
  destruct (filter_conjunction true true Sample.substring_scorer Sample.library
              (PyStr "") DEFAULT_MAX_RESULTS true DEFAULT_FUZZY_THRESHOLD
              "Animation" PyNone 8 PyNone PyNone PyNone PyNone
              [Sample.coco; Sample.toy_story] Sample.toy_story)
    as (Hg & Hr & _).
  - discriminate.
  - exact H.
  - simpl; auto.
  - split; assumption.
Defined.

Lemma identity_uniqueness_witness :
  exists mwp ordered,
    collect true true Sample.substring_scorer "a" true DEFAULT_FUZZY_THRESHOLD
      PyNone PyNone PyNone PyNone PyNone PyNone Sample.library = Ok mwp
    /\ rank PyNone mwp = Ok ordered
    /\ [Sample.coco; Sample.toy_story] = cap (Some 2) ordered
    /\ NoDup (map ident_of ordered).
Proof.
  destruct (proj2 (identity_uniqueness true true Sample.substring_scorer
                     Sample.library (PyStr "a") (Some 2) true
                     DEFAULT_FUZZY_THRESHOLD PyNone PyNone PyNone PyNone PyNone
                     PyNone PyNone [Sample.coco; Sample.toy_story]
                     ltac:(vm_compute; reflexivity))
             "a" ltac:(vm_compute; reflexivity))
    as (mwp & ordered & Hc & Hr & He & Hn & _).
  exists mwp, ordered. repeat split; assumption.
Defined.

Lemma max_results_cap_witness :
  0 < 2
  /\ Z.of_nat (List.length [Sample.coco; Sample.toy_story]) <= 2
  /\ exists mwp,
       collect false false Sample.no_scorer "echo" true DEFAULT_FUZZY_THRESHOLD
         PyNone PyNone PyNone PyNone PyNone PyNone Sample.echoes = Ok mwp
       /\ rank PyNone mwp = Ok Sample.echoes.
Proof.
  split; [ lia | split ].
  - apply (proj1 (max_results_cap true true Sample.substring_scorer
                    Sample.library (PyStr "a") true DEFAULT_FUZZY_THRESHOLD PyNone
                    PyNone PyNone PyNone PyNone PyNone PyNone)
             2 [Sample.coco; Sample.toy_story]).
    + lia.
    + vm_compute; reflexivity.
  - destruct (proj2 (proj2 (max_results_cap false false Sample.no_scorer
                              Sample.echoes (PyStr "echo") true
                              DEFAULT_FUZZY_THRESHOLD PyNone PyNone PyNone PyNone
                              PyNone PyNone PyNone))
               (Some 0) Sample.echoes (or_introl eq_refl)
               ltac:(vm_compute; reflexivity) "echo" ltac:(vm_compute; reflexivity))
      as (mwp & Hc & Hr & _).
    exists mwp. split; assumption.
Defined.

Lemma sort_by_year_witness :
  StronglySorted (fun a b => Movie.year b <= Movie.year a)
    [Sample.coco; Sample.social_network; Sample.toy_story]
  /\ exists mwp,
       collect true true Sample.substring_scorer "a" true DEFAULT_FUZZY_THRESHOLD
         PyNone PyNone PyNone PyNone PyNone PyNone Sample.library = Ok mwp
       /\ StronglySorted
            (year_rating_priority_order (_priority_of (dedupe mwp)))
            [Sample.coco; Sample.social_network; Sample.toy_story].
Proof.
  destruct (sort_by_year true true Sample.substring_scorer Sample.library
              (PyStr "a") DEFAULT_MAX_RESULTS true DEFAULT_FUZZY_THRESHOLD
              PyNone PyNone PyNone PyNone PyNone PyNone (PyStr "Year")
              [Sample.coco; Sample.social_network; Sample.toy_story]
              ltac:(reflexivity) ltac:(vm_compute; reflexivity))
    as [Hy Hq].
  split; [ exact Hy | ].
  destruct (Hq "a" ltac:(vm_compute; reflexivity)) as (mwp & Hc & Hs & _).
  exists mwp. split; assumption.
Defined.

Lemma non_numeric_min_rating_witness :
  find_matches_on true true Sample.substring_scorer Sample.library
    (opt_str (Some "toy")) DEFAULT_MAX_RESULTS true DEFAULT_FUZZY_THRESHOLD
    (PyStr "Animation") PyNone (PyStr "high") PyNone PyNone PyNone PyNone
  = Raise TypeError.
Proof.
  apply (proj1 (non_numeric_min_rating true true Sample.substring_scorer
                  Sample.library (Some "toy") DEFAULT_MAX_RESULTS true
                  DEFAULT_FUZZY_THRESHOLD (PyStr "Animation") PyNone PyNone PyNone
                  PyNone PyNone)
           "high" [Sample.toy_story; Sample.coco]).
  - vm_compute; reflexivity.
  - discriminate.
Defined.

Lemma numeric_query_witness :
  exists res,
    find_matches_on true true Sample.substring_scorer Sample.library
      (PyStr " 2010 ") (Some 0) false DEFAULT_FUZZY_THRESHOLD PyNone PyNone PyNone
      PyNone PyNone PyNone (opt_str None) = Ok res
    /\ (forall m, In m res -> In m Sample.library /\ Movie.year m = 2010).
Proof.
  destruct (proj2 (numeric_query true true Sample.substring_scorer Sample.library
                     " 2010 " "2010" 2010 (Some 0) false DEFAULT_FUZZY_THRESHOLD
                     PyNone PyNone PyNone PyNone PyNone PyNone None Sample.library
                     ltac:(vm_compute; reflexivity) ltac:(vm_compute; reflexivity)
                     ltac:(reflexivity))
             ltac:(reflexivity))
    as (res & Hres & Hin & _).
  exists res. split; assumption.
Defined.

Lemma fuzzy_threshold_boundary_witness :
  exists extra,
    fuzzy_matches true (Sample.constant_scorer 70) "incption" 70
      [Sample.inception] [] = Ok extra
    /\ In (Sample.inception, 70) extra.
Proof.
  destruct (fuzzy_threshold_boundary true (Sample.constant_scorer 70) "incption" 70
              [Sample.inception] [] Sample.inception 70%Q)
    as (extra & He & _ & _ & Hkeep & _).
  - vm_compute; auto.
  - reflexivity.
  - intros _ m' _. discriminate.
  - exists extra. split; [ exact He | apply Hkeep; reflexivity ].
Defined.

(** C1: two records of one year and one rating come out in the order of
    the collection, the smaller revenue first. *)
Lemma sort_by_year_ignores_revenue :
  find_matches_on false false Sample.no_scorer [Sample.small_hit; Sample.big_hit]
    (PyStr "echo") DEFAULT_MAX_RESULTS true DEFAULT_FUZZY_THRESHOLD PyNone PyNone
    PyNone PyNone PyNone PyNone (PyStr "year")
  = Ok [Sample.small_hit; Sample.big_hit]
  /\ ~ StronglySorted year_rating_revenue_order [Sample.small_hit; Sample.big_hit].
Proof.
  split; [ vm_compute; reflexivity | ].
  intros H. inversion H as [| a l _ Hall]; subst.
  inversion Hall as [| b l' Hord _]; subst.
  unfold year_rating_revenue_order in Hord; simpl in Hord.
  destruct Hord as [Hy | (_ & [Hr | (_ & Hb)])].
  - lia.
  - revert Hr. unfold Qlt; simpl. lia.
  - revert Hb. unfold Qle; simpl. lia.
Qed.

(** C2: with the fuzzy stage on, the query ["2010"] also returns a record
    of 1984 whose text contains the query. *)
Lemma numeric_query_reaches_fuzzy_stage :
  find_matches_on true true Sample.substring_scorer
    [Sample.inception; Sample.odyssey_two] (PyStr "2010") DEFAULT_MAX_RESULTS true
    DEFAULT_FUZZY_THRESHOLD PyNone PyNone PyNone PyNone PyNone PyNone PyNone
  = Ok [Sample.inception; Sample.odyssey_two]
  /\ Movie.year Sample.odyssey_two <> 2010.
Proof.
  split; [ vm_compute; reflexivity | discriminate ].
Qed.

(** C3: a query that is a number gives the empty list, not an error. *)
Lemma non_text_query_returns_empty :
  find_matches_on true true Sample.substring_scorer Sample.library (PyNum 42)
    DEFAULT_MAX_RESULTS true DEFAULT_FUZZY_THRESHOLD PyNone PyNone PyNone PyNone
    PyNone PyNone PyNone = Ok []
  /\ find_matches_on true true Sample.substring_scorer Sample.library (PyNum 42)
       DEFAULT_MAX_RESULTS true DEFAULT_FUZZY_THRESHOLD PyNone PyNone PyNone PyNone
       PyNone PyNone PyNone <> Raise TypeError.
Proof.
  split; [ reflexivity | discriminate ].
Qed.

(** C4: a [min_rating] that is a string raises, where the same search
    without the filter returns two records. *)
Lemma non_numeric_min_rating_raises :
  find_matches_on true true Sample.substring_scorer Sample.library (PyStr "")
    DEFAULT_MAX_RESULTS true DEFAULT_FUZZY_THRESHOLD (PyStr "Animation") PyNone
    (PyStr "high") PyNone PyNone PyNone PyNone = Raise TypeError
  /\ find_matches_on true true Sample.substring_scorer Sample.library (PyStr "")
       DEFAULT_MAX_RESULTS true DEFAULT_FUZZY_THRESHOLD (PyStr "Animation") PyNone
       PyNone PyNone PyNone PyNone PyNone = Ok [Sample.coco; Sample.toy_story].
Proof.
  split; vm_compute; reflexivity.
Qed.

(** C8: with [max_results] left at its default, 51 matching records give
    50 results; with [max_results = 0] they give 51. *)
Lemma unset_max_results_truncates :
  find_matches_on false false Sample.no_scorer Sample.echoes (PyStr "echo")
    DEFAULT_MAX_RESULTS true DEFAULT_FUZZY_THRESHOLD PyNone PyNone PyNone PyNone
    PyNone PyNone PyNone = Ok (firstn 50 Sample.echoes)
  /\ find_matches_on false false Sample.no_scorer Sample.echoes (PyStr "echo")
       (Some 0) true DEFAULT_FUZZY_THRESHOLD PyNone PyNone PyNone PyNone PyNone
       PyNone PyNone = Ok Sample.echoes
  /\ List.length (firstn 50 Sample.echoes) = 50%nat
  /\ List.length Sample.echoes = 51%nat.
Proof.
  repeat split; vm_compute; reflexivity.
Qed.

(** * Further properties of the engine *)

(** ** [sanitize_query] *)

Lemma forallb_filter (p : ascii -> bool) (s : string) :
  PyStr.forallb p (PyStr.filter p s) = true.
Proof.
  induction s as [| c s IH]; simpl; [ reflexivity | ].
  destruct (p c) eqn:E; simpl; [ rewrite E, IH; reflexivity | exact IH ].
Qed.

Lemma forallb_lstrip (p : ascii -> bool) (s : string) :
  PyStr.forallb p s = true -> PyStr.forallb p (PyStr.lstrip s) = true.
Proof.
  induction s as [| c s IH]; simpl; [ auto | ].
  intros H. destruct (PyStr.is_space c); [ | exact H ].
  apply andb_true_iff in H. apply IH, H.
Qed.

Lemma forallb_rstrip (p : ascii -> bool) (s : string) :
  PyStr.forallb p s = true -> PyStr.forallb p (PyStr.rstrip s) = true.
Proof.
  induction s as [| c s IH]; simpl; [ auto | ].
  intros H. apply andb_true_iff in H. destruct H as [Hc Hs].
  destruct (PyStr.is_space c && PyStr.is_empty (PyStr.rstrip s)); simpl;
    [ reflexivity | ].
  rewrite Hc, (IH Hs). reflexivity.
Qed.

Lemma forallb_take (p : ascii -> bool) (n : nat) (s : string) :
  PyStr.forallb p s = true -> PyStr.forallb p (PyStr.take n s) = true.
Proof.
  revert n. induction s as [| c s IH]; intros [| n]; simpl; auto.
  intros H. apply andb_true_iff in H. destruct H as [Hc Hs].
  rewrite Hc, (IH n Hs). reflexivity.
Qed.

Lemma length_take (n : nat) (s : string) :
  (String.length (PyStr.take n s) <= n)%nat.
Proof.
  revert n. induction s as [| c s IH]; intros [| n]; simpl; try lia.
  specialize (IH n). lia.
Qed.

Lemma lstrip_no_leading_space (s : string) : no_leading_space (PyStr.lstrip s).
Proof.
  induction s as [| c s IH]; simpl; [ exact I | ].
  destruct (PyStr.is_space c) eqn:E; [ exact IH | exact E ].
Qed.

Lemma rstrip_no_leading_space (s : string) :
  no_leading_space s -> no_leading_space (PyStr.rstrip s).
Proof.
  destruct s as [| c s]; simpl; [ auto | ].
  intros H. rewrite H. simpl. exact H.
Qed.

Lemma take_no_leading_space (n : nat) (s : string) :
  no_leading_space s -> no_leading_space (PyStr.take n s).
Proof.
  destruct s as [| c s], n as [| n]; simpl; auto.
Qed.

(** X1: on a text input and a bound [max_length >= 0], [sanitize_query]
    returns a string of at most [max_length] characters that holds no
    control character and does not start with whitespace. *)
Theorem sanitize_query_bounds (s : string) (max_length : Z) :
  0 <= max_length ->
  exists q,
    sanitize_query (PyStr s) max_length = Ok q
    /\ Z.of_nat (String.length q) <= max_length
    /\ PyStr.forallb (fun c => negb (PyStr.is_control c)) q = true
    /\ no_leading_space q.
Proof.
  intros Hn. unfold sanitize_query.
  set (clean := PyStr.strip (PyStr.filter (fun c => negb (PyStr.is_control c)) s)).
  assert (Hc : PyStr.forallb (fun c => negb (PyStr.is_control c)) clean = true).
  { apply forallb_rstrip, forallb_lstrip, forallb_filter. }
  assert (Hl : no_leading_space clean).
  { apply rstrip_no_leading_space, lstrip_no_leading_space. }
  eexists. split; [ reflexivity | ].
  destruct (max_length <? Z.of_nat (String.length clean)) eqn:E.
  - unfold str_slice_to. destruct (0 <=? max_length) eqn:E0;
      [ | apply Z.leb_gt in E0; lia ].
    split; [ | split ].
    + pose proof (length_take (Z.to_nat max_length) clean). lia.
    + apply forallb_take, Hc.
    + apply take_no_leading_space, Hl.
  - apply Z.ltb_ge in E. auto.
Qed.

Lemma sanitize_query_bounds_witness :
  exists q,
    sanitize_query (PyStr "  Toy Story  ") 100 = Ok q
    /\ Z.of_nat (String.length q) <= 100.
Proof.
  destruct (sanitize_query_bounds "  Toy Story  " 100 ltac:(lia))
    as (q & Hq & Hlen & _).
  exists q. split; assumption.
Defined.

(** ** The text tiers *)

Lemma startswith_contains (s t : string) :
  PyStr.startswith s t = true -> PyStr.contains s t = true.
Proof.
  intros H. destruct s as [| c s]; cbn [PyStr.contains]; rewrite H; reflexivity.
Qed.

Lemma contains_cons (c : ascii) (s t : string) :
  PyStr.contains s t = true -> PyStr.contains (String c s) t = true.
Proof.
  intros H. cbn [PyStr.contains]. rewrite H. apply orb_true_r.
Qed.

(** The first piece of [split_from s] is a prefix of [s] and every other
    piece occurs in [s]. *)
Lemma split_from_pieces (s : string) :
  exists p ps,
    PyStr.split_from s = p :: ps
    /\ PyStr.startswith s p = true
    /\ forall t, In t ps -> PyStr.contains s t = true.
Proof.
  induction s as [| c s (p & ps & Heq & Hp & Hps)]; simpl.
  - exists "", []. repeat split. intros t [].
  - destruct (PyStr.is_space c).
    + exists "", (PyStr.split_from s). repeat split.
      intros t Ht. rewrite Heq in Ht. apply (contains_cons c).
      destruct Ht as [<- | Ht]; [ apply startswith_contains, Hp | apply Hps, Ht ].
    + rewrite Heq. simpl. exists (String c p), ps. split; [ reflexivity | split ].
      * simpl. rewrite Ascii.eqb_refl. exact Hp.
      * intros t Ht. rewrite (Hps t Ht). apply orb_true_r.
Qed.

Lemma split_contains (s t : string) :
  In t (PyStr.split s) -> PyStr.contains s t = true.
Proof.
  unfold PyStr.split. intros H. apply filter_In in H. destruct H as [H _].
  destruct (split_from_pieces s) as (p & ps & Heq & Hp & Hps).
  rewrite Heq in H. destruct H as [<- | H];
    [ apply startswith_contains, Hp | apply Hps, H ].
Qed.

(** The tier of a record is the substring tier. *)
Lemma tier_of_substring (tokens : list string) (m : Movie.t) (p : Z) :
  tier_of tokens m = Some p -> p = 1000.
Proof.
  unfold tier_of.
  destruct (existsb _ tokens) eqn:E1; [ intros H; inversion H; reflexivity | ].
  assert (Hno : forall t, In t tokens ->
                          PyStr.contains (PyStr.lower (Movie.name m)) t = false).
  { intros t Ht. destruct (PyStr.contains (PyStr.lower (Movie.name m)) t) eqn:C;
      [ | reflexivity ].
    assert (existsb (fun t => PyStr.contains (PyStr.lower (Movie.name m)) t
                              || PyStr.contains (PyStr.lower (Movie.genre m)) t
                              || PyStr.contains (PyStr.lower (Movie.category m)) t)
                    tokens = true) as Hex; [ | congruence ].
    apply existsb_exists. exists t. rewrite C. auto. }
  destruct (existsb (fun t => PyStr.startswith _ t) tokens) eqn:E2.
  - apply existsb_exists in E2. destruct E2 as (t & Ht & Hs).
    apply startswith_contains in Hs. rewrite (Hno t Ht) in Hs. discriminate.
  - destruct (existsb (fun t => existsb (String.eqb t) _) tokens) eqn:E3;
      [ | discriminate ].
    apply existsb_exists in E3. destruct E3 as (t & Ht & Hw).
    apply existsb_exists in Hw. destruct Hw as (w & Hw & Heq).
    apply String.eqb_eq in Heq. subst w.
    apply split_contains in Hw. rewrite (Hno t Ht) in Hw. discriminate.
Qed.

(** X2: the substring tier subsumes the other two: a record that a text
    query matches always gets priority 1000, the priorities 900 (prefix)
    and 800 (whole word of the name) are never assigned. *)
Theorem text_tier_is_1000 (tokens : list string) (m : Movie.t) (p : Z) :
  tier_of tokens m = Some p -> p = 1000.
Proof.
  apply tier_of_substring.
Qed.

Lemma text_tier_is_1000_witness :
  exists p, tier_of ["story"] Sample.toy_story = Some p /\ p = 1000.
Proof.
  exists 1000. split; [ reflexivity | ].
  apply (text_tier_is_1000 ["story"] Sample.toy_story 1000). reflexivity.
Defined.

(** Every pair collected before the fuzzy stage has priority 1000,
    whatever the kind of query. *)
Lemma text_matches_priority q_lower present l mwp m p :
  text_matches q_lower present l = Ok mwp -> In (m, p) mwp -> p = 1000.
Proof.
  unfold text_matches.
  destruct (PyStr.is_empty q_lower && present).
  - intros H Hin. inv_ok H. apply in_map_iff in Hin.
    destruct Hin as (m' & Heq & _). inversion Heq; reflexivity.
  - destruct (PyStr.isdigit q_lower).
    + intros H Hin. inv_bind H. inv_ok H. apply in_map_iff in Hin.
      destruct Hin as (m' & Heq & _). inversion Heq; reflexivity.
    + intros H Hin. inv_ok H. apply tier_matches_in in Hin.
      destruct Hin as [_ Hin]. eapply tier_of_substring, Hin.
Qed.

(** ** The order of the results *)

Section Ranking.
Variable _HAS_RAPIDFUZZ : bool.
Variable has_rprocess : bool.
Variable partial_ratio : string -> string -> option Q.

Lemma key_priority_order best a b :
  desc (key_priority best) a b ->
  priority_rating_revenue_order (_priority_of best) a b.
Proof.
  unfold desc, key_priority, key3_ge, priority_rating_revenue_order.
  rewrite <- Zlt_Qlt, inject_Z_injective. tauto.
Qed.

Lemma key_rating_order best a b :
  desc (key_rating best) a b ->
  rating_revenue_priority_order (_priority_of best) a b.
Proof.
  unfold desc, key_rating, key3_ge, rating_revenue_priority_order.
  rewrite <- Zle_Qle. tauto.
Qed.

Lemma key_box_office_order best a b :
  desc (key_box_office best) a b ->
  revenue_rating_priority_order (_priority_of best) a b.
Proof.
  unfold desc, key_box_office, key3_ge, revenue_rating_priority_order.
  rewrite <- Zle_Qle. tauto.
Qed.

(** The result is in descending order of the key the sort stage chose
    for the pairs collected for the query of the call. *)
Lemma find_matches_on_sorted movies query_text max_results enable_fuzzy thr genre
  category min_rating year year_from year_to sort_by res q :
  find_matches_on _HAS_RAPIDFUZZ has_rprocess partial_ratio movies query_text
    max_results enable_fuzzy thr genre category min_rating year year_from year_to
    sort_by = Ok res ->
  sanitized_query query_text = Ok q ->
  exists mwp key,
    collect _HAS_RAPIDFUZZ has_rprocess partial_ratio q enable_fuzzy thr genre
      category min_rating year year_from year_to movies = Ok mwp
    /\ sort_key sort_by (dedupe mwp) = Ok key
    /\ StronglySorted (desc key) res.
Proof.
  intros H Hq. apply find_matches_on_run in H. destruct H as [_ Hrun].
  destruct (Hrun q Hq) as (mwp & ordered & Hc & Hr & ->).
  unfold rank in Hr. inv_bind Hr. inv_ok Hr.
  exists mwp, x. split; [ exact Hc | split; [ exact Hx | ] ].
  destruct (cap_firstn max_results
              (sorted_desc x (map snd (PyDict.values (dedupe mwp))))) as [k ->].
  apply StronglySorted_firstn, sorted_desc_sorted.
Qed.

Lemma sort_key_default sort_by best :
  truthy sort_by = false -> sort_key sort_by best = Ok (key_priority best).
Proof.
  unfold sort_key. intros ->. reflexivity.
Qed.

Lemma sort_key_unknown sort_by sb best :
  py_lower sort_by = Ok sb -> names_sort_field sb = false ->
  sort_key sort_by best = Ok (key_priority best).
Proof.
  unfold sort_key, names_sort_field. intros -> H.
  apply orb_false_iff in H. destruct H as [H Hy].
  apply orb_false_iff in H. destruct H as [H Hm].
  apply orb_false_iff in H. destruct H as [Hr Hb].
  simpl. rewrite Hr, Hb, Hm, Hy. simpl.
  destruct (truthy sort_by); reflexivity.
Qed.

(** X3: when [sort_by] is absent or empty, or a string that names none of
    [rating], [box_office], [box_office_millions] and [year], the results
    are in descending order of priority, then rating, then revenue, the
    priority being the one each record got for the query of the call. *)
Theorem default_order movies query_text max_results enable_fuzzy thr genre
  category min_rating year year_from year_to sort_by res q :
  (truthy sort_by = false
   \/ exists sb, py_lower sort_by = Ok sb /\ names_sort_field sb = false) ->
  find_matches_on _HAS_RAPIDFUZZ has_rprocess partial_ratio movies query_text
    max_results enable_fuzzy thr genre category min_rating year year_from year_to
    sort_by = Ok res ->
  sanitized_query query_text = Ok q ->
  exists mwp,
    collect _HAS_RAPIDFUZZ has_rprocess partial_ratio q enable_fuzzy thr genre
      category min_rating year year_from year_to movies = Ok mwp
    /\ StronglySorted
         (priority_rating_revenue_order (_priority_of (dedupe mwp))) res.
Proof.
  intros Hsb H Hq.
  destruct (find_matches_on_sorted _ _ _ _ _ _ _ _ _ _ _ _ _ _ H Hq)
    as (mwp & key & Hc & Hk & Hs).
  exists mwp. split; [ exact Hc | ].
  assert (key = key_priority (dedupe mwp)) as ->.
  { destruct Hsb as [Hf | (sb & Hl & Hn)].
    - rewrite (sort_key_default _ _ Hf) in Hk. congruence.
    - rewrite (sort_key_unknown _ _ _ Hl Hn) in Hk. congruence. }
  eapply StronglySorted_weaken; [ apply key_priority_order | exact Hs ].
Qed.

(** X4: with [sort_by] equal to ["rating"] in any letter case the results
    are in descending order of rating, then revenue, then priority; with
    ["box_office"] or ["box_office_millions"], of revenue, then rating,
    then priority; the priority is the one each record got for the query
    of the call. *)
Theorem sort_by_rating_or_revenue movies query_text max_results enable_fuzzy thr
  genre category min_rating year year_from year_to sort_by res q :
  find_matches_on _HAS_RAPIDFUZZ has_rprocess partial_ratio movies query_text
    max_results enable_fuzzy thr genre category min_rating year year_from year_to
    sort_by = Ok res ->
  sanitized_query query_text = Ok q ->
  exists mwp,
    collect _HAS_RAPIDFUZZ has_rprocess partial_ratio q enable_fuzzy thr genre
      category min_rating year year_from year_to movies = Ok mwp
    /\ (py_lower sort_by = Ok "rating" ->
        StronglySorted
          (rating_revenue_priority_order (_priority_of (dedupe mwp))) res)
    /\ (py_lower sort_by = Ok "box_office"
        \/ py_lower sort_by = Ok "box_office_millions" ->
        StronglySorted
          (revenue_rating_priority_order (_priority_of (dedupe mwp))) res).
Proof.
  intros H Hq.
  destruct (find_matches_on_sorted _ _ _ _ _ _ _ _ _ _ _ _ _ _ H Hq)
    as (mwp & key & Hc & Hk & Hs).
  exists mwp. split; [ exact Hc | ].
  assert (Ht : forall sb, py_lower sort_by = Ok sb -> sb <> "" ->
                          truthy sort_by = true).
  { intros sb Hl Hne. destruct sort_by as [| s | x]; simpl in *; try discriminate.
    destruct s; [ inv_ok Hl; congruence | reflexivity ]. }
  split.
  - intros Hl. unfold sort_key in Hk.
    rewrite (Ht _ Hl ltac:(discriminate)), Hl in Hk. simpl in Hk. inv_ok Hk.
    eapply StronglySorted_weaken; [ apply key_rating_order | exact Hs ].
  - intros [Hl | Hl]; unfold sort_key in Hk;
      rewrite (Ht _ Hl ltac:(discriminate)), Hl in Hk; simpl in Hk; inv_ok Hk;
      (eapply StronglySorted_weaken; [ apply key_box_office_order | exact Hs ]).
Qed.

End Ranking.

Lemma default_order_witness :
  exists mwp,
    collect true true Sample.substring_scorer "a" true DEFAULT_FUZZY_THRESHOLD
      PyNone PyNone PyNone PyNone PyNone PyNone Sample.library = Ok mwp
    /\ StronglySorted
         (priority_rating_revenue_order (_priority_of (dedupe mwp)))
         [Sample.coco; Sample.toy_story; Sample.social_network].
Proof.
  apply (default_order true true Sample.substring_scorer Sample.library
           (PyStr "a") DEFAULT_MAX_RESULTS true DEFAULT_FUZZY_THRESHOLD PyNone
           PyNone PyNone PyNone PyNone PyNone (PyStr "popularity")).
  - right. exists "popularity". split; reflexivity.
  - vm_compute; reflexivity.
  - vm_compute; reflexivity.
Defined.

Lemma sort_by_rating_or_revenue_witness :
  exists mwp,
    collect true true Sample.substring_scorer "i" true DEFAULT_FUZZY_THRESHOLD
      PyNone PyNone PyNone PyNone PyNone PyNone Sample.library = Ok mwp
    /\ StronglySorted
         (revenue_rating_priority_order (_priority_of (dedupe mwp)))
         [Sample.inception; Sample.coco; Sample.toy_story;
          Sample.social_network].
Proof.
  destruct (sort_by_rating_or_revenue true true Sample.substring_scorer
              Sample.library (PyStr "i") DEFAULT_MAX_RESULTS true
              DEFAULT_FUZZY_THRESHOLD PyNone PyNone PyNone PyNone PyNone PyNone
              (PyStr "Box_Office")
              [Sample.inception; Sample.coco; Sample.toy_story;
               Sample.social_network] "i"
              ltac:(vm_compute; reflexivity) ltac:(vm_compute; reflexivity))
    as (mwp & Hc & _ & Hb).
  exists mwp. split; [ exact Hc | ].
  apply Hb. left. reflexivity.
Defined.

(** ** Which calls return and which raise *)

Lemma filter_r_total {A : Type} (p : A -> result bool) (l : list A) :
  (forall x, exists b, p x = Ok b) -> exists r, filter_r p l = Ok r.
Proof.
  intros Hp. induction l as [| x l (r & Hr)]; simpl; [ eauto | ].
  destruct (Hp x) as [b ->]. rewrite Hr. simpl. eauto.
Qed.

Lemma filter_none {A : Type} (l : list A) : filter (fun _ => false) l = [].
Proof.
  induction l as [| x l IH]; simpl; [ reflexivity | exact IH ].
Qed.

Lemma genre_category_typed (og oc : option string) (l : list Movie.t) :
  exists r, genre_category_filters (opt_str og) (opt_str oc) l = Ok r.
Proof.
  unfold genre_category_filters, filter_genre, filter_category.
  destruct og as [g |], oc as [c |]; simpl;
    repeat match goal with
           | |- context [if ?b then _ else _] => destruct b; simpl
           end; eauto.
Qed.

Lemma filter_min_rating_typed (om : option Q) (l : list Movie.t) :
  exists r, filter_min_rating (opt_num om) l = Ok r.
Proof.
  unfold filter_min_rating. destruct om as [x |]; simpl; [ | eauto ].
  apply filter_r_total. intros m. simpl. eauto.
Qed.

Lemma filter_year_from_typed (o : option Q) (l : list Movie.t) :
  exists r, filter_year_from (opt_num o) l = Ok r.
Proof.
  unfold filter_year_from. destruct o as [x |]; simpl; [ | eauto ].
  apply filter_r_total. intros m. simpl. eauto.
Qed.

Lemma filter_year_to_typed (o : option Q) (l : list Movie.t) :
  exists r, filter_year_to (opt_num o) l = Ok r.
Proof.
  unfold filter_year_to. destruct o as [x |]; simpl; [ | eauto ].
  apply filter_r_total. intros m. simpl. eauto.
Qed.

Lemma filter_year_total (v : pyval) (l : list Movie.t) :
  exists r, filter_year v l = Ok r.
Proof.
  unfold filter_year. destruct (is_not_None v); eauto.
Qed.

Lemma apply_filters_typed (og oc : option string) (om oy oyf oyt : option Q)
  (l : list Movie.t) :
  exists r,
    apply_filters (opt_str og) (opt_str oc) (opt_num om) (opt_num oy)
      (opt_num oyf) (opt_num oyt) l = Ok r.
Proof.
  unfold apply_filters.
  destruct (genre_category_typed og oc l) as [l1 ->]. simpl.
  destruct (filter_min_rating_typed om l1) as [l2 ->]. simpl.
  destruct (filter_year_total (opt_num oy) l2) as [l3 ->]. simpl.
  destruct (filter_year_from_typed oyf l3) as [l4 ->]. simpl.
  apply filter_year_to_typed.
Qed.

Lemma isdigit_not_empty (s : string) :
  PyStr.isdigit s = true -> PyStr.is_empty s = false.
Proof.
  unfold PyStr.isdigit. intros H. apply andb_true_iff in H.
  destruct H as [H _]. apply negb_true_iff, H.
Qed.

Lemma text_matches_total q_lower present l :
  superscript_query q_lower = false ->
  exists mwp, text_matches q_lower present l = Ok mwp.
Proof.
  unfold superscript_query, text_matches. intros H.
  destruct (PyStr.is_empty q_lower && present); [ eauto | ].
  destruct (PyStr.isdigit q_lower) eqn:D; [ | eauto ].
  simpl in H. apply negb_false_iff in H. unfold PyStr.int.
  rewrite (isdigit_not_empty _ D), H. simpl. eauto.
Qed.

Lemma text_matches_superscript q_lower present l :
  superscript_query q_lower = true ->
  text_matches q_lower present l = Raise ValueError.
Proof.
  unfold superscript_query, text_matches. intros H.
  apply andb_true_iff in H. destruct H as [D H]. apply negb_true_iff in H.
  rewrite (isdigit_not_empty _ D), D. simpl. unfold PyStr.int.
  rewrite H, andb_false_r. reflexivity.
Qed.

Section Outcomes.
Variable _HAS_RAPIDFUZZ : bool.
Variable has_rprocess : bool.
Variable partial_ratio : string -> string -> option Q.

Lemma fuzzy_scored_total q thr subset :
  exists sc, fuzzy_scored has_rprocess partial_ratio q thr subset = Ok sc.
Proof.
  unfold fuzzy_scored. destruct has_rprocess; [ | eauto ].
  unfold extract.
  destruct (score_all partial_ratio q 0 (map search_text subset)) as [r |] eqn:E;
    [ | simpl; eauto ].
  destruct (scored_of_results_spec thr subset
              (sorted_desc (fun x => (snd (fst x), 0%Q, 0%Q)) r)) as (sc & Hsc & _);
    [ | eauto ].
  intros c s idx H. apply sorted_desc_in in H.
  apply (score_all_in _ _ _ _ _ E) in H. destruct H as (k & -> & Hk & _).
  simpl. rewrite <- (length_map search_text). apply nth_error_Some. congruence.
Qed.

Lemma fuzzy_stage_total enable_fuzzy q thr l mwp :
  exists all,
    fuzzy_stage _HAS_RAPIDFUZZ has_rprocess partial_ratio enable_fuzzy q thr l mwp
    = Ok all.
Proof.
  unfold fuzzy_stage, fuzzy_matches.
  destruct (enable_fuzzy && _HAS_RAPIDFUZZ && negb (PyStr.is_empty q)); [ | eauto ].
  destruct (fuzzy_scored_total q thr (candidate_subset_of l mwp)) as [sc ->].
  simpl. eauto.
Qed.

(** The body of the search on typed arguments: it returns, unless the
    query is made of digits with a superscript among them. *)
Lemma search_typed movies (q : string) max_results enable_fuzzy thr
  (og oc : option string) (om oy oyf oyt : option Q) (os : option string) :
  (superscript_query (q_lower_of q) = false ->
   exists res,
     search _HAS_RAPIDFUZZ has_rprocess partial_ratio q max_results enable_fuzzy
       thr (opt_str og) (opt_str oc) (opt_num om) (opt_num oy) (opt_num oyf)
       (opt_num oyt) (opt_str os) movies = Ok res)
  /\ (superscript_query (q_lower_of q) = true ->
      search _HAS_RAPIDFUZZ has_rprocess partial_ratio q max_results enable_fuzzy
        thr (opt_str og) (opt_str oc) (opt_num om) (opt_num oy) (opt_num oyf)
        (opt_num oyt) (opt_str os) movies = Raise ValueError).
Proof.
  unfold search, collect. fold (q_lower_of q).
  destruct (apply_filters_typed og oc om oy oyf oyt movies) as [fl ->].
  cbn [bind]. split; intros Hq.
  - destruct (text_matches_total (q_lower_of q)
                (filters_present (opt_str og) (opt_str oc) (opt_num om)
                   (opt_num oy) (opt_num oyf) (opt_num oyt)) fl Hq) as [mwp ->].
    cbn [bind].
    destruct (fuzzy_stage_total enable_fuzzy (q_lower_of q) thr fl mwp) as [all ->].
    cbn [bind]. destruct (rank_typed os all) as [key ->]. simpl. eauto.
  - rewrite (text_matches_superscript _ _ _ Hq). reflexivity.
Qed.

(** X5: a call whose arguments have the types of the signature (a text
    query; [genre], [category] and [sort_by] a string or [None]; the
    numeric filters a number or [None]) returns a list, whatever the scorer
    does, unless the sanitized query is made of digits of which one is a
    superscript: [str.isdigit] accepts it, [int] refuses it, and the call
    raises a [ValueError]. *)
Theorem typed_call_outcome movies (s q : string) max_results enable_fuzzy thr
  (og oc : option string) (om oy oyf oyt : option Q) (os : option string) :
  sanitize_query (PyStr s) 100 = Ok q ->
  (superscript_query (q_lower_of q) = false ->
   exists res,
     find_matches_on _HAS_RAPIDFUZZ has_rprocess partial_ratio movies (PyStr s)
       max_results enable_fuzzy thr (opt_str og) (opt_str oc) (opt_num om)
       (opt_num oy) (opt_num oyf) (opt_num oyt) (opt_str os) = Ok res)
  /\ (superscript_query (q_lower_of q) = true ->
      find_matches_on _HAS_RAPIDFUZZ has_rprocess partial_ratio movies (PyStr s)
        max_results enable_fuzzy thr (opt_str og) (opt_str oc) (opt_num om)
        (opt_num oy) (opt_num oyf) (opt_num oyt) (opt_str os)
      = Raise ValueError).
Proof.
  intros Hs. unfold find_matches_on. simpl is_not_None. cbv iota. rewrite Hs.
  destruct (search_typed movies q max_results enable_fuzzy thr og oc om oy oyf
              oyt os) as [Hreturns Hraises].
  split; [ exact Hreturns | exact Hraises ].
Qed.

(** X6: a [year] filter that is a string matches no record and raises no
    [TypeError]: with the other arguments typed, the result is empty
    whatever the collection, even when [year_from] and [year_to] are
    wrongly typed too.  The one call that raises is the one that raises
    without the filter as well: a sanitized query made of digits of which
    one is a superscript gives a [ValueError], also on an empty
    collection. *)
Theorem year_not_a_number movies (s q y : string) max_results enable_fuzzy thr
  (og oc : option string) (om : option Q) (year_from year_to : pyval)
  (os : option string) :
  sanitize_query (PyStr s) 100 = Ok q ->
  (superscript_query (q_lower_of q) = false ->
   find_matches_on _HAS_RAPIDFUZZ has_rprocess partial_ratio movies (PyStr s)
     max_results enable_fuzzy thr (opt_str og) (opt_str oc) (opt_num om) (PyStr y)
     year_from year_to (opt_str os) = Ok [])
  /\ (superscript_query (q_lower_of q) = true ->
      find_matches_on _HAS_RAPIDFUZZ has_rprocess partial_ratio movies (PyStr s)
        max_results enable_fuzzy thr (opt_str og) (opt_str oc) (opt_num om)
        (PyStr y) year_from year_to (opt_str os) = Raise ValueError).
Proof.
  intros Hs. unfold find_matches_on. simpl is_not_None. cbv iota. rewrite Hs.
  unfold search, collect, apply_filters. fold (q_lower_of q).
  destruct (genre_category_typed og oc movies) as [l1 ->]. cbn [bind].
  destruct (filter_min_rating_typed om l1) as [l2 ->]. cbn [bind].
  unfold filter_year. simpl is_not_None. cbv iota.
  replace (filter (fun m => py_eq (inject_Z (Movie.year m)) (PyStr y)) l2)
    with (@nil Movie.t) by (symmetry; apply filter_none).
  cbn [bind].
  assert (Hyf : filter_year_from year_from [] = Ok []).
  { unfold filter_year_from. destruct (is_not_None year_from); reflexivity. }
  assert (Hyt : filter_year_to year_to [] = Ok []).
  { unfold filter_year_to. destruct (is_not_None year_to); reflexivity. }
  rewrite Hyf. cbn [bind]. rewrite Hyt. cbn [bind].
  set (present := filters_present _ _ _ _ _ _).
  split; intros Hq.
  - assert (Ht : text_matches (q_lower_of q) present [] = Ok []).
    { destruct (text_matches_total (q_lower_of q) present [] Hq) as [mwp Hm].
      rewrite Hm. f_equal. destruct mwp as [| [m p] mwp]; [ reflexivity | ].
      exfalso. eapply (text_matches_in _ _ _ _ m p Hm). left; reflexivity. }
    rewrite Ht. cbn [bind].
    assert (Hf : fuzzy_stage _HAS_RAPIDFUZZ has_rprocess partial_ratio
                   enable_fuzzy (q_lower_of q) thr [] [] = Ok []).
    { unfold fuzzy_stage, fuzzy_matches, fuzzy_scored.
      destruct (enable_fuzzy && _HAS_RAPIDFUZZ
                && negb (PyStr.is_empty (q_lower_of q)));
        [ | reflexivity ].
      destruct has_rprocess; reflexivity. }
    rewrite Hf. cbn [bind].
    destruct (rank_typed os []) as [key ->]. simpl. rewrite cap_nil. reflexivity.
  - rewrite (text_matches_superscript _ _ _ Hq). reflexivity.
Qed.

End Outcomes.

Lemma typed_call_outcome_witness :
  find_matches_on true true Sample.substring_scorer Sample.library
    (PyStr Sample2.two_squared) DEFAULT_MAX_RESULTS true DEFAULT_FUZZY_THRESHOLD
    (opt_str None) (opt_str None) (opt_num None) (opt_num None) (opt_num None)
    (opt_num None) (opt_str None)
  = Raise ValueError.
Proof.
  apply (proj2 (typed_call_outcome true true Sample.substring_scorer
                  Sample.library Sample2.two_squared Sample2.two_squared
                  DEFAULT_MAX_RESULTS true DEFAULT_FUZZY_THRESHOLD None None None
                  None None None None ltac:(vm_compute; reflexivity))).
  vm_compute; reflexivity.
Defined.

Lemma year_not_a_number_witness :
  find_matches_on true true Sample.substring_scorer Sample.library (PyStr "toy")
    DEFAULT_MAX_RESULTS true DEFAULT_FUZZY_THRESHOLD (opt_str None) (opt_str None)
    (opt_num None) (PyStr "1995") PyNone PyNone (opt_str None) = Ok []
  /\ find_matches_on true true Sample.substring_scorer []
       (PyStr Sample2.two_squared) DEFAULT_MAX_RESULTS true
       DEFAULT_FUZZY_THRESHOLD (opt_str None) (opt_str None) (opt_num None)
       (PyStr "1995") PyNone PyNone (opt_str None) = Raise ValueError.
Proof.
  split.
  - apply (proj1 (year_not_a_number true true Sample.substring_scorer
                    Sample.library "toy" "toy" "1995" DEFAULT_MAX_RESULTS true
                    DEFAULT_FUZZY_THRESHOLD None None None PyNone PyNone None
                    ltac:(vm_compute; reflexivity))).
    vm_compute; reflexivity.
  - apply (proj2 (year_not_a_number true true Sample.substring_scorer []
                    Sample2.two_squared Sample2.two_squared "1995"
                    DEFAULT_MAX_RESULTS true DEFAULT_FUZZY_THRESHOLD None None
                    None PyNone PyNone None ltac:(vm_compute; reflexivity))).
    vm_compute; reflexivity.
Defined.

(** ** The fuzzy stage: its cap and a failing scorer *)

Lemma StronglySorted_app_order {A : Type} (R : A -> A -> Prop) (l1 l2 : list A) :
  StronglySorted R (l1 ++ l2) ->
  forall a b, In a l1 -> In b l2 -> R a b.
Proof.
  induction l1 as [| x l1 IH]; simpl; intros Hs a b Ha Hb; [ destruct Ha | ].
  inversion Hs as [| ? ? Hs' Hx]; subst.
  destruct Ha as [<- | Ha]; [ | eapply IH; eassumption ].
  rewrite Forall_forall in Hx. apply Hx, in_or_app. right; exact Hb.
Qed.

Lemma key2_order (a b : Movie.t) :
  key3_ge (key2 (Movie.rating a) (Movie.box_office_millions a))
          (key2 (Movie.rating b) (Movie.box_office_millions b)) ->
  rating_revenue_order a b.
Proof.
  unfold key2, key3_ge, rating_revenue_order.
  intros [H | (H & [H' | (H' & _)])]; [ left; exact H | right | right ];
    split; try exact H; lra.
Qed.

Section FuzzyStage.
Variable has_rprocess : bool.
Variable partial_ratio : string -> string -> option Q.

Lemma score_all_length q choices : forall i r,
  score_all partial_ratio q i choices = Some r ->
  List.length r = List.length choices.
Proof.
  induction choices as [| c cs IH]; simpl; intros i r H.
  - inversion H; reflexivity.
  - destruct (partial_ratio q c); [ | discriminate ].
    destruct (score_all partial_ratio q (S i) cs) as [r' |] eqn:E; [ | discriminate ].
    inversion H; subst. simpl. rewrite (IH _ _ E). reflexivity.
Qed.

Lemma score_all_none q choices c : forall i,
  In c choices -> partial_ratio q c = None ->
  score_all partial_ratio q i choices = None.
Proof.
  induction choices as [| c0 cs IH]; simpl; intros i Hin Hc; [ destruct Hin | ].
  destruct Hin as [-> | Hin].
  - rewrite Hc. reflexivity.
  - rewrite (IH (S i) Hin Hc). destruct (partial_ratio q c0); reflexivity.
Qed.

Lemma scored_of_results_length thr subset results sc :
  scored_of_results thr subset results = Ok sc ->
  (List.length sc <= List.length results)%nat.
Proof.
  revert sc. induction results as [| [[c s] idx] rs IH]; simpl; intros sc H.
  - inv_ok H. simpl. lia.
  - destruct (threshold_reached thr s).
    + destruct (nth_error subset idx); [ | discriminate ].
      inv_bind H. inv_ok H. specialize (IH _ Hx). simpl. lia.
    + specialize (IH _ H). lia.
Qed.

Lemma scored_each_length q thr subset :
  (List.length (scored_each partial_ratio q thr subset) <= List.length subset)%nat.
Proof.
  induction subset as [| m l IH]; simpl; [ lia | ].
  destruct (threshold_reached thr _); simpl; lia.
Qed.

Lemma fuzzy_scored_length q thr subset sc :
  fuzzy_scored has_rprocess partial_ratio q thr subset = Ok sc ->
  (List.length sc <= List.length subset)%nat.
Proof.
  unfold fuzzy_scored. destruct has_rprocess.
  - unfold extract. intros H.
    destruct (score_all partial_ratio q 0 (map search_text subset)) as [r |] eqn:E.
    + apply scored_of_results_length in H.
      rewrite sorted_desc_length, (score_all_length _ _ _ _ E), length_map in H.
      exact H.
    + simpl in H. inv_ok H. simpl. lia.
  - intros H. inv_ok H. apply scored_each_length.
Qed.

(** X7: the fuzzy stage scores at most [FUZZY_MAX_CANDIDATES] = 250
    records and adds at most as many pairs; every record it adds is a
    filtered record that no earlier tier matched under the same identity;
    and the records it leaves unscored are rated no higher than the scored
    ones, by rating and then revenue. *)
Theorem fuzzy_cap (q : string) (thr : Z) (l : list Movie.t)
  (mwp : list (Movie.t * Z)) :
  (List.length (candidate_subset_of l mwp) <= FUZZY_MAX_CANDIDATES)%nat
  /\ (forall extra,
         fuzzy_matches has_rprocess partial_ratio q thr l mwp = Ok extra ->
         (List.length extra <= FUZZY_MAX_CANDIDATES)%nat
         /\ forall m p, In (m, p) extra ->
              In m l
              /\ ~ In (ident_of m) (map (fun mp => ident_of (fst mp)) mwp))
  /\ exists rest,
       Permutation
         (candidate_subset_of l mwp ++ rest)
         (filter (fun m => negb (existsb (ident_eqb (ident_of m))
                                   (map (fun mp => ident_of (fst mp)) mwp))) l)
       /\ forall a b, In a (candidate_subset_of l mwp) -> In b rest ->
                      rating_revenue_order a b.
Proof.
  assert (Hlen : (List.length (candidate_subset_of l mwp)
                  <= FUZZY_MAX_CANDIDATES)%nat).
  { unfold candidate_subset_of. apply firstn_le_length. }
  split; [ exact Hlen | split ].
  - intros extra H. split.
    + unfold fuzzy_matches in H. inv_bind H. inv_ok H.
      rewrite length_map, sorted_desc_length.
      apply fuzzy_scored_length in Hx. lia.
    + intros m p Hin. eapply fuzzy_matches_in; eassumption.
  - unfold candidate_subset_of.
    set (candidates := filter _ l).
    set (key := fun x : Movie.t =>
                  key2 (Movie.rating x) (Movie.box_office_millions x)).
    exists (skipn FUZZY_MAX_CANDIDATES (sorted_desc key candidates)). split.
    + rewrite firstn_skipn. apply sorted_desc_perm.
    + intros a b Ha Hb. apply key2_order.
      apply (StronglySorted_app_order (desc key)
               (firstn FUZZY_MAX_CANDIDATES (sorted_desc key candidates))
               (skipn FUZZY_MAX_CANDIDATES (sorted_desc key candidates)));
        [ rewrite firstn_skipn; apply sorted_desc_sorted | exact Ha | exact Hb ].
Qed.

(** X8: when the scorer raises.  Through [rprocess.extract] one failure
    on a candidate voids the whole stage, which then adds nothing.  In the
    per-record loop a failure counts as the score 0: under a positive
    threshold the record is dropped, under a threshold of 0 or less it is
    added with priority 0. *)
Theorem scorer_failure (q : string) (thr : Z) (l : list Movie.t)
  (mwp : list (Movie.t * Z)) (m : Movie.t) :
  In m (candidate_subset_of l mwp) ->
  partial_ratio q (search_text m) = None ->
  (has_rprocess = true ->
   fuzzy_matches has_rprocess partial_ratio q thr l mwp = Ok [])
  /\ (has_rprocess = false ->
      exists extra,
        fuzzy_matches has_rprocess partial_ratio q thr l mwp = Ok extra
        /\ (0 < thr -> forall p, ~ In (m, p) extra)
        /\ (thr <= 0 -> In (m, 0) extra)).
Proof.
  intros Hm Hnone. unfold fuzzy_matches, fuzzy_scored. split; intros ->.
  - unfold extract.
    rewrite (score_all_none q (map search_text (candidate_subset_of l mwp))
               (search_text m) 0 (in_map _ _ _ Hm) Hnone).
    reflexivity.
  - simpl. eexists. split; [ reflexivity | ].
    set (key := fun x : Q * Movie.t =>
                  (fst x, Movie.rating (snd x), Movie.box_office_millions (snd x))).
    assert (Hin : forall p,
               In (m, p) (map (fun sm : Q * Movie.t => (snd sm, py_int (fst sm)))
                              (sorted_desc key
                                 (scored_each partial_ratio q thr
                                    (candidate_subset_of l mwp))))
               <-> p = 0 /\ thr <= 0).
    { intros p. rewrite in_map_iff. split.
      - intros ([s' m'] & Heq & H). simpl in Heq. inversion Heq; subst m' p.
        apply sorted_desc_in, scored_each_spec in H.
        rewrite Hnone in H. destruct H as (_ & -> & T).
        split; [ reflexivity | ].
        apply Qle_bool_iff in T. change 0%Q with (inject_Z 0) in T.
        rewrite <- Zle_Qle in T. exact T.
      - intros (-> & T). exists (0%Q, m). split; [ reflexivity | ].
        apply sorted_desc_in, scored_each_spec. rewrite Hnone.
        split; [ exact Hm | split; [ reflexivity | ] ].
        apply Qle_bool_iff. change 0%Q with (inject_Z 0).
        rewrite <- Zle_Qle. exact T. }
    split.
    + intros Hpos p Hp. apply Hin in Hp. lia.
    + intros Hle. apply Hin. auto.
Qed.

End FuzzyStage.

Lemma fuzzy_cap_witness :
  In Sample.odyssey_two [Sample.inception; Sample.odyssey_two]
  /\ ~ In (ident_of Sample.odyssey_two)
         (map (fun mp => ident_of (fst mp)) [(Sample.inception, 1000)]).
Proof.
  apply (proj2 (proj1 (proj2 (fuzzy_cap true Sample.substring_scorer "2010" 70
                                [Sample.inception; Sample.odyssey_two]
                                [(Sample.inception, 1000)]))
                  [(Sample.odyssey_two, 100)] ltac:(vm_compute; reflexivity))
           Sample.odyssey_two 100).
  simpl; auto.
Defined.

Lemma scorer_failure_witness :
  fuzzy_matches true Sample.no_scorer "incption" 70 [Sample.inception] [] = Ok [].
Proof.
  apply (proj1 (scorer_failure true Sample.no_scorer "incption" 70
                  [Sample.inception] [] Sample.inception
                  ltac:(vm_compute; auto) ltac:(reflexivity))).
  reflexivity.
Defined.

(** ** An empty query with filters *)

Lemma get_fresh {V : Type} (d : PyDict.t V) (k : ident) :
  ~ In k (PyDict.keys d) -> PyDict.get d k = None.
Proof.
  induction d as [| [k0 v0] d IH]; simpl; [ reflexivity | ].
  intros H. destruct (ident_eqb k k0) eqn:E.
  - apply ident_eqb_eq in E. subst. exfalso. apply H. left; reflexivity.
  - apply IH. intros Hin. apply H. right; exact Hin.
Qed.

Lemma set_fresh {V : Type} (d : PyDict.t V) (k : ident) (v : V) :
  ~ In k (PyDict.keys d) -> PyDict.set d k v = (d ++ [(k, v)])%list.
Proof.
  induction d as [| [k0 v0] d IH]; simpl; [ reflexivity | ].
  intros H. destruct (ident_eqb k k0) eqn:E.
  - apply ident_eqb_eq in E. subst. exfalso. apply H. left; reflexivity.
  - rewrite IH; [ reflexivity | ]. intros Hin. apply H. right; exact Hin.
Qed.

(** On pairs with distinct identities the loop keeps every pair, in the
    order in which it met them. *)
Lemma dedupe_fold_fresh (l : list (Movie.t * Z)) : forall best,
  NoDup (PyDict.keys best ++ map (fun mp => ident_of (fst mp)) l) ->
  fold_left best_step l best
  = (best ++ map (fun mp => (ident_of (fst mp), (snd mp, fst mp))) l)%list.
Proof.
  induction l as [| [m p] l IH]; intros best Hn; simpl.
  - rewrite app_nil_r. reflexivity.
  - simpl in Hn.
    assert (Hfresh : ~ In (ident_of m) (PyDict.keys best)).
    { intros Hin. apply NoDup_remove_2 in Hn. apply Hn, in_or_app. left; exact Hin. }
    rewrite (get_fresh best _ Hfresh), (set_fresh best _ (p, m) Hfresh).
    rewrite IH.
    + rewrite <- app_assoc. reflexivity.
    + unfold PyDict.keys in *. rewrite map_app. simpl. rewrite <- app_assoc. simpl.
      eapply Permutation_NoDup; [ | exact Hn ].
      apply Permutation_app_head. apply Permutation_refl.
Qed.

Lemma dedupe_distinct (mwp : list (Movie.t * Z)) :
  NoDup (map (fun mp => ident_of (fst mp)) mwp) ->
  map snd (PyDict.values (dedupe mwp)) = map fst mwp.
Proof.
  intros Hn. unfold dedupe. rewrite (dedupe_fold_fresh mwp []); [ | exact Hn ].
  simpl. unfold PyDict.values. rewrite !map_map. reflexivity.
Qed.

Lemma StronglySorted_weaken_in {A : Type} (R R' : A -> A -> Prop) (l : list A) :
  (forall a b, In a l -> In b l -> R a b -> R' a b) ->
  StronglySorted R l -> StronglySorted R' l.
Proof.
  intros HR Hs. induction Hs as [| a l Hs IH Ha]; constructor.
  - apply IH. intros x y Hx Hy. apply HR; right; assumption.
  - rewrite Forall_forall in *. intros b Hb.
    apply HR; [ left; reflexivity | right; exact Hb | apply Ha, Hb ].
Qed.

Section EmptyQuery.
Variable _HAS_RAPIDFUZZ : bool.
Variable has_rprocess : bool.
Variable partial_ratio : string -> string -> option Q.

(** X9: an empty query with at least one filter returns the filtered
    records and nothing else.  Uncapped, every filtered record is
    represented by its identity, and when the filtered records have
    distinct identities the result is a rearrangement of them; in the
    default order it is sorted by rating, then revenue, all priorities
    being 1000. *)
Theorem empty_query_with_filters movies (s : string) max_results enable_fuzzy thr
  genre category min_rating year year_from year_to (os : option string) fl :
  sanitize_query (PyStr s) 100 = Ok "" ->
  filters_present genre category min_rating year year_from year_to = true ->
  apply_filters genre category min_rating year year_from year_to movies = Ok fl ->
  exists res,
    find_matches_on _HAS_RAPIDFUZZ has_rprocess partial_ratio movies (PyStr s)
      max_results enable_fuzzy thr genre category min_rating year year_from year_to
      (opt_str os) = Ok res
    /\ (forall m, In m res -> In m fl)
    /\ (max_results = Some 0 \/ max_results = None ->
        (forall m, In m fl -> In (ident_of m) (map ident_of res))
        /\ (NoDup (map ident_of fl) -> Permutation res fl))
    /\ (truthy (opt_str os) = false -> StronglySorted rating_revenue_order res).
Proof.
  intros Hs Hp Hf. unfold find_matches_on. simpl is_not_None. cbv iota.
  rewrite Hs. unfold search, collect. rewrite Hf. cbn [bind].
  unfold text_matches. simpl PyStr.is_empty. cbv iota. rewrite Hp.
  simpl andb. cbv iota. cbn [bind].
  rewrite fuzzy_stage_empty_query. cbn [bind].
  set (mwp := map (fun m : Movie.t => (m, 1000)) fl).
  destruct (rank_typed os mwp) as [key Hr]. rewrite Hr. cbn [bind].
  set (ordered := sorted_desc key (map snd (PyDict.values (dedupe mwp)))) in *.
  assert (Hmem : forall m, In m ordered -> In (m, 1000) mwp).
  { intros m Hin. pose proof (rank_in _ _ _ _ Hr Hin) as Hm.
    unfold mwp in *. apply in_map_iff in Hm. destruct Hm as (m' & Heq & Hm').
    inversion Heq; subst m'. apply in_map_iff. exists m. auto. }
  assert (Hfl : forall m, In m ordered -> In m fl).
  { intros m Hin. apply Hmem in Hin. unfold mwp in Hin.
    apply in_map_iff in Hin. destruct Hin as (m' & Heq & Hm').
    inversion Heq; subst. exact Hm'. }
  eexists. split; [ reflexivity | split; [ | split ] ].
  - intros m Hin. apply cap_in in Hin. apply Hfl, Hin.
  - intros Hmax.
    assert (Hcap : cap max_results ordered = ordered)
      by (destruct Hmax as [-> | ->]; reflexivity).
    rewrite Hcap. split.
    + intros m Hin.
      eapply Permutation_in;
        [ apply Permutation_map, Permutation_sym, sorted_desc_perm | ].
      apply (dedupe_key_in mwp m 1000). unfold mwp.
      apply in_map_iff. exists m. auto.
    + intros Hn. unfold ordered.
      rewrite (dedupe_distinct mwp).
      * unfold mwp. rewrite map_map. simpl. rewrite map_id.
        apply sorted_desc_perm.
      * unfold mwp. rewrite map_map. simpl. exact Hn.
  - intros Hsb.
    destruct (cap_firstn max_results ordered) as [k ->].
    apply StronglySorted_firstn.
    assert (Hprio : forall m, In m ordered -> _priority_of (dedupe mwp) m = 1000).
    { intros m Hin. pose proof (rank_in _ _ _ _ Hr Hin) as Hm. unfold mwp in Hm.
      apply in_map_iff in Hm. destruct Hm as (m' & Heq & _).
      injection Heq as _ Heq. symmetry. exact Heq. }
    assert (Ho : ordered
                 = sorted_desc (key_priority (dedupe mwp))
                     (map snd (PyDict.values (dedupe mwp)))).
    { unfold rank in Hr. rewrite (sort_key_default _ _ Hsb) in Hr.
      cbn [bind] in Hr. injection Hr as Hr. symmetry. exact Hr. }
    apply (StronglySorted_weaken_in (desc (key_priority (dedupe mwp))));
      [ | rewrite Ho; apply sorted_desc_sorted ].
    intros a b Ha Hb Hd. apply key_priority_order in Hd.
    unfold priority_rating_revenue_order in Hd.
    rewrite (Hprio a Ha), (Hprio b Hb) in Hd.
    destruct Hd as [Hd | [_ Hd]]; [ lia | exact Hd ].
Qed.

End EmptyQuery.

Lemma empty_query_with_filters_witness :
  exists res,
    find_matches_on true true Sample.substring_scorer Sample.library (PyStr "  ")
      (Some 0) true DEFAULT_FUZZY_THRESHOLD PyNone (PyStr "animation") PyNone
      PyNone PyNone PyNone (opt_str None) = Ok res
    /\ Permutation res [Sample.toy_story; Sample.coco].
Proof.
  destruct (empty_query_with_filters true true Sample.substring_scorer
              Sample.library "  " (Some 0) true DEFAULT_FUZZY_THRESHOLD PyNone
              (PyStr "animation") PyNone PyNone PyNone PyNone None
              [Sample.toy_story; Sample.coco]
              ltac:(vm_compute; reflexivity) ltac:(reflexivity)
              ltac:(vm_compute; reflexivity))
    as (res & Hres & _ & Hall & _).
  exists res. split; [ exact Hres | ].
  apply (proj2 (Hall (or_introl eq_refl))).
  repeat constructor; simpl; intuition discriminate.
Defined.

(** * Favorites *)

Lemma ident_eqb_sym (a b : ident) : ident_eqb a b = ident_eqb b a.
Proof.
  destruct (ident_eqb a b) eqn:E; symmetry.
  - apply ident_eqb_eq in E. subst. apply ident_eqb_refl.
  - apply ident_eqb_neq. apply ident_eqb_neq in E. congruence.
Qed.

Lemma set_mem_in (k : ident) (s : list ident) : Fav.set_mem k s = true <-> In k s.
Proof.
  unfold Fav.set_mem. rewrite existsb_exists. split.
  - intros (x & Hx & E). apply ident_eqb_eq in E. subst. exact Hx.
  - intros H. exists k. split; [ exact H | apply ident_eqb_refl ].
Qed.

Lemma set_mem_add (k k' : ident) (s : list ident) :
  Fav.set_mem k' (Fav.set_add k s) = ident_eqb k' k || Fav.set_mem k' s.
Proof.
  unfold Fav.set_add. destruct (Fav.set_mem k s) eqn:E; [ | reflexivity ].
  destruct (ident_eqb k' k) eqn:E'; [ | reflexivity ].
  apply ident_eqb_eq in E'. subst. rewrite E. reflexivity.
Qed.

Lemma set_mem_discard (k k' : ident) (s : list ident) :
  Fav.set_mem k' (Fav.set_discard k s) = negb (ident_eqb k' k) && Fav.set_mem k' s.
Proof.
  unfold Fav.set_mem, Fav.set_discard.
  induction s as [| x s IH]; simpl; [ rewrite andb_false_r; reflexivity | ].
  destruct (ident_eqb k x) eqn:E; simpl.
  - apply ident_eqb_eq in E. subst x. rewrite IH.
    destruct (ident_eqb k' k); reflexivity.
  - rewrite IH. destruct (ident_eqb k' x) eqn:E'; simpl.
    + apply ident_eqb_eq in E'. subst x.
      rewrite (ident_eqb_sym k' k), E. reflexivity.
    + reflexivity.
Qed.

Lemma set_discard_fresh (k : ident) (s : list ident) :
  Fav.set_mem k s = false -> Fav.set_discard k s = s.
Proof.
  unfold Fav.set_mem, Fav.set_discard.
  induction s as [| x s IH]; simpl; [ reflexivity | ].
  intros H. apply orb_false_iff in H. destruct H as [Hx Hs].
  rewrite Hx. simpl. rewrite (IH Hs). reflexivity.
Qed.


Lemma list_remove_present (x : ident) (l : list ident) :
  exists r, Fav.list_remove x (l ++ [x]) = Some r.
Proof.
  induction l as [| y l (r & Hr)]; simpl.
  - rewrite ident_eqb_refl. eauto.
  - destruct (ident_eqb y x); [ eauto | ]. rewrite Hr. eauto.
Qed.

Lemma lower_key_eqb (f : ident) (name : string) (year : Z) :
  String.eqb (PyStr.lower (fst f)) (PyStr.lower name) && (snd f =? year)
  = ident_eqb (Fav.lower_key f) (PyStr.lower name, year).
Proof. reflexivity. Qed.

Lemma coherent_fresh (st : Fav.state) (name : string) (year : Z) :
  Fav.coherent st ->
  Fav.set_mem (PyStr.lower name, year) (Fav._favorites_set st) = false ->
  forall f, In f (Fav.favorites st) -> Fav.lower_key f <> (PyStr.lower name, year).
Proof.
  intros Hc Hk f Hf Heq.
  assert (Fav.set_mem (PyStr.lower name, year) (Fav._favorites_set st) = true)
    as Hin; [ | congruence ].
  apply Hc. rewrite <- Heq. apply in_map, Hf.
Qed.


Lemma coherent_discard (ms : list Movie.t) favs set d d' (name : string) (year : Z) :
  Fav.coherent (Fav.mk ms favs set d) ->
  Fav.coherent
    (Fav.mk ms
       (filter (fun f => negb (String.eqb (PyStr.lower (fst f)) (PyStr.lower name)
                               && (snd f =? year))) favs)
       (Fav.set_discard (PyStr.lower name, year) set) d').
Proof.
  unfold Fav.coherent; simpl. intros Hc k.
  rewrite set_mem_discard, andb_true_iff, negb_true_iff, Hc, !in_map_iff.
  split.
  - intros [Hne (f & Hf & Hin)]. exists f. split; [ exact Hf | ].
    apply filter_In. split; [ exact Hin | ].
    rewrite lower_key_eqb, Hf, Hne. reflexivity.
  - intros (f & Hf & Hin). apply filter_In in Hin. destruct Hin as [Hin Hp].
    rewrite lower_key_eqb, Hf in Hp. apply negb_true_iff in Hp.
    split; [ exact Hp | exists f; auto ].
Qed.


(** X11: [remove_favorite] does nothing and returns [False] for a key that
    is not a favorite.  For a favorite it removes every entry with that
    name (in any letter case) and year and keeps the others; it returns
    the outcome of the save, and the removal stays in memory when the save
    fails.  Coherence is kept. *)
Theorem remove_favorite_outcome (name : string) (year : Z) (o : Fav.save_outcome)
  (st : Fav.state) :
  (Fav.set_mem (PyStr.lower name, year) (Fav._favorites_set st) = false ->
   Fav.remove_favorite name year o st = (false, st))
  /\ (Fav.set_mem (PyStr.lower name, year) (Fav._favorites_set st) = true ->
      exists st',
        Fav.remove_favorite name year o st = (Fav.saved o, st')
        /\ Fav.movies st' = Fav.movies st
        /\ Fav.set_mem (PyStr.lower name, year) (Fav._favorites_set st') = false
        /\ (forall f, In f (Fav.favorites st') <->
                      In f (Fav.favorites st)
                      /\ Fav.lower_key f <> (PyStr.lower name, year))
        /\ (Fav.saved o = true -> Fav.file st' = Fav.Holds (Fav.favorites st'))
        /\ (Fav.coherent st -> Fav.coherent st')).
Proof.
  unfold Fav.remove_favorite. split; intros Hk; rewrite Hk; simpl;
    [ reflexivity | ].
  destruct st as [ms favs set d]; simpl in *.
  assert (Hfav : forall f,
             In f (filter (fun f => negb (String.eqb (PyStr.lower (fst f))
                                            (PyStr.lower name) && (snd f =? year)))
                          favs)
             <-> In f favs /\ Fav.lower_key f <> (PyStr.lower name, year)).
  { intros f. rewrite filter_In, lower_key_eqb, negb_true_iff, ident_eqb_neq.
    reflexivity. }
  assert (Hgone : Fav.set_mem (PyStr.lower name, year)
                    (Fav.set_discard (PyStr.lower name, year) set) = false).
  { rewrite set_mem_discard, ident_eqb_refl. reflexivity. }
  destruct o as [| d']; simpl; eexists; (split; [ reflexivity | ]); simpl;
    (split; [ reflexivity | ]); (split; [ exact Hgone | ]);
    (split; [ exact Hfav | ]);
    (split; [ intros H; first [ reflexivity | discriminate H ] | ]);
    intros Hc; eapply coherent_discard; exact Hc.
Qed.

(** What a successful [add_favorite] has done. *)
Lemma add_favorite_true (name : string) (year : Z) (o : Fav.save_outcome)
  (st st1 : Fav.state) :
  Fav.add_favorite name year o st = (Ok true, st1) ->
  Fav.set_mem (PyStr.lower name, year) (Fav._favorites_set st) = false
  /\ Fav.movies st1 = Fav.movies st
  /\ Fav.favorites st1 = (Fav.favorites st ++ [(name, year)])%list
  /\ Fav._favorites_set st1
     = Fav.set_add (PyStr.lower name, year) (Fav._favorites_set st)
  /\ Fav.file st1 = Fav.Holds (Fav.favorites st1).
Proof.
  unfold Fav.add_favorite.
  destruct (Fav.set_mem (PyStr.lower name, year) (Fav._favorites_set st)) eqn:Hk;
    [ discriminate | ].
  destruct (negb _); [ discriminate | ].
  destruct o as [| d]; simpl.
  - intros H. inversion H; subst st1. simpl. auto.
  - destruct (Fav.list_remove _ _); discriminate.
Qed.

(** X12: once a favorite is added, adding it again, under the same name
    in any letter case, returns [False] and changes nothing. *)
Theorem add_favorite_twice (name name' : string) (year : Z)
  (o o' : Fav.save_outcome) (st st1 : Fav.state) :
  Fav.coherent st ->
  Fav.add_favorite name year o st = (Ok true, st1) ->
  PyStr.lower name' = PyStr.lower name ->
  Fav.add_favorite name' year o' st1 = (Ok false, st1).
Proof.
  intros Hc Hadd Hlow.
  destruct (add_favorite_true _ _ _ _ _ Hadd) as (_ & _ & _ & Hset & _).
  unfold Fav.add_favorite.
  rewrite Hlow, Hset, set_mem_add, ident_eqb_refl. reflexivity.
Qed.

(** X13: adding a favorite and removing it again, both saves succeeding,
    gives back the favorites and the key set as they were. *)
Theorem add_remove_favorite (name : string) (year : Z) (st st1 : Fav.state) :
  Fav.coherent st ->
  Fav.add_favorite name year Fav.Saved st = (Ok true, st1) ->
  exists st2,
    Fav.remove_favorite name year Fav.Saved st1 = (true, st2)
    /\ Fav.favorites st2 = Fav.favorites st
    /\ Fav._favorites_set st2 = Fav._favorites_set st
    /\ Fav.file st2 = Fav.Holds (Fav.favorites st).
Proof.
  intros Hc Hadd. unfold Fav.add_favorite in Hadd.
  destruct (Fav.set_mem (PyStr.lower name, year) (Fav._favorites_set st)) eqn:Hk;
    [ discriminate | ].
  destruct (negb _); [ discriminate | ].
  simpl in Hadd. inversion Hadd; subst st1; clear Hadd.
  unfold Fav.remove_favorite. simpl.
  rewrite set_mem_add, ident_eqb_refl. simpl.
  assert (Hkeep : filter (fun f => negb (String.eqb (PyStr.lower (fst f))
                                           (PyStr.lower name) && (snd f =? year)))
                    (Fav.favorites st ++ [(name, year)])
                  = Fav.favorites st).
  { rewrite filter_app. simpl. rewrite String.eqb_refl, Z.eqb_refl. simpl.
    rewrite app_nil_r. apply forallb_filter_id. apply forallb_forall.
    intros f Hf. rewrite lower_key_eqb. apply negb_true_iff, ident_eqb_neq.
    apply (coherent_fresh st name year Hc Hk f Hf). }
  assert (Hset : Fav.set_discard (PyStr.lower name, year)
                   (Fav.set_add (PyStr.lower name, year) (Fav._favorites_set st))
                 = Fav._favorites_set st).
  { unfold Fav.set_add. rewrite Hk. unfold Fav.set_discard. simpl.
    rewrite ident_eqb_refl. simpl. apply set_discard_fresh, Hk. }
  rewrite Hkeep, Hset. eexists. split; [ reflexivity | ]. simpl. auto.
Qed.

(** X14: [load_favorites] always leaves a coherent state; after a
    successful [add_favorite] it reads back the very favorites that are in
    memory; from a missing or unreadable file it gives no favorites. *)
Theorem load_favorites_round_trip (st : Fav.state) :
  Fav.coherent (Fav.load_favorites st)
  /\ (Fav.file st = Fav.Missing \/ Fav.file st = Fav.Unreadable ->
      Fav.favorites (Fav.load_favorites st) = [])
  /\ (forall name year st1,
         Fav.coherent st ->
         Fav.add_favorite name year Fav.Saved st = (Ok true, st1) ->
         Fav.favorites (Fav.load_favorites st1) = Fav.favorites st1
         /\ Fav.favorites st1 = (Fav.favorites st ++ [(name, year)])%list).
Proof.
  split; [ | split ].
  - unfold Fav.load_favorites, Fav.coherent.
    destruct (Fav.file st); simpl; intros k;
      try (split; [ discriminate | tauto ]).
    apply set_mem_in.
  - unfold Fav.load_favorites. intros [-> | ->]; reflexivity.
  - intros name year st1 Hc Hadd.
    destruct (add_favorite_true _ _ _ _ _ Hadd) as (_ & _ & Hfav & _ & Hfile).
    split; [ | exact Hfav ].
    unfold Fav.load_favorites. rewrite Hfile. reflexivity.
Qed.

Lemma get_favorite_movies_of_app (ms : list Movie.t) (l1 l2 : list ident) :
  Fav.get_favorite_movies_of ms (l1 ++ l2)
  = (Fav.get_favorite_movies_of ms l1 ++ Fav.get_favorite_movies_of ms l2)%list.
Proof.
  induction l1 as [| f l1 IH]; simpl; [ reflexivity | ].
  destruct (Fav.resolve ms f); rewrite IH; reflexivity.
Qed.

(** X15: [get_favorite_movies] returns records of the data set, each with
    exactly the name and year of a favorite, at most one per favorite.  A
    favorite is matched by its exact name there, while [add_favorite]
    accepts a name in any letter case: a favorite added under a spelling
    that no record has is stored but never shown. *)
Theorem get_favorite_movies_exact (st : Fav.state) :
  (forall m, In m (Fav.get_favorite_movies st) ->
             In m (Fav.movies st) /\ In (ident_of m) (Fav.favorites st))
  /\ (List.length (Fav.get_favorite_movies st)
      <= List.length (Fav.favorites st))%nat
  /\ (forall name year st1,
         Fav.coherent st ->
         Fav.add_favorite name year Fav.Saved st = (Ok true, st1) ->
         (forall m, In m (Fav.movies st) -> ident_of m <> (name, year)) ->
         In (name, year) (Fav.favorites st1)
         /\ Fav.get_favorite_movies st1 = Fav.get_favorite_movies st).
Proof.
  unfold Fav.get_favorite_movies. split; [ | split ].
  - generalize (Fav.favorites st) as favs.
    induction favs as [| f favs IH]; simpl; [ tauto | ].
    intros m. destruct (Fav.resolve (Fav.movies st) f) as [m0 |] eqn:R.
    + intros [<- | Hin].
      * apply find_some in R. destruct R as [Hin Hp].
        apply andb_true_iff in Hp. destruct Hp as [Hn Hy].
        apply String.eqb_eq in Hn. apply Z.eqb_eq in Hy.
        split; [ exact Hin | left ]. unfold ident_of. rewrite Hn, Hy.
        destruct f; reflexivity.
      * destruct (IH m Hin). auto.
    + intros Hin. destruct (IH m Hin). auto.
  - generalize (Fav.favorites st) as favs.
    induction favs as [| f favs IH]; simpl; [ lia | ].
    destruct (Fav.resolve (Fav.movies st) f); simpl; lia.
  - intros name year st1 Hc Hadd Hnone.
    destruct (add_favorite_true _ _ _ _ _ Hadd) as (_ & Hms & Hfav & _).
    rewrite Hfav, Hms.
    split; [ apply in_or_app; right; left; reflexivity | ].
    rewrite get_favorite_movies_of_app. simpl.
    destruct (Fav.resolve (Fav.movies st) (name, year)) as [m0 |] eqn:R;
      [ | apply app_nil_r ].
    exfalso. apply find_some in R. destruct R as [Hin Hp]. simpl in Hp.
    apply andb_true_iff in Hp. destruct Hp as [Hn Hy].
    apply String.eqb_eq in Hn. apply Z.eqb_eq in Hy.
    apply (Hnone m0 Hin). unfold ident_of. rewrite Hn, Hy. reflexivity.
Qed.

(** ** The favorites on the sample library *)


Lemma remove_favorite_outcome_witness :
  exists st',
    Fav.remove_favorite "INCEPTION" 2010 (Fav.Failed Fav.Unreadable) Sample2.fav1
    = (false, st')
    /\ Fav.set_mem ("inception", 2010) (Fav._favorites_set st') = false.
Proof.
  destruct (proj2 (remove_favorite_outcome "INCEPTION" 2010
                     (Fav.Failed Fav.Unreadable) Sample2.fav1)
              ltac:(vm_compute; reflexivity))
    as (st' & Heq & _ & Hgone & _).
  exists st'. split; [ exact Heq | exact Hgone ].
Defined.

Lemma add_favorite_twice_witness :
  Fav.add_favorite "INCEPTION" 2010 Fav.Saved Sample2.fav1
  = (Ok false, Sample2.fav1).
Proof.
  apply (add_favorite_twice "Inception" "INCEPTION" 2010 Fav.Saved Fav.Saved
           Sample2.fav0 Sample2.fav1).
  - intros k; simpl; split; [ discriminate | tauto ].
  - vm_compute; reflexivity.
  - vm_compute; reflexivity.
Defined.

Lemma add_remove_favorite_witness :
  exists st2,
    Fav.remove_favorite "Inception" 2010 Fav.Saved Sample2.fav1 = (true, st2)
    /\ Fav.favorites st2 = [].
Proof.
  destruct (add_remove_favorite "Inception" 2010 Sample2.fav0 Sample2.fav1)
    as (st2 & Heq & Hfav & _).
  - intros k; simpl; split; [ discriminate | tauto ].
  - vm_compute; reflexivity.
  - exists st2. split; [ exact Heq | exact Hfav ].
Defined.

Lemma load_favorites_round_trip_witness :
  Fav.favorites (Fav.load_favorites Sample2.fav1) = Fav.favorites Sample2.fav1.
Proof.
  apply (proj2 (proj2 (load_favorites_round_trip Sample2.fav0))
           "Inception" 2010 Sample2.fav1).
  - intros k; simpl; split; [ discriminate | tauto ].
  - vm_compute; reflexivity.
Defined.

Lemma get_favorite_movies_exact_witness :
  In ("inception", 2010) (Fav.favorites Sample2.fav_lower)
  /\ Fav.get_favorite_movies Sample2.fav_lower
     = Fav.get_favorite_movies Sample2.fav0.
Proof.
  apply (proj2 (proj2 (get_favorite_movies_exact Sample2.fav0))
           "inception" 2010 Sample2.fav_lower).
  - intros k; simpl; split; [ discriminate | tauto ].
  - vm_compute; reflexivity.
  - intros m Hin. simpl in Hin.
    destruct Hin as [<- | [<- | [<- | [<- | []]]]]; discriminate.
Defined.

(** * Building the collection *)

Lemma lower_ident_ensure (m : Movie.t) :
  lower_ident (ensure_search_fields m) = lower_ident m.
Proof. reflexivity. Qed.

Lemma existsb_lower_ident (k : ident) (ms : list Movie.t) :
  existsb (ident_eqb k)
    (map (fun m => (PyStr.lower (Movie.name m), Movie.year m)) ms) = true
  <-> In k (map lower_ident ms).
Proof.
  rewrite existsb_exists. unfold lower_ident. split.
  - intros (x & Hx & E). apply ident_eqb_eq in E. subst. exact Hx.
  - intros H. exists k. split; [ exact H | apply ident_eqb_refl ].
Qed.

Lemma add_movie_checked_rejects (movie : Movie.t) (g : globals) :
  Movie.name movie = "" \/ In (lower_ident movie) (map lower_ident (movies g)) ->
  add_movie_checked movie g = (false, g).
Proof.
  unfold add_movie_checked. intros [He | Hin].
  - rewrite He. reflexivity.
  - destruct (PyStr.is_empty (Movie.name movie)); [ reflexivity | ].
    unfold add_movie, st_bind, read_movies, ret.
    apply existsb_lower_ident in Hin. unfold lower_ident in Hin at 1.
    rewrite Hin. reflexivity.
Qed.

Lemma add_movie_checked_accepts (movie : Movie.t) (g : globals) :
  Movie.name movie <> "" ->
  ~ In (lower_ident movie) (map lower_ident (movies g)) ->
  add_movie_checked movie g
  = (true, mk_globals (movies g ++ [ensure_search_fields movie])%list (favorites g)).
Proof.
  unfold add_movie_checked. intros Hne Hfresh.
  assert (PyStr.is_empty (Movie.name movie) = false) as ->
    by (destruct (Movie.name movie); [ congruence | reflexivity ]).
  apply add_movie_extends.
  destruct (existsb _ _) eqn:Hex; [ | reflexivity ].
  exfalso. apply Hfresh. apply existsb_lower_ident. exact Hex.
Qed.

(** X16: [add_movie] keeps the keys [(name.lower(), year)] of the
    collection distinct.  It returns [True] exactly for a record with a
    non-empty name whose key is new, and then appends the record with its
    search text cached; otherwise it leaves the globals untouched.  A
    second [add_movie] of the same record always returns [False]. *)
Theorem add_movie_distinct (movie : Movie.t) (g : globals) :
  NoDup (map lower_ident (movies g)) ->
  exists b g',
    add_movie_checked movie g = (b, g')
    /\ NoDup (map lower_ident (movies g'))
    /\ (b = true <->
        Movie.name movie <> "" /\ ~ In (lower_ident movie) (map lower_ident (movies g)))
    /\ (b = true ->
        movies g' = (movies g ++ [ensure_search_fields movie])%list
        /\ favorites g' = favorites g)
    /\ (b = false -> g' = g)
    /\ add_movie_checked movie g' = (false, g').
Proof.
  intros Hn.
  assert (Hcases : Movie.name movie = ""
                   \/ In (lower_ident movie) (map lower_ident (movies g))
                   \/ (Movie.name movie <> ""
                       /\ ~ In (lower_ident movie) (map lower_ident (movies g)))).
  { destruct (Movie.name movie) eqn:En; [ left; reflexivity | right ].
    destruct (existsb (ident_eqb (lower_ident movie))
                (map (fun m => (PyStr.lower (Movie.name m), Movie.year m))
                     (movies g))) eqn:Hex.
    - left. apply existsb_lower_ident, Hex.
    - right. split; [ discriminate | ].
      intros Hin. apply existsb_lower_ident in Hin. congruence. }
  assert (Hrej : Movie.name movie = ""
                 \/ In (lower_ident movie) (map lower_ident (movies g)) ->
                 exists b g',
                   add_movie_checked movie g = (b, g')
                   /\ NoDup (map lower_ident (movies g'))
                   /\ (b = true <->
                       Movie.name movie <> ""
                       /\ ~ In (lower_ident movie) (map lower_ident (movies g)))
                   /\ (b = true ->
                       movies g' = (movies g ++ [ensure_search_fields movie])%list
                       /\ favorites g' = favorites g)
                   /\ (b = false -> g' = g)
                   /\ add_movie_checked movie g' = (false, g')).
  { intros Hr. exists false, g.
    split; [ apply add_movie_checked_rejects, Hr | ].
    split; [ exact Hn | ].
    split; [ split; [ discriminate | intros [H1 H2]; destruct Hr; contradiction ] | ].
    split; [ discriminate | ].
    split; [ reflexivity | apply add_movie_checked_rejects, Hr ]. }
  destruct Hcases as [He | [Hin | [Hne Hfresh]]]; [ apply Hrej; auto .. | ].
  eexists true, _.
  split; [ apply add_movie_checked_accepts; assumption | ]. simpl.
  split; [ | split; [ | split; [ | split ] ] ].
  - rewrite map_app. simpl. rewrite lower_ident_ensure.
    eapply Permutation_NoDup; [ apply Permutation_cons_append | ].
    constructor; assumption.
  - split; auto.
  - auto.
  - discriminate.
  - apply add_movie_checked_rejects. right. simpl.
    rewrite map_app. apply in_or_app. right. left. apply lower_ident_ensure.
Qed.

Lemma add_movie_distinct_witness :
  exists b g',
    add_movie_checked Sample.odyssey_two (mk_globals Sample.library []) = (b, g')
    /\ NoDup (map lower_ident (movies g')).
Proof.
  destruct (add_movie_distinct Sample.odyssey_two (mk_globals Sample.library []))
    as (b & g' & Heq & Hn & _).
  - repeat constructor; simpl; intuition discriminate.
  - exists b, g'. split; assumption.
Defined.

Lemma NoDup_map_compose {A B C : Type} (f : A -> B) (h : B -> C) (l : list A) :
  NoDup (map (fun x => h (f x)) l) -> NoDup (map f l).
Proof.
  induction l as [| x l IH]; simpl; intros H; [ constructor | ].
  inversion H as [| ? ? Hx Hl]; subst. constructor; [ | apply IH, Hl ].
  intros Hin. apply Hx. apply in_map_iff in Hin.
  destruct Hin as (y & Hy & Hin). apply in_map_iff. exists y.
  split; [ rewrite Hy; reflexivity | exact Hin ].
Qed.

(** Dropping records keeps their keys distinct. *)
Lemma filter_keeps_distinct {V K : Type} (keep : V -> bool) (key_of : V -> K) :
  forall records : list V,
    NoDup (map key_of records) -> NoDup (map key_of (filter keep records)).
Proof.
  intros records.
  induction records as [| x l IH]; simpl; intros H; [ constructor | ].
  inversion H as [| ? ? Hx Hl]; subst.
  destruct (keep x); simpl; [ | apply IH, Hl ].
  constructor; [ | apply IH, Hl ].
  intros Hin. apply Hx. apply in_map_iff in Hin.
  destruct Hin as (y & Hy & Hin). apply filter_In in Hin.
  apply in_map_iff. exists y. tauto.
Qed.

Lemma filter_r_filter {A : Type} (p : A -> result bool) (l r : list A) :
  filter_r p l = Ok r ->
  r = filter (fun x => match p x with Ok true => true | _ => false end) l.
Proof.
  revert r. induction l as [| y l IH]; simpl; intros r H.
  - inv_ok H. reflexivity.
  - inv_bind H. inv_bind H. inv_ok H. rewrite Hx.
    rewrite <- (IH _ Hx0). destruct x; reflexivity.
Qed.

Lemma apply_filters_distinct genre category min_rating year year_from year_to l r :
  apply_filters genre category min_rating year year_from year_to l = Ok r ->
  NoDup (map ident_of l) -> NoDup (map ident_of r).
Proof.
  unfold apply_filters, genre_category_filters. intros H Hn.
  inv_bind H. inv_bind Hx. inv_bind H. inv_bind H. inv_bind H.
  assert (H0 : NoDup (map ident_of x0)).
  { unfold filter_genre in Hx0. destruct (truthy genre); [ | inv_ok Hx0; exact Hn ].
    inv_bind Hx0. inv_ok Hx0. apply filter_keeps_distinct, Hn. }
  assert (H1 : NoDup (map ident_of x)).
  { unfold filter_category in Hx. destruct (truthy category); [ | inv_ok Hx; exact H0 ].
    inv_bind Hx. inv_ok Hx. apply filter_keeps_distinct, H0. }
  assert (H2 : NoDup (map ident_of x1)).
  { unfold filter_min_rating in Hx1.
    destruct (is_not_None min_rating); [ | inv_ok Hx1; exact H1 ].
    rewrite (filter_r_filter _ _ _ Hx1). apply filter_keeps_distinct, H1. }
  assert (H3 : NoDup (map ident_of x2)).
  { unfold filter_year in Hx2.
    destruct (is_not_None year); inv_ok Hx2; [ apply filter_keeps_distinct | ]; exact H2. }
  assert (H4 : NoDup (map ident_of x3)).
  { unfold filter_year_from in Hx3.
    destruct (is_not_None year_from); [ | inv_ok Hx3; exact H3 ].
    rewrite (filter_r_filter _ _ _ Hx3). apply filter_keeps_distinct, H3. }
  unfold filter_year_to in H.
  destruct (is_not_None year_to); [ | inv_ok H; exact H4 ].
  rewrite (filter_r_filter _ _ _ H). apply filter_keeps_distinct, H4.
Qed.

Lemma add_movie_checked_nodup (movie : Movie.t) (g : globals) :
  NoDup (map lower_ident (movies g)) ->
  NoDup (map lower_ident (movies (snd (add_movie_checked movie g)))).
Proof.
  intros Hn.
  destruct (Movie.name movie) eqn:En.
  - rewrite add_movie_checked_rejects; [ exact Hn | left; exact En ].
  - destruct (existsb (ident_eqb (lower_ident movie))
                (map (fun m => (PyStr.lower (Movie.name m), Movie.year m))
                     (movies g))) eqn:Hex.
    + rewrite add_movie_checked_rejects; [ exact Hn | right ].
      apply existsb_lower_ident, Hex.
    + rewrite add_movie_checked_accepts.
      * simpl. rewrite map_app. simpl. rewrite lower_ident_ensure.
        eapply Permutation_NoDup; [ apply Permutation_cons_append | ].
        constructor; [ | exact Hn ].
        intros Hin. apply existsb_lower_ident in Hin. congruence.
      * rewrite En. discriminate.
      * intros Hin. apply existsb_lower_ident in Hin. congruence.
Qed.

Lemma add_all_distinct (loaded : list Movie.t) : forall g,
  NoDup (map lower_ident (movies g)) ->
  NoDup (map lower_ident (movies (add_all loaded g))).
Proof.
  induction loaded as [| m l IH]; intros g Hn; simpl; [ exact Hn | ].
  apply IH, add_movie_checked_nodup, Hn.
Qed.

Lemma distinct_keys_nodup (l : list ident) : distinct_keys l = true -> NoDup l.
Proof.
  induction l as [| k l IH]; simpl; intros H; [ constructor | ].
  apply andb_true_iff in H. destruct H as [Hk Hl].
  constructor; [ | apply IH, Hl ].
  intros Hin. apply negb_true_iff in Hk.
  assert (existsb (ident_eqb k) l = true) as He; [ | congruence ].
  apply existsb_exists. exists k. split; [ exact Hin | apply ident_eqb_refl ].
Qed.

(** The built-in collection holds no two records with the same name, in
    any letter case, and year. *)
Lemma initial_movies_distinct : NoDup (map lower_ident initial_movies).
Proof.
  apply distinct_keys_nodup. vm_compute. reflexivity.
Qed.

(** X17: the load loop of [main], [add_movie] on every loaded record,
    keeps the collection free of records with the same name, in any
    letter case, and year: a collection that holds no two such records
    before the loop, as the built-in collection does, holds none after
    it, whatever is loaded.  The records then have distinct identities
    [(name, year)], and so have the filtered records that [find_matches]
    works on. *)
Theorem loaded_collection_distinct (loaded : list Movie.t) :
  (forall favs,
      NoDup (map lower_ident
               (movies (add_all loaded (mk_globals initial_movies favs)))))
  /\ forall (g : globals) genre category min_rating year year_from year_to fl,
       NoDup (map lower_ident (movies g)) ->
       apply_filters genre category min_rating year year_from year_to
         (movies (add_all loaded g)) = Ok fl ->
       NoDup (map lower_ident (movies (add_all loaded g)))
       /\ NoDup (map ident_of (movies (add_all loaded g)))
       /\ NoDup (map ident_of fl).
Proof.
  split.
  - intros favs. apply add_all_distinct. exact initial_movies_distinct.
  - intros g genre category min_rating year year_from year_to fl Hg Hf.
    assert (Hl : NoDup (map lower_ident (movies (add_all loaded g))))
      by (apply add_all_distinct, Hg).
    assert (Hi : NoDup (map ident_of (movies (add_all loaded g)))).
    { apply (NoDup_map_compose ident_of
               (fun k : ident => (PyStr.lower (fst k), snd k))).
      exact Hl. }
    split; [ exact Hl | split; [ exact Hi | ] ].
    eapply apply_filters_distinct; eassumption.
Qed.

Lemma loaded_collection_distinct_witness :
  NoDup (map ident_of
           [ensure_search_fields Sample.toy_story; ensure_search_fields Sample.coco;
            ensure_search_fields Sample.social_network;
            ensure_search_fields Sample.odyssey_two]).
Proof.
  apply (proj2 (loaded_collection_distinct
                  [Sample.odyssey_two; Sample.toy_story; Sample.odyssey_two])
           (mk_globals (map ensure_search_fields
                          [Sample.toy_story; Sample.coco; Sample.social_network])
                       [])
           PyNone PyNone PyNone PyNone PyNone PyNone
           [ensure_search_fields Sample.toy_story; ensure_search_fields Sample.coco;
            ensure_search_fields Sample.social_network;
            ensure_search_fields Sample.odyssey_two]).
  - apply distinct_keys_nodup. vm_compute. reflexivity.
  - vm_compute. reflexivity.
Defined.

(** ** The cached search text *)

Lemma lower_char_idem (c : ascii) :
  PyStr.lower_char (PyStr.lower_char c) = PyStr.lower_char c.
Proof.
  destruct c as [b0 b1 b2 b3 b4 b5 b6 b7].
  destruct b0, b1, b2, b3, b4, b5, b6, b7; vm_compute; reflexivity.
Qed.

Lemma is_space_lower_char (c : ascii) :
  PyStr.is_space (PyStr.lower_char c) = PyStr.is_space c.
Proof.
  destruct c as [b0 b1 b2 b3 b4 b5 b6 b7].
  destruct b0, b1, b2, b3, b4, b5, b6, b7; vm_compute; reflexivity.
Qed.

Lemma lower_idem (s : string) : PyStr.lower (PyStr.lower s) = PyStr.lower s.
Proof.
  induction s as [| c s IH]; simpl; [ reflexivity | ].
  rewrite lower_char_idem, IH. reflexivity.
Qed.

Lemma lower_app (a b : string) :
  PyStr.lower (a ++ b) = (PyStr.lower a ++ PyStr.lower b)%string.
Proof.
  induction a as [| c a IH]; simpl; [ reflexivity | ].
  rewrite IH. reflexivity.
Qed.

Lemma lower_is_empty (s : string) : PyStr.is_empty (PyStr.lower s) = PyStr.is_empty s.
Proof. destruct s; reflexivity. Qed.

Lemma lower_lstrip (s : string) :
  PyStr.lower (PyStr.lstrip s) = PyStr.lstrip (PyStr.lower s).
Proof.
  induction s as [| c s IH]; simpl; [ reflexivity | ].
  rewrite is_space_lower_char. destruct (PyStr.is_space c); [ exact IH | reflexivity ].
Qed.

Lemma lower_rstrip (s : string) :
  PyStr.lower (PyStr.rstrip s) = PyStr.rstrip (PyStr.lower s).
Proof.
  induction s as [| c s IH]; simpl; [ reflexivity | ].
  rewrite is_space_lower_char, <- IH, lower_is_empty.
  destruct (PyStr.is_space c && PyStr.is_empty (PyStr.rstrip s)); reflexivity.
Qed.

Lemma lower_strip (s : string) :
  PyStr.lower (PyStr.strip s) = PyStr.strip (PyStr.lower s).
Proof.
  unfold PyStr.strip. rewrite lower_rstrip, lower_lstrip. reflexivity.
Qed.

(** X18: the search text that [ensure_search_fields] caches on a record
    agrees with the text [find_matches] falls back on for a record
    without cache, up to the surrounding whitespace that the cache strips;
    and caching changes neither the identity of the record nor any field a
    filter or a sort reads. *)
Theorem cached_search_text (m : Movie.t) :
  search_text (ensure_search_fields m)
  = PyStr.strip (search_text (without_cache m))
  /\ ident_of (ensure_search_fields m) = ident_of m
  /\ without_cache (ensure_search_fields m) = without_cache m.
Proof.
  split; [ | split; reflexivity ].
  unfold search_text, ensure_search_fields, without_cache. simpl.
  rewrite lower_strip.
  repeat (rewrite ?lower_app, ?lower_idem; cbn [PyStr.lower]).
  change (PyStr.lower_char " ") with " "%char.
  repeat (rewrite ?lower_app, ?lower_idem; cbn [PyStr.lower]).
  reflexivity.
Qed.

(** * [parse_filters] and its caller *)

Lemma strdict_set_in (d : StrDict.t) (k : string) (v : pyval) k' v' :
  In (k', v') (StrDict.set d k v) -> (k' = k /\ v' = v) \/ In (k', v') d.
Proof.
  induction d as [| [k0 v0] d IH]; simpl.
  - intros [H | []]. inversion H. auto.
  - destruct (String.eqb k k0) eqn:E; simpl.
    + apply String.eqb_eq in E. subst k0.
      intros [H | H]; [ inversion H; auto | auto ].
    + intros [H | H]; [ auto | destruct (IH H); auto ].
Qed.

Lemma strdict_get_in (d : StrDict.t) (k : string) :
  StrDict.get d k = PyNone \/ In (k, StrDict.get d k) d.
Proof.
  induction d as [| [k0 v0] d IH]; simpl; [ auto | ].
  destruct (String.eqb k k0) eqn:E.
  - apply String.eqb_eq in E. subst. auto.
  - destruct IH; auto.
Qed.

Lemma typed_filters_set_num (d : StrDict.t) (k : string) (x : Q) :
  typed_filters d -> numeric_filter_key k -> typed_filters (StrDict.set d k (PyNum x)).
Proof.
  intros Hd Hk k' v' Hin. apply strdict_set_in in Hin.
  destruct Hin as [[-> ->] | Hin]; [ left; eauto | apply Hd, Hin ].
Qed.

Lemma typed_filters_set_str (d : StrDict.t) (k s : string) :
  typed_filters d -> text_filter_key k -> typed_filters (StrDict.set d k (PyStr s)).
Proof.
  intros Hd Hk k' v' Hin. apply strdict_set_in in Hin.
  destruct Hin as [[-> ->] | Hin]; [ right; eauto | apply Hd, Hin ].
Qed.

Lemma typed_filters_get_num (d : StrDict.t) (k : string) :
  typed_filters d -> numeric_filter_key k ->
  exists o, StrDict.get d k = opt_num o.
Proof.
  intros Hd Hk. destruct (strdict_get_in d k) as [-> | Hin]; [ exists None; reflexivity | ].
  destruct (Hd _ _ Hin) as [(_ & x & ->) | (Ht & _)]; [ exists (Some x); reflexivity | ].
  exfalso. unfold numeric_filter_key, text_filter_key in *.
  destruct Hk as [-> | [-> | [-> | ->]]]; destruct Ht as [H | [H | H]]; discriminate.
Qed.

Lemma typed_filters_get_str (d : StrDict.t) (k : string) :
  typed_filters d -> text_filter_key k ->
  exists o, StrDict.get d k = opt_str o.
Proof.
  intros Hd Hk. destruct (strdict_get_in d k) as [-> | Hin]; [ exists None; reflexivity | ].
  destruct (Hd _ _ Hin) as [(Hn & _) | (_ & s & ->)]; [ | exists (Some s); reflexivity ].
  exfalso. unfold numeric_filter_key, text_filter_key in *.
  destruct Hk as [-> | [-> | ->]]; destruct Hn as [H | [H | [H | H]]]; discriminate.
Qed.

Lemma cap_length_positive {A : Type} (n : Z) (l : list A) :
  0 < n -> Z.of_nat (List.length (cap (Some n) l)) <= n.
Proof.
  intros Hn. simpl. destruct (n =? 0) eqn:E; [ apply Z.eqb_eq in E; lia | ].
  unfold slice_to. destruct (0 <=? n) eqn:E'; [ | apply Z.leb_gt in E'; lia ].
  pose proof (firstn_le_length (Z.to_nat n) l). lia.
Qed.

Section ParsingFacts.
Variable float_of_str : string -> option Q.
Variable int_of_str : string -> option Z.

Lemma parse_part_typed (out : StrDict.t) (p : string) :
  typed_filters out -> typed_filters (parse_part float_of_str int_of_str out p).
Proof.
  intros Hd. unfold parse_part.
  destruct (if PyStrMore.contains_char "=" p
            then Some (PyStrMore.split_once "=" p)
            else if PyStrMore.contains_char ":" p
                 then Some (PyStrMore.split_once ":" p)
                 else None) as [[k v] |]; [ | exact Hd ].
  set (key := PyStrMore.replace_char "-" "_" (PyStr.lower (PyStr.strip k))).
  destruct (String.eqb key "min_rating" || String.eqb key "min-rating").
  { destruct (float_of_str _); [ | exact Hd ].
    apply typed_filters_set_num; [ exact Hd | left; reflexivity ]. }
  destruct (String.eqb key "year").
  { destruct (int_of_str _); [ | exact Hd ].
    apply typed_filters_set_num; [ exact Hd | right; left; reflexivity ]. }
  destruct (String.eqb key "year_from" || String.eqb key "year-from").
  { destruct (int_of_str _); [ | exact Hd ].
    apply typed_filters_set_num; [ exact Hd | right; right; left; reflexivity ]. }
  destruct (String.eqb key "year_to" || String.eqb key "year-to").
  { destruct (int_of_str _); [ | exact Hd ].
    apply typed_filters_set_num; [ exact Hd | right; right; right; reflexivity ]. }
  destruct (String.eqb key "genre") eqn:Eg.
  { apply String.eqb_eq in Eg. rewrite Eg. simpl.
    apply typed_filters_set_str; [ exact Hd | left; reflexivity ]. }
  destruct (String.eqb key "category") eqn:Ec.
  { apply String.eqb_eq in Ec. rewrite Ec. simpl.
    apply typed_filters_set_str; [ exact Hd | right; left; reflexivity ]. }
  destruct (String.eqb key "sort_by") eqn:Es.
  { apply String.eqb_eq in Es. rewrite Es. simpl.
    apply typed_filters_set_str; [ exact Hd | right; right; reflexivity ]. }
  destruct (String.eqb key "sort-by") eqn:Es'.
  { apply String.eqb_eq in Es'. rewrite Es'. simpl.
    apply typed_filters_set_str; [ exact Hd | right; right; reflexivity ]. }
  simpl. exact Hd.
Qed.

Lemma fold_parse_part_typed (parts : list string) : forall out,
  typed_filters out ->
  typed_filters (fold_left (parse_part float_of_str int_of_str) parts out).
Proof.
  induction parts as [| p parts IH]; intros out Hd; simpl; [ exact Hd | ].
  apply IH, parse_part_typed, Hd.
Qed.

Lemma parse_filters_typed_dict (filter_text : string) :
  typed_filters (parse_filters float_of_str int_of_str filter_text).
Proof.
  unfold parse_filters. destruct (PyStr.is_empty filter_text).
  - intros k v [].
  - apply fold_parse_part_typed. intros k v [].
Qed.

(** X19: whatever the text, [parse_filters] returns only the keys
    [min_rating], [year], [year_from], [year_to] with a number as value
    and [genre], [category], [sort_by] with a string as value: a value
    that [float] or [int] refuses is dropped, as is an unknown key.  So
    what [filters.get] hands to [find_matches] is a number or [None] for a
    numeric filter and a string or [None] for a text filter. *)
Theorem parse_filters_typed (filter_text : string) :
  (forall k v,
      In (k, v) (parse_filters float_of_str int_of_str filter_text) ->
      (numeric_filter_key k /\ exists x, v = PyNum x)
      \/ (text_filter_key k /\ exists s, v = PyStr s))
  /\ (forall k, numeric_filter_key k ->
        exists o,
          StrDict.get (parse_filters float_of_str int_of_str filter_text) k
          = opt_num o)
  /\ (forall k, text_filter_key k ->
        exists o,
          StrDict.get (parse_filters float_of_str int_of_str filter_text) k
          = opt_str o).
Proof.
  pose proof (parse_filters_typed_dict filter_text) as Hd.
  split; [ exact Hd | split ].
  - intros k Hk. apply typed_filters_get_num; assumption.
  - intros k Hk. apply typed_filters_get_str; assumption.
Qed.

Variable _HAS_RAPIDFUZZ : bool.
Variable has_rprocess : bool.
Variable partial_ratio : string -> string -> option Q.

(** X20: the search of [main_loop] never fails on the type of a filter,
    whatever the user types on the two lines: the call of [find_matches]
    returns at most 20 records, or raises the [ValueError] of a query of
    digits with a superscript among them; it raises no [TypeError] and no
    [AttributeError]. *)
Theorem main_loop_round_outcome (movies : list Movie.t)
  (filter_line query_line : string) (r : result (list Movie.t)) :
  main_loop_round float_of_str int_of_str _HAS_RAPIDFUZZ has_rprocess
    partial_ratio movies filter_line query_line = Searched r ->
  (exists res, r = Ok res /\ Z.of_nat (List.length res) <= 20)
  \/ r = Raise ValueError.
Proof.
  unfold main_loop_round.
  destruct (String.eqb _ "list" || String.eqb _ "l"); [ discriminate | ].
  destruct (String.eqb _ "q"); [ discriminate | ].
  set (filters := parse_filters float_of_str int_of_str (PyStr.strip filter_line)).
  destruct (sanitize_query (PyStr (PyStr.strip query_line)) 100) as [query | e];
    [ | discriminate ].
  destruct (negb (PyStr.is_empty query) || _); [ | discriminate ].
  intros H. injection H as <-.
  pose proof (parse_filters_typed_dict (PyStr.strip filter_line)) as Hd.
  fold filters in Hd.
  destruct (typed_filters_get_str filters "genre" Hd) as [og ->];
    [ left; reflexivity | ].
  destruct (typed_filters_get_str filters "category" Hd) as [oc ->];
    [ right; left; reflexivity | ].
  destruct (typed_filters_get_num filters "min_rating" Hd) as [om ->];
    [ left; reflexivity | ].
  destruct (typed_filters_get_num filters "year" Hd) as [oy ->];
    [ right; left; reflexivity | ].
  destruct (typed_filters_get_num filters "year_from" Hd) as [oyf ->];
    [ right; right; left; reflexivity | ].
  destruct (typed_filters_get_num filters "year_to" Hd) as [oyt ->];
    [ right; right; right; reflexivity | ].
  change PyNone with (opt_str None) at 1.
  unfold find_matches_on. simpl is_not_None. cbv iota.
  destruct (sanitize_query (PyStr query) 100) as [q | e] eqn:Hs;
    [ | left; exists []; split; [ reflexivity | simpl; lia ] ].
  destruct (search_typed _HAS_RAPIDFUZZ has_rprocess partial_ratio movies q
              (Some 20) true DEFAULT_FUZZY_THRESHOLD og oc om oy oyf oyt None)
    as [Hreturns Hraises].
  destruct (superscript_query (q_lower_of q)) eqn:Hq.
  - right. apply Hraises. reflexivity.
  - left. destruct (Hreturns eq_refl) as [res Hres]. exists res.
    split; [ exact Hres | ].
    unfold search in Hres. inv_bind Hres. inv_bind Hres. inv_ok Hres.
    apply (cap_length_positive 20 x0). lia.
Qed.

End ParsingFacts.

Lemma parse_filters_typed_witness :
  exists o,
    StrDict.get
      (parse_filters Sample2.digits_to_Q Sample2.digits_to_Z
         "genre=Animation, Min-Rating = 8, year=soon")
      "min_rating" = opt_num o.
Proof.
  apply (proj1 (proj2 (parse_filters_typed Sample2.digits_to_Q
                         Sample2.digits_to_Z
                         "genre=Animation, Min-Rating = 8, year=soon"))
           "min_rating").
  left; reflexivity.
Defined.

Lemma main_loop_round_outcome_witness :
  (exists res,
      Ok [Sample.coco; Sample.toy_story] = Ok res
      /\ Z.of_nat (List.length res) <= 20)
  \/ Ok [Sample.coco; Sample.toy_story] = Raise ValueError.
Proof.
  apply (main_loop_round_outcome Sample2.digits_to_Q Sample2.digits_to_Z true
           true Sample.substring_scorer Sample.library
           " genre=Animation, Min-Rating = 8, year=soon " "").
  vm_compute; reflexivity.
Defined.

(** * The listings of genres and categories *)

Lemma counter_get_incr (c : Counter.t) (k k' : string) :
  Counter.get (Counter.incr c k) k'
  = if String.eqb k' k then Counter.get c k' + 1 else Counter.get c k'.
Proof.
  induction c as [| [k0 n] c IH]; simpl.
  - destruct (String.eqb k' k); reflexivity.
  - destruct (String.eqb k k0) eqn:E; simpl.
    + apply String.eqb_eq in E. subst k0.
      destruct (String.eqb k' k); reflexivity.
    + destruct (String.eqb k' k0) eqn:E'; [ | exact IH ].
      apply String.eqb_eq in E'. subst k0.
      rewrite String.eqb_sym, E. reflexivity.
Qed.

Lemma counter_keys_incr (c : Counter.t) (k k' : string) :
  In k' (Counter.keys (Counter.incr c k)) <-> k' = k \/ In k' (Counter.keys c).
Proof.
  unfold Counter.keys. induction c as [| [k0 n] c IH]; simpl.
  - intuition congruence.
  - destruct (String.eqb k k0) eqn:E; simpl.
    + apply String.eqb_eq in E. subst k0. intuition congruence.
    + rewrite IH. intuition congruence.
Qed.

Lemma counter_keys_incr_nodup (c : Counter.t) (k : string) :
  NoDup (Counter.keys c) -> NoDup (Counter.keys (Counter.incr c k)).
Proof.
  unfold Counter.keys. induction c as [| [k0 n] c IH]; simpl; intros Hn.
  - constructor; [ intros [] | constructor ].
  - inversion Hn as [| ? ? Hk Hc]; subst.
    destruct (String.eqb k k0) eqn:E; simpl; [ constructor; assumption | ].
    constructor; [ | apply IH, Hc ].
    intros Hin. apply (counter_keys_incr c k k0) in Hin.
    destruct Hin as [-> | Hin]; [ | contradiction ].
    rewrite String.eqb_refl in E. discriminate.
Qed.

Lemma counter_fold (items : list string) : forall c,
  NoDup (Counter.keys c) ->
  NoDup (Counter.keys (fold_left Counter.incr items c))
  /\ (forall k, Counter.get (fold_left Counter.incr items c) k
                = Counter.get c k + occurrences k items)
  /\ (forall k, In k (Counter.keys (fold_left Counter.incr items c))
                <-> In k (Counter.keys c) \/ In k items).
Proof.
  induction items as [| x items IH]; intros c Hn; simpl.
  - split; [ exact Hn | split; [ intros k; lia | intros k; tauto ] ].
  - destruct (IH _ (counter_keys_incr_nodup c x Hn)) as (H1 & H2 & H3).
    split; [ exact H1 | split ].
    + intros k. rewrite H2, counter_get_incr.
      destruct (String.eqb k x); lia.
    + intros k. rewrite H3, counter_keys_incr. intuition congruence.
Qed.

Lemma occurrences_in (name : string) (items : list string) :
  In name items -> 1 <= occurrences name items.
Proof.
  assert (Hnn : forall l, 0 <= occurrences name l).
  { induction l as [| x l IH]; simpl; [ lia | ].
    destruct (String.eqb name x); lia. }
  induction items as [| x items IH]; simpl; [ tauto | ].
  intros [-> | Hin].
  - rewrite String.eqb_refl. specialize (Hnn items). lia.
  - specialize (IH Hin). destruct (String.eqb name x); lia.
Qed.

Lemma string_compare_trans_le (a b c : string) :
  String.compare a b <> Gt -> String.compare b c <> Gt -> String.compare a c <> Gt.
Proof.
  intros Hab Hbc Hac.
  assert (Hlt : forall x y, String.compare x y = Gt -> String.compare y x = Lt).
  { intros x y H. rewrite String.compare_antisym, H. reflexivity. }
  apply Hlt in Hac.
  destruct (String.compare a b) eqn:E1; [ | | congruence ].
  - apply String.compare_eq_iff in E1. subst b.
    rewrite String.compare_antisym, Hac in Hbc. simpl in Hbc. congruence.
  - destruct (String.compare b c) eqn:E2; [ | | congruence ].
    + apply String.compare_eq_iff in E2. subst c.
      rewrite String.compare_antisym, Hac in E1. discriminate.
    + pose proof (@StrictOrder_Transitive _ _ OrdersEx.String_as_OT.lt_strorder
                    c a b Hac E1) as Hcb.
      change (String.compare c b = Lt) in Hcb.
      rewrite String.compare_antisym, Hcb in E2. discriminate.
Qed.

Lemma count_key_ltb_false (a b : count_key) :
  count_key_ltb b a = false <-> count_key_le a b.
Proof.
  unfold count_key_ltb, count_key_le, String.ltb.
  destruct a as [x s], b as [y t]; simpl.
  rewrite (String.compare_antisym t s).
  destruct (Z.ltb_spec y x), (Z.eqb_spec y x), (String.compare s t); simpl;
    split; intros K; try discriminate; try reflexivity; try lia;
    try (destruct K as [K | [K K']]; try lia; congruence);
    try (right; split; [ lia | discriminate ]);
    try (left; lia).
Qed.

Lemma count_key_ltb_true (a b : count_key) :
  count_key_ltb a b = true -> count_key_le a b.
Proof.
  unfold count_key_ltb, count_key_le, String.ltb.
  destruct a as [x s], b as [y t]; simpl.
  rewrite orb_true_iff, andb_true_iff, Z.ltb_lt, Z.eqb_eq.
  intros [H | [H H']]; [ left; exact H | right; split; [ exact H | ] ].
  destruct (String.compare s t); discriminate.
Qed.

Lemma count_key_le_trans (a b c : count_key) :
  count_key_le a b -> count_key_le b c -> count_key_le a c.
Proof.
  unfold count_key_le.
  intros [H | [H H']] [K | [K K']]; try (left; lia).
  right. split; [ lia | eapply string_compare_trans_le; eassumption ].
Qed.

Section SortingAscFacts.
Context {A : Type}.
Variable key : A -> count_key.

Lemma insert_asc_perm (x : A) (l : list A) :
  Permutation (insert_asc key x l) (x :: l).
Proof.
  induction l as [| y l IH]; simpl; [ apply Permutation_refl | ].
  destruct (count_key_ltb (key y) (key x));
    [ eapply perm_trans; [ apply perm_skip, IH | apply perm_swap ]
    | apply Permutation_refl ].
Qed.

Lemma sorted_asc_perm (l : list A) : Permutation (sorted_asc key l) l.
Proof.
  induction l as [| x l IH]; simpl; [ apply perm_nil | ].
  eapply perm_trans; [ apply insert_asc_perm | apply perm_skip, IH ].
Qed.

Lemma insert_asc_sorted (x : A) (l : list A) :
  StronglySorted (fun a b => count_key_le (key a) (key b)) l ->
  StronglySorted (fun a b => count_key_le (key a) (key b)) (insert_asc key x l).
Proof.
  induction l as [| y l IH]; simpl; intros Hs.
  - constructor; constructor.
  - inversion Hs as [| ? ? Hl Hy]; subst.
    destruct (count_key_ltb (key y) (key x)) eqn:E.
    + constructor; [ apply IH, Hl | ].
      rewrite Forall_forall in *. intros z Hz.
      apply (Permutation_in _ (insert_asc_perm x l)) in Hz.
      destruct Hz as [<- | Hz]; [ apply count_key_ltb_true, E | apply Hy, Hz ].
    + apply count_key_ltb_false in E.
      constructor; [ exact Hs | ]. constructor; [ exact E | ].
      rewrite Forall_forall in *. intros z Hz.
      eapply count_key_le_trans; [ exact E | apply Hy, Hz ].
Qed.

Lemma sorted_asc_sorted (l : list A) :
  StronglySorted (fun a b => count_key_le (key a) (key b)) (sorted_asc key l).
Proof.
  induction l as [| x l IH]; simpl; [ constructor | apply insert_asc_sorted, IH ].
Qed.
End SortingAscFacts.

Lemma StronglySorted_map {A B : Type} (f : A -> B) (R : B -> B -> Prop) (l : list A) :
  StronglySorted (fun x y => R (f x) (f y)) l -> StronglySorted R (map f l).
Proof.
  induction 1 as [| a l Hs IH Ha]; simpl; constructor; [ exact IH | ].
  rewrite Forall_forall in *. intros b Hb. apply in_map_iff in Hb.
  destruct Hb as (x & <- & Hx). apply Ha, Hx.
Qed.

(** The listing of any items: each name once, with the number of its
    occurrences, by decreasing count and then increasing name. *)
Lemma tally_spec (items : list string) :
  NoDup (map fst (tally items))
  /\ (forall name n,
         In (name, n) (tally items)
         <-> In name items /\ n = occurrences name items)
  /\ StronglySorted listing_order (tally items).
Proof.
  unfold tally.
  destruct (counter_fold items [] (NoDup_nil _)) as (Hn & Hget & Hkeys).
  set (counter := fold_left Counter.incr items []) in *.
  set (key := fun x : string => (- Counter.get counter x, x)).
  split; [ | split ].
  - rewrite map_map. simpl. rewrite map_id.
    eapply Permutation_NoDup; [ apply Permutation_sym, sorted_asc_perm | exact Hn ].
  - intros name n. rewrite in_map_iff. split.
    + intros (x & Heq & Hin). inversion Heq; subst.
      apply (Permutation_in _ (sorted_asc_perm key _)) in Hin.
      apply Hkeys in Hin. destruct Hin as [[] | Hin].
      split; [ exact Hin | ]. rewrite Hget. simpl. lia.
    + intros [Hin ->]. exists name. split.
      * rewrite Hget. simpl. reflexivity.
      * apply (Permutation_in _ (Permutation_sym (sorted_asc_perm key _))).
        apply Hkeys. right; exact Hin.
  - apply StronglySorted_map.
    eapply StronglySorted_weaken; [ | apply (sorted_asc_sorted key) ].
    intros a b. unfold count_key_le, listing_order, key, String.leb. simpl.
    intros [H | [H H']]; [ left; lia | right; split; [ lia | ] ].
    destruct (String.compare a b); [ reflexivity | reflexivity | congruence ].
Qed.

Lemma occurrences_categories (name : string) (movies : list Movie.t) :
  name <> "" ->
  occurrences name
    (flat_map (fun m => if PyStr.is_empty (Movie.category m) then []
                        else [Movie.category m]) movies)
  = Z.of_nat (List.length
                (filter (fun m => String.eqb (Movie.category m) name) movies)).
Proof.
  intros Hne. induction movies as [| m ms IH]; simpl; [ reflexivity | ].
  destruct (Movie.category m) as [| c s] eqn:E; simpl.
  - rewrite IH. destruct name; [ congruence | reflexivity ].
  - rewrite IH.
    change (match name with
            | EmptyString => false
            | String c2 s2' => if Ascii.eqb c c2 then String.eqb s s2' else false
            end) with (String.eqb (String c s) name).
    rewrite (String.eqb_sym name).
    destruct (String.eqb (String c s) name); simpl List.length; lia.
Qed.

(** X21: [get_available_categories] lists every non-empty category of the
    collection exactly once, with the number of records that have it, in
    decreasing order of that number and, for equal numbers, in increasing
    order of the name. *)
Theorem available_categories (movies : list Movie.t) :
  NoDup (map fst (get_available_categories movies))
  /\ (forall name n,
         In (name, n) (get_available_categories movies)
         <-> name <> ""
             /\ (exists m, In m movies /\ Movie.category m = name)
             /\ n = Z.of_nat (List.length
                                (filter (fun m => String.eqb (Movie.category m) name)
                                        movies)))
  /\ StronglySorted listing_order (get_available_categories movies).
Proof.
  unfold get_available_categories.
  set (items := flat_map _ movies).
  destruct (tally_spec items) as (Hn & Hin & Hs).
  assert (Hitems : forall name,
             In name items
             <-> name <> "" /\ exists m, In m movies /\ Movie.category m = name).
  { intros name. unfold items. rewrite in_flat_map. split.
    - intros (m & Hm & Hc).
      destruct (Movie.category m) as [| c s] eqn:E; simpl in Hc; [ destruct Hc | ].
      destruct Hc as [<- | []]. split; [ discriminate | eauto ].
    - intros (Hne & m & Hm & Hc). exists m. split; [ exact Hm | ].
      rewrite Hc. destruct name; [ congruence | left; reflexivity ]. }
  split; [ exact Hn | split; [ | exact Hs ] ].
  intros name n. rewrite Hin, Hitems. split.
  - intros [[Hne Hex] ->]. split; [ exact Hne | split; [ exact Hex | ] ].
    apply occurrences_categories, Hne.
  - intros (Hne & Hex & ->). split; [ auto | ].
    symmetry. apply occurrences_categories, Hne.
Qed.

Lemma forallb_push (p : ascii -> bool) (c : ascii) (pieces : list string) :
  p c = true ->
  (forall t, In t pieces -> PyStr.forallb p t = true) ->
  forall t, In t (PyStr.push c pieces) -> PyStr.forallb p t = true.
Proof.
  intros Hc Hp t. destruct pieces as [| piece rest]; simpl.
  - intros [<- | []]. simpl. rewrite Hc. reflexivity.
  - intros [<- | Hin].
    + simpl. rewrite Hc. apply Hp. left; reflexivity.
    + apply Hp. right; exact Hin.
Qed.

Lemma genre_split_pieces (s : string) : forall in_sep t,
  In t (genre_split_from in_sep s) ->
  PyStr.forallb (fun c => negb (PyStr.is_space c || Ascii.eqb c "/")) t = true.
Proof.
  induction s as [| c s IH]; simpl; intros in_sep t.
  - intros [<- | []]. reflexivity.
  - destruct (PyStr.is_space c || Ascii.eqb c "/") eqn:E.
    + destruct in_sep; [ apply IH | ].
      intros [<- | Hin]; [ reflexivity | eapply IH, Hin ].
    + apply forallb_push; [ rewrite E; reflexivity | apply IH ].
Qed.

(** X22: [get_available_genres] lists each genre token of the collection
    exactly once, with the number of its occurrences over all records, by
    decreasing count and then increasing name; a token is never empty and
    holds neither whitespace nor a slash. *)
Theorem available_genres (movies : list Movie.t) :
  NoDup (map fst (get_available_genres movies))
  /\ (forall name n,
         In (name, n) (get_available_genres movies) ->
         name <> ""
         /\ PyStr.forallb (fun c => negb (PyStr.is_space c || Ascii.eqb c "/")) name
            = true
         /\ (exists m, In m movies /\ In name (genre_tokens (Movie.genre m)))
         /\ 1 <= n)
  /\ (forall m name,
         In m movies -> In name (genre_tokens (Movie.genre m)) ->
         exists n, In (name, n) (get_available_genres movies))
  /\ StronglySorted listing_order (get_available_genres movies).
Proof.
  unfold get_available_genres.
  set (items := flat_map _ movies).
  destruct (tally_spec items) as (Hn & Hin & Hs).
  assert (Hempty : genre_tokens "" = []) by reflexivity.
  assert (Hitems : forall name,
             In name items
             <-> exists m, In m movies /\ In name (genre_tokens (Movie.genre m))).
  { intros name. unfold items. rewrite in_flat_map. split.
    - intros (m & Hm & Hc). exists m. split; [ exact Hm | ].
      destruct (Movie.genre m); [ destruct Hc | exact Hc ].
    - intros (m & Hm & Hc). exists m. split; [ exact Hm | ].
      destruct (Movie.genre m); [ rewrite Hempty in Hc; destruct Hc | exact Hc ]. }
  split; [ exact Hn | split; [ | split; [ | exact Hs ] ] ].
  - intros name n H. apply Hin in H. destruct H as [Hi ->].
    pose proof (occurrences_in name items Hi) as Hocc.
    apply Hitems in Hi. destruct Hi as (m & Hm & Ht).
    assert (Htok : PyStr.is_empty name = false
                   /\ PyStr.forallb
                        (fun c => negb (PyStr.is_space c || Ascii.eqb c "/")) name
                      = true).
    { unfold genre_tokens in Ht. apply in_map_iff in Ht.
      destruct Ht as (piece & <- & Hp). apply filter_In in Hp.
      destruct Hp as [Hp Hne]. apply negb_true_iff in Hne.
      split; [ exact Hne | ].
      apply forallb_rstrip, forallb_lstrip. eapply genre_split_pieces, Hp. }
    destruct Htok as [Hne Hall].
    split; [ destruct name; [ discriminate | discriminate ] | ].
    split; [ exact Hall | split; [ eauto | exact Hocc ] ].
  - intros m name Hm Ht. exists (occurrences name items).
    apply Hin. split; [ apply Hitems; eauto | reflexivity ].
Qed.

(** * The top rated records *)

Lemma StronglySorted_app_inv {A : Type} (R : A -> A -> Prop) (l1 l2 : list A) :
  StronglySorted R (l1 ++ l2)%list ->
  forall a b, In a l1 -> In b l2 -> R a b.
Proof.
  induction l1 as [| x l1 IH]; simpl; intros Hs a b Ha Hb; [ destruct Ha | ].
  inversion Hs as [| ? ? Hl Hx]; subst.
  destruct Ha as [<- | Ha]; [ | exact (IH Hl a b Ha Hb) ].
  rewrite Forall_forall in Hx. apply Hx, in_or_app. right; exact Hb.
Qed.

(** X23: [show_top] prints a best-rated part of the collection: the
    collection is the printed records together with some others, none of
    which is rated above a printed one; the printed records are in
    non-increasing order of rating, and for [n >= 0] there are [n] of
    them, or all the records when the collection has fewer. *)
Theorem show_top_best (movies : list Movie.t) (n : Z) :
  (exists rest,
      Permutation movies (show_top movies n ++ rest)%list
      /\ forall a b, In a (show_top movies n) -> In b rest ->
                     (Movie.rating b <= Movie.rating a)%Q)
  /\ StronglySorted (fun a b => (Movie.rating b <= Movie.rating a)%Q)
                    (show_top movies n)
  /\ (0 <= n ->
      Z.of_nat (List.length (show_top movies n))
      = Z.min n (Z.of_nat (List.length movies))).
Proof.
  unfold show_top.
  set (key := fun x : Movie.t => (Movie.rating x, 0%Q, 0%Q)).
  assert (Hle : forall a b, desc key a b -> (Movie.rating b <= Movie.rating a)%Q).
  { intros a b. unfold desc, key, key3_ge.
    intros [H | [H _]]; [ apply Qlt_le_weak, H | rewrite H; apply Qle_refl ]. }
  pose proof (sorted_desc_sorted key movies) as Hs.
  pose proof (sorted_desc_perm key movies) as Hp.
  split; [ | split ].
  - destruct (slice_to_firstn n (sorted_desc key movies)) as [k Hk].
    rewrite Hk. exists (skipn k (sorted_desc key movies)). split.
    + rewrite firstn_skipn. apply Permutation_sym, Hp.
    + intros a b Ha Hb. apply Hle.
      apply (StronglySorted_app_inv (desc key) (firstn k (sorted_desc key movies))
               (skipn k (sorted_desc key movies))); [ | exact Ha | exact Hb ].
      rewrite firstn_skipn. exact Hs.
  - destruct (slice_to_firstn n (sorted_desc key movies)) as [k Hk].
    rewrite Hk. eapply StronglySorted_weaken; [ exact Hle | ].
    apply StronglySorted_firstn, Hs.
  - intros Hn. unfold slice_to.
    destruct (Z.leb_spec 0 n); [ | lia ].
    rewrite length_firstn, (Permutation_length Hp). lia.
Qed.

Lemma available_categories_witness :
  In ("Animation", 2) (get_available_categories Sample.library).
Proof.
  apply (proj1 (proj2 (available_categories Sample.library))).
  split; [ discriminate | split ].
  - exists Sample.toy_story. split; [ right; left; reflexivity | reflexivity ].
  - vm_compute. reflexivity.
Defined.

Lemma available_genres_witness :
  exists n, In ("Family", n) (get_available_genres Sample.library).
Proof.
  apply (proj1 (proj2 (proj2 (available_genres Sample.library)))
           Sample.toy_story "Family").
  - right; left; reflexivity.
  - vm_compute. left; reflexivity.
Defined.

Lemma show_top_best_witness :
  Z.of_nat (List.length (show_top Sample.library 2))
  = Z.min 2 (Z.of_nat (List.length Sample.library)).
Proof.
  apply (proj2 (proj2 (show_top_best Sample.library 2))). lia.
Defined.

(** * The search on the store of objects *)

Lemma store_bind_ok {A B : Type} (c : Store.M A) (k : A -> Store.M B)
  (s s' : Store.t) (b : B) :
  Store.bind c k s = (Ok b, s') ->
  exists a s1, c s = (Ok a, s1) /\ k a s1 = (Ok b, s').
Proof.
  unfold Store.bind. destruct (c s) as [[a | e] s1]; intros H;
    [ eauto | discriminate ].
Qed.

Ltac inv_run H :=
  let a := fresh "a" in
  let s1 := fresh "s" in
  let Ha := fresh "Ha" in
  apply store_bind_ok in H; destruct H as (a & s1 & Ha & H).

Ltac inv_ret H := unfold Store.ret in H; injection H as H ?; subst.

(** ** What reads the store leaves it unchanged *)

Lemma read_only_ret {A : Type} (a : A) : Store.read_only (Store.ret a).
Proof. intros s. reflexivity. Qed.

Lemma read_only_lift {A : Type} (r : result A) : Store.read_only (Store.lift r).
Proof. intros s. reflexivity. Qed.

Lemma read_only_view (m : Store.ref) : Store.read_only (Store.view m).
Proof. intros s. reflexivity. Qed.

Lemma read_only_snapshot : Store.read_only Store.snapshot.
Proof. intros s. reflexivity. Qed.

Lemma read_only_bind {A B : Type} (c : Store.M A) (k : A -> Store.M B) :
  Store.read_only c -> (forall a, Store.read_only (k a)) ->
  Store.read_only (Store.bind c k).
Proof.
  intros Hc Hk s. unfold Store.bind. specialize (Hc s).
  destruct (c s) as [[a | e] s1]; simpl in Hc; subst s1;
    [ apply Hk | reflexivity ].
Qed.

Lemma read_only_filterM {A : Type} (p : A -> Store.M bool) (l : list A) :
  (forall x, Store.read_only (p x)) -> Store.read_only (Store.filterM p l).
Proof.
  intros Hp. induction l as [| x l IH]; simpl; [ apply read_only_ret | ].
  apply read_only_bind; [ apply Hp | intros b ].
  apply read_only_bind; [ exact IH | intros r; apply read_only_ret ].
Qed.

Lemma read_only_mapM {A B : Type} (f : A -> Store.M B) (l : list A) :
  (forall x, Store.read_only (f x)) -> Store.read_only (Store.mapM f l).
Proof.
  intros Hf. induction l as [| x l IH]; simpl; [ apply read_only_ret | ].
  apply read_only_bind; [ apply Hf | intros y ].
  apply read_only_bind; [ exact IH | intros r; apply read_only_ret ].
Qed.

Lemma read_only_foldM {A B : Type} (f : B -> A -> Store.M B) (l : list A) :
  (forall b x, Store.read_only (f b x)) ->
  forall b, Store.read_only (Store.foldM f l b).
Proof.
  intros Hf. induction l as [| x l IH]; intros b; simpl; [ apply read_only_ret | ].
  apply read_only_bind; [ apply Hf | intros b'; apply IH ].
Qed.

Lemma read_only_sortedM {A : Type} (key : A -> Store.M key3) (l : list A) :
  (forall x, Store.read_only (key x)) -> Store.read_only (Store.sortedM key l).
Proof.
  intros Hk. unfold Store.sortedM.
  apply read_only_bind; [ apply read_only_mapM, Hk | intros; apply read_only_ret ].
Qed.

Lemma read_only_key_of (m : Store.ref) : Store.read_only (Store.key_of m).
Proof.
  unfold Store.key_of.
  apply read_only_bind; [ apply read_only_view | intros; apply read_only_ret ].
Qed.

Ltac read_only_step :=
  first
    [ apply read_only_ret
    | apply read_only_lift
    | apply read_only_view
    | apply read_only_snapshot
    | apply read_only_key_of
    | apply read_only_filterM; intros
    | apply read_only_mapM; intros
    | apply read_only_sortedM; intros
    | apply read_only_bind; [ | intros ] ].

Ltac read_only := repeat read_only_step.

Section StoreFacts.
Variable _HAS_RAPIDFUZZ : bool.
Variable has_rprocess : bool.
Variable partial_ratio : string -> string -> option Q.

Lemma read_only_apply_filters genre category min_rating year year_from year_to l :
  Store.read_only
    (Store.apply_filters genre category min_rating year year_from year_to l).
Proof.
  unfold Store.apply_filters, Store.filter_genre, Store.filter_category,
    Store.filter_min_rating, Store.filter_year, Store.filter_year_from,
    Store.filter_year_to.
  apply read_only_bind; [ destruct (truthy genre); read_only | intros l1 ].
  apply read_only_bind; [ destruct (truthy category); read_only | intros l2 ].
  apply read_only_bind; [ destruct (is_not_None min_rating); read_only | intros l3 ].
  apply read_only_bind; [ destruct (is_not_None year); read_only | intros l4 ].
  apply read_only_bind; [ destruct (is_not_None year_from); read_only | intros l5 ].
  destruct (is_not_None year_to); read_only.
Qed.

Lemma read_only_tier_matches tokens l :
  Store.read_only (Store.tier_matches tokens l).
Proof.
  induction l as [| m l IH]; simpl; [ apply read_only_ret | ].
  apply read_only_bind; [ apply read_only_view | intros x ].
  apply read_only_bind; [ exact IH | intros r; apply read_only_ret ].
Qed.

Lemma read_only_text_matches q_lower present l :
  Store.read_only (Store.text_matches q_lower present l).
Proof.
  unfold Store.text_matches.
  destruct (PyStr.is_empty q_lower && present); [ apply read_only_ret | ].
  destruct (PyStr.isdigit q_lower); [ read_only | apply read_only_tier_matches ].
Qed.

Lemma read_only_scored_each q thr l :
  Store.read_only (Store.scored_each partial_ratio q thr l).
Proof.
  induction l as [| m l IH]; simpl; [ apply read_only_ret | ].
  apply read_only_bind; [ apply read_only_view | intros x ].
  apply read_only_bind; [ exact IH | intros r; apply read_only_ret ].
Qed.

Lemma read_only_fuzzy_stage enable_fuzzy q thr l mwp :
  Store.read_only
    (Store.fuzzy_stage _HAS_RAPIDFUZZ has_rprocess partial_ratio enable_fuzzy q
       thr l mwp).
Proof.
  unfold Store.fuzzy_stage.
  destruct (enable_fuzzy && _HAS_RAPIDFUZZ && negb (PyStr.is_empty q));
    [ | apply read_only_ret ].
  apply read_only_bind; [ | intros; apply read_only_ret ].
  unfold Store.fuzzy_matches, Store.candidate_subset_of, Store.fuzzy_scored.
  apply read_only_bind; [ read_only | intros subset ].
  apply read_only_bind; [ | intros scored; read_only ].
  destruct has_rprocess; [ read_only | apply read_only_scored_each ].
Qed.

Lemma read_only_priority_of best m : Store.read_only (Store._priority_of best m).
Proof. unfold Store._priority_of. read_only. Qed.

Lemma read_only_sort_key sort_by best key :
  Store.sort_key sort_by best = Ok key -> forall x, Store.read_only (key x).
Proof.
  unfold Store.sort_key. intros H x.
  assert (Hr : Store.read_only (Store.key_rating best x)
               /\ Store.read_only (Store.key_box_office best x)
               /\ Store.read_only (Store.key_year best x)
               /\ Store.read_only (Store.key_priority best x)).
  { unfold Store.key_rating, Store.key_box_office, Store.key_year,
      Store.key_priority.
    repeat split;
      repeat first [ apply read_only_priority_of | read_only_step ]. }
  destruct Hr as (H1 & H2 & H3 & H4).
  destruct (truthy sort_by); [ | inv_ok H; exact H4 ].
  inv_bind H.
  repeat match type of H with
         | (if ?b then _ else _) = _ => destruct b
         end; inv_ok H; assumption.
Qed.

Lemma read_only_rank sort_by mwp : Store.read_only (Store.rank sort_by mwp).
Proof.
  unfold Store.rank, Store.dedupe.
  apply read_only_bind.
  - apply read_only_foldM. intros best mp. unfold Store.best_step. read_only.
  - intros best. intros s. unfold Store.bind, Store.lift.
    destruct (Store.sort_key sort_by best) as [key | e] eqn:Hk; [ | reflexivity ].
    apply read_only_sortedM. exact (read_only_sort_key _ _ _ Hk).
Qed.

Lemma read_only_find_matches query_text max_results enable_fuzzy thr genre
  category min_rating year year_from year_to sort_by :
  Store.read_only
    (Store.find_matches _HAS_RAPIDFUZZ has_rprocess partial_ratio query_text
       max_results enable_fuzzy thr genre category min_rating year year_from
       year_to sort_by).
Proof.
  unfold Store.find_matches.
  destruct (sanitized_query query_text) as [q | e]; [ | apply read_only_ret ].
  apply read_only_bind; [ apply read_only_snapshot | intros l0 ].
  apply read_only_bind; [ apply read_only_apply_filters | intros l1 ].
  apply read_only_bind; [ apply read_only_text_matches | intros mwp ].
  apply read_only_bind; [ apply read_only_fuzzy_stage | intros all ].
  apply read_only_bind; [ apply read_only_rank | intros; apply read_only_ret ].
Qed.

End StoreFacts.

(** Not every function is read-only: [ensure_search_fields] on a record
    without a cached search text changes the record. *)
Lemma ensure_search_fields_writes (s : Store.t) (m : Store.ref) :
  Movie._search_text (Store.objects s m) = None ->
  snd (Store.ensure_search_fields m s) <> s.
Proof.
  intros Hnone Heq.
  assert (H : Movie._search_text
                (Store.objects (snd (Store.ensure_search_fields m s)) m)
              = None) by (rewrite Heq; exact Hnone).
  unfold Store.ensure_search_fields, Store.bind, Store.view, Store.update in H.
  simpl in H. rewrite Nat.eqb_refl in H. discriminate.
Qed.

(** ** What the steps of the search return

    A step that only reads returns what the same step computes from the
    records the objects hold. *)

Lemma run_filterM {A : Type} (p : A -> Store.M bool) (q : A -> result bool)
  (l : list A) (s : Store.t) :
  (forall x, p x s = (q x, s)) -> Store.filterM p l s = (filter_r q l, s).
Proof.
  intros Hp. induction l as [| x l IH]; simpl; [ reflexivity | ].
  unfold Store.bind. rewrite Hp. destruct (q x) as [b | e]; simpl; [ | reflexivity ].
  unfold Store.bind in IH. rewrite IH.
  destruct (filter_r q l) as [r | e]; reflexivity.
Qed.

Lemma filter_r_pure {A : Type} (q : A -> bool) (l : list A) :
  filter_r (fun x => Ok (q x)) l = Ok (filter q l).
Proof.
  induction l as [| x l IH]; simpl; [ reflexivity | ].
  rewrite IH. simpl. destruct (q x); reflexivity.
Qed.

Lemma run_filterM_pure {A : Type} (p : A -> Store.M bool) (q : A -> bool)
  (l : list A) (s : Store.t) :
  (forall x, p x s = (Ok (q x), s)) -> Store.filterM p l s = (Ok (filter q l), s).
Proof.
  intros Hp. rewrite (run_filterM p (fun x => Ok (q x)) l s Hp), filter_r_pure.
  reflexivity.
Qed.

Lemma run_mapM {A B : Type} (f : A -> Store.M B) (g : A -> B) (l : list A)
  (s : Store.t) :
  (forall x, f x s = (Ok (g x), s)) -> Store.mapM f l s = (Ok (map g l), s).
Proof.
  intros Hf. induction l as [| x l IH]; simpl; [ reflexivity | ].
  unfold Store.bind. rewrite Hf. unfold Store.bind in IH. rewrite IH. reflexivity.
Qed.

Lemma run_foldM {A B : Type} (f : B -> A -> Store.M B) (g : B -> A -> B)
  (l : list A) (s : Store.t) :
  (forall b x, f b x s = (Ok (g b x), s)) ->
  forall b, Store.foldM f l b s = (Ok (fold_left g l b), s).
Proof.
  intros Hf. induction l as [| x l IH]; intros b; simpl; [ reflexivity | ].
  unfold Store.bind. rewrite Hf. apply IH.
Qed.

Lemma run_sortedM {A : Type} (key : A -> Store.M key3) (k : A -> key3)
  (l : list A) (s : Store.t) :
  (forall x, key x s = (Ok (k x), s)) ->
  Store.sortedM key l s
  = (Ok (map snd (sorted_desc fst (combine (map k l) l))), s).
Proof.
  intros Hk. unfold Store.sortedM, Store.bind.
  rewrite (run_mapM key k l s Hk). reflexivity.
Qed.

(** Sorting the elements by keys computed beforehand is sorting by the
    key, and commutes with a function that the key goes through. *)
Lemma insert_desc_decorated {A B : Type} (f : A -> B) (key : B -> key3) (x : A)
  (l : list (key3 * A)) :
  (forall e, In e l -> fst e = key (f (snd e))) ->
  map (fun e => f (snd e)) (insert_desc fst (key (f x), x) l)
  = insert_desc key (f x) (map (fun e => f (snd e)) l).
Proof.
  induction l as [| [ky y] l IH]; simpl; intros Hl; [ reflexivity | ].
  pose proof (Hl (ky, y) (or_introl eq_refl)) as Hy. simpl in Hy. rewrite <- Hy.
  destruct (key3_ltb (key (f x)) ky); simpl; [ | reflexivity ].
  rewrite IH; [ reflexivity | ].
  intros e He. apply Hl. right; exact He.
Qed.

Lemma sorted_desc_decorated {A B : Type} (f : A -> B) (key : B -> key3)
  (l : list A) :
  map (fun e => f (snd e))
      (sorted_desc fst (combine (map (fun x => key (f x)) l) l))
  = sorted_desc key (map f l)
  /\ forall e,
       In e (sorted_desc fst (combine (map (fun x => key (f x)) l) l)) ->
       fst e = key (f (snd e)).
Proof.
  induction l as [| x l [IH Hinv]]; simpl; [ split; [ reflexivity | tauto ] | ].
  split.
  - rewrite insert_desc_decorated; [ rewrite IH; reflexivity | exact Hinv ].
  - intros e He. apply (Permutation_in _ (insert_desc_perm fst _ _)) in He.
    destruct He as [<- | He]; [ reflexivity | apply Hinv, He ].
Qed.

Lemma sorted_by_keys {A B : Type} (f : A -> B) (key : B -> key3) (l : list A) :
  map f (map snd (sorted_desc fst (combine (map (fun x => key (f x)) l) l)))
  = sorted_desc key (map f l).
Proof.
  rewrite map_map. apply (proj1 (sorted_desc_decorated f key l)).
Qed.

Lemma snd_combine_keys {A K : Type} (k : A -> K) (l : list A) :
  map snd (combine (map k l) l) = l.
Proof.
  induction l as [| x l IH]; simpl; [ reflexivity | rewrite IH; reflexivity ].
Qed.

Lemma sorted_by_keys_perm {A : Type} (k : A -> key3) (l : list A) :
  Permutation (map snd (sorted_desc fst (combine (map k l) l))) l.
Proof.
  eapply perm_trans; [ apply Permutation_map, sorted_desc_perm | ].
  rewrite snd_combine_keys. apply Permutation_refl.
Qed.

Lemma filter_r_contents {A B : Type} (f : A -> B) (p : B -> result bool)
  (l : list A) :
  filter_r p (map f l) = result_map (map f) (filter_r (fun x => p (f x)) l).
Proof.
  induction l as [| x l IH]; simpl; [ reflexivity | ].
  destruct (p (f x)) as [b | e]; simpl; [ | reflexivity ].
  rewrite IH. destruct (filter_r (fun x => p (f x)) l) as [r | e]; simpl;
    [ destruct b; reflexivity | reflexivity ].
Qed.

Lemma filter_r_incl {A : Type} (p : A -> result bool) (l r : list A) :
  filter_r p l = Ok r -> incl r l.
Proof.
  intros H x Hx. apply (filter_r_in p l r H). exact Hx.
Qed.

Lemma cap_contents {A B : Type} (f : A -> B) (max_results : option Z) (l : list A) :
  cap max_results (map f l) = map f (cap max_results l).
Proof.
  unfold cap, slice_to. rewrite length_map.
  destruct max_results as [n |]; [ | reflexivity ].
  destruct (n =? 0); [ reflexivity | ].
  destruct (0 <=? n); apply firstn_map.
Qed.

Section StoreSteps.
Variable s : Store.t.

(** A step on the store: it leaves the store alone, returns the records
    [P] behind what it returns, and returns only objects of [l]. *)
Lemma run_filter_genre genre l :
  exists R,
    Store.filter_genre genre l s = (R, s)
    /\ filter_genre genre (Store.contents s l) = result_map (Store.contents s) R
    /\ forall r, R = Ok r -> incl r l.
Proof.
  unfold Store.filter_genre, filter_genre.
  destruct (truthy genre); [ | exists (Ok l); repeat split; congruence ].
  unfold Store.bind, Store.lift.
  destruct (py_lower genre) as [gl | e]; simpl;
    [ | exists (Raise e); repeat split; discriminate ].
  eexists. split; [ apply run_filterM_pure; intros x; reflexivity | ].
  split.
  - simpl. unfold Store.contents. rewrite filter_map_swap. reflexivity.
  - intros r Hr. inv_ok Hr. intros x Hx. apply filter_In in Hx. tauto.
Qed.

Lemma run_filter_category category l :
  exists R,
    Store.filter_category category l s = (R, s)
    /\ filter_category category (Store.contents s l)
       = result_map (Store.contents s) R
    /\ forall r, R = Ok r -> incl r l.
Proof.
  unfold Store.filter_category, filter_category.
  destruct (truthy category); [ | exists (Ok l); repeat split; congruence ].
  unfold Store.bind, Store.lift.
  destruct (py_lower category) as [gl | e]; simpl;
    [ | exists (Raise e); repeat split; discriminate ].
  eexists. split; [ apply run_filterM_pure; intros x; reflexivity | ].
  split.
  - simpl. unfold Store.contents. rewrite filter_map_swap. reflexivity.
  - intros r Hr. inv_ok Hr. intros x Hx. apply filter_In in Hx. tauto.
Qed.

Lemma run_filter_numeric (p : Movie.t -> result bool) l :
  exists R,
    Store.filterM (fun m => Store.bind (Store.view m) (fun x => Store.lift (p x)))
      l s = (R, s)
    /\ filter_r p (Store.contents s l) = result_map (Store.contents s) R
    /\ forall r, R = Ok r -> incl r l.
Proof.
  eexists. split; [ apply run_filterM; intros x; reflexivity | ].
  split.
  - unfold Store.contents. apply filter_r_contents.
  - intros r Hr. eapply filter_r_incl, Hr.
Qed.

Lemma run_filter_min_rating min_rating l :
  exists R,
    Store.filter_min_rating min_rating l s = (R, s)
    /\ filter_min_rating min_rating (Store.contents s l)
       = result_map (Store.contents s) R
    /\ forall r, R = Ok r -> incl r l.
Proof.
  unfold Store.filter_min_rating, filter_min_rating.
  destruct (is_not_None min_rating); [ | exists (Ok l); repeat split; congruence ].
  apply (run_filter_numeric (fun x => py_ge (Movie.rating x) min_rating)).
Qed.

Lemma run_filter_year year l :
  exists R,
    Store.filter_year year l s = (R, s)
    /\ filter_year year (Store.contents s l) = result_map (Store.contents s) R
    /\ forall r, R = Ok r -> incl r l.
Proof.
  unfold Store.filter_year, filter_year.
  destruct (is_not_None year); [ | exists (Ok l); repeat split; congruence ].
  eexists. split; [ apply run_filterM_pure; intros x; reflexivity | ].
  split.
  - simpl. unfold Store.contents. rewrite filter_map_swap. reflexivity.
  - intros r Hr. inv_ok Hr. intros x Hx. apply filter_In in Hx. tauto.
Qed.

Lemma run_filter_year_from year_from l :
  exists R,
    Store.filter_year_from year_from l s = (R, s)
    /\ filter_year_from year_from (Store.contents s l)
       = result_map (Store.contents s) R
    /\ forall r, R = Ok r -> incl r l.
Proof.
  unfold Store.filter_year_from, filter_year_from.
  destruct (is_not_None year_from); [ | exists (Ok l); repeat split; congruence ].
  apply (run_filter_numeric (fun x => py_ge (inject_Z (Movie.year x)) year_from)).
Qed.

Lemma run_filter_year_to year_to l :
  exists R,
    Store.filter_year_to year_to l s = (R, s)
    /\ filter_year_to year_to (Store.contents s l)
       = result_map (Store.contents s) R
    /\ forall r, R = Ok r -> incl r l.
Proof.
  unfold Store.filter_year_to, filter_year_to.
  destruct (is_not_None year_to); [ | exists (Ok l); repeat split; congruence ].
  apply (run_filter_numeric (fun x => py_le (inject_Z (Movie.year x)) year_to)).
Qed.

(** Two steps in a row. *)
Lemma run_bind {A B A' B' : Type} (va : A -> A') (vb : B -> B')
  (c : Store.M A) (k : A -> Store.M B) (pc : result A') (pk : A' -> result B')
  (good_a : A -> Prop) (good_b : B -> Prop) :
  (exists R, c s = (R, s) /\ pc = result_map va R
             /\ forall a, R = Ok a -> good_a a) ->
  (forall a, good_a a ->
     exists R, k a s = (R, s) /\ pk (va a) = result_map vb R
               /\ forall b, R = Ok b -> good_b b) ->
  exists R,
    Store.bind c k s = (R, s)
    /\ bind pc pk = result_map vb R
    /\ forall b, R = Ok b -> good_b b.
Proof.
  intros (R & Hc & Hp & Hg) Hk. unfold Store.bind. rewrite Hc, Hp.
  destruct R as [a | e]; simpl.
  - apply Hk, Hg. reflexivity.
  - exists (Raise e). repeat split; discriminate.
Qed.

Lemma run_apply_filters genre category min_rating year year_from year_to l :
  exists R,
    Store.apply_filters genre category min_rating year year_from year_to l s
    = (R, s)
    /\ apply_filters genre category min_rating year year_from year_to
         (Store.contents s l)
       = result_map (Store.contents s) R
    /\ forall r, R = Ok r -> incl r l.
Proof.
  unfold Store.apply_filters, apply_filters, genre_category_filters.
  assert (Hassoc : forall (r : result (list Movie.t))
                     (k1 k2 : list Movie.t -> result (list Movie.t)),
             bind (bind r k1) k2 = bind r (fun x => bind (k1 x) k2))
    by (intros [x | e] k1 k2; reflexivity).
  rewrite Hassoc.
  apply (run_bind (Store.contents s) (Store.contents s) _ _ _ _
           (fun a => incl a l) (fun r => incl r l));
    [ apply run_filter_genre | intros l1 H1 ].
  apply (run_bind (Store.contents s) (Store.contents s) _ _ _ _
           (fun a => incl a l) (fun r => incl r l)).
  { destruct (run_filter_category category l1) as (R & Hr & Hp & Hi).
    exists R. split; [ exact Hr | split; [ exact Hp | ] ].
    intros a Ha. eapply incl_tran; [ apply Hi, Ha | exact H1 ]. }
  intros l2 H2.
  apply (run_bind (Store.contents s) (Store.contents s) _ _ _ _
           (fun a => incl a l) (fun r => incl r l)).
  { destruct (run_filter_min_rating min_rating l2) as (R & Hr & Hp & Hi).
    exists R. split; [ exact Hr | split; [ exact Hp | ] ].
    intros a Ha. eapply incl_tran; [ apply Hi, Ha | exact H2 ]. }
  intros l3 H3.
  apply (run_bind (Store.contents s) (Store.contents s) _ _ _ _
           (fun a => incl a l) (fun r => incl r l)).
  { destruct (run_filter_year year l3) as (R & Hr & Hp & Hi).
    exists R. split; [ exact Hr | split; [ exact Hp | ] ].
    intros a Ha. eapply incl_tran; [ apply Hi, Ha | exact H3 ]. }
  intros l4 H4.
  apply (run_bind (Store.contents s) (Store.contents s) _ _ _ _
           (fun a => incl a l) (fun r => incl r l)).
  { destruct (run_filter_year_from year_from l4) as (R & Hr & Hp & Hi).
    exists R. split; [ exact Hr | split; [ exact Hp | ] ].
    intros a Ha. eapply incl_tran; [ apply Hi, Ha | exact H4 ]. }
  intros l5 H5.
  destruct (run_filter_year_to year_to l5) as (R & Hr & Hp & Hi).
  exists R. split; [ exact Hr | split; [ exact Hp | ] ].
  intros a Ha. eapply incl_tran; [ apply Hi, Ha | exact H5 ].
Qed.

Lemma run_tier_matches tokens l :
  exists r,
    Store.tier_matches tokens l s = (Ok r, s)
    /\ tier_matches tokens (Store.contents s l) = Store.contents_pairs s r
    /\ forall m p, In (m, p) r -> In m l.
Proof.
  induction l as [| m l (r & Hr & Hp & Hi)]; simpl.
  - exists []. repeat split. intros m p [].
  - unfold Store.bind, Store.view. rewrite Hr. unfold Store.ret.
    fold (Store.contents s l). rewrite Hp.
    destruct (tier_of tokens (Store.objects s m)) as [p0 |]; eexists;
      (split; [ reflexivity | split; [ reflexivity | ] ]).
    + intros m' p' [H | H]; [ inversion H; left; reflexivity | right; eauto ].
    + intros m' p' H. right; eauto.
Qed.

Lemma run_text_matches q_lower present l :
  exists R,
    Store.text_matches q_lower present l s = (R, s)
    /\ text_matches q_lower present (Store.contents s l)
       = result_map (Store.contents_pairs s) R
    /\ forall r, R = Ok r -> forall m p, In (m, p) r -> In m l.
Proof.
  unfold Store.text_matches, text_matches.
  destruct (PyStr.is_empty q_lower && present).
  - eexists. split; [ reflexivity | split ].
    + simpl. unfold Store.contents, Store.contents_pairs. rewrite !map_map.
      reflexivity.
    + intros r Hr m p Hin. inv_ok Hr. apply in_map_iff in Hin.
      destruct Hin as (m' & He & Hm). inversion He; subst. exact Hm.
  - destruct (PyStr.isdigit q_lower).
    + unfold Store.bind at 1. unfold Store.lift.
      destruct (PyStr.int q_lower) as [y | e]; simpl;
        [ | exists (Raise e); repeat split; discriminate ].
      unfold Store.bind.
      rewrite (run_filterM_pure _ (fun m => Movie.year (Store.objects s m) =? y) l s)
        by (intros x; reflexivity).
      eexists. split; [ reflexivity | split ].
      * simpl. unfold Store.contents, Store.contents_pairs.
        rewrite filter_map_swap, !map_map. reflexivity.
      * intros r Hr m p Hin. inv_ok Hr. apply in_map_iff in Hin.
        destruct Hin as (m' & He & Hm). inversion He; subst.
        apply filter_In in Hm. tauto.
    + destruct (run_tier_matches (query_tokens q_lower) l) as (r & Hr & Hp & Hi).
      exists (Ok r). split; [ exact Hr | split; [ rewrite Hp; reflexivity | ] ].
      intros r' Hr' m p Hin. inv_ok Hr'. eapply Hi, Hin.
Qed.

Variable _HAS_RAPIDFUZZ : bool.
Variable has_rprocess : bool.
Variable partial_ratio : string -> string -> option Q.

Lemma run_candidate_subset_of l mwp :
  exists subset,
    Store.candidate_subset_of l mwp s = (Ok subset, s)
    /\ candidate_subset_of (Store.contents s l) (Store.contents_pairs s mwp)
       = Store.contents s subset
    /\ incl subset l.
Proof.
  unfold Store.candidate_subset_of, Store.bind.
  rewrite (run_mapM _ (fun mp => ident_of (Store.objects s (fst mp))) mwp s)
    by (intros x; reflexivity).
  set (existing_keys := map (fun mp => ident_of (Store.objects s (fst mp))) mwp).
  rewrite (run_filterM_pure _
             (fun m => negb (existsb (ident_eqb (ident_of (Store.objects s m)))
                               existing_keys)) l s)
    by (intros x; reflexivity).
  set (candidates := filter _ l).
  rewrite (run_sortedM _
             (fun m => key2 (Movie.rating (Store.objects s m))
                            (Movie.box_office_millions (Store.objects s m)))
             candidates s)
    by (intros x; reflexivity).
  eexists. split; [ reflexivity | split ].
  - unfold candidate_subset_of, Store.contents, Store.contents_pairs.
    rewrite map_map. cbn [fst snd]. fold existing_keys.
    rewrite filter_map_swap. fold candidates.
    rewrite <- firstn_map. f_equal.
    symmetry.
    apply (sorted_by_keys (Store.objects s)
             (fun x => key2 (Movie.rating x) (Movie.box_office_millions x))).
  - intros m Hm. apply firstn_in in Hm.
    apply (Permutation_in _ (sorted_by_keys_perm _ candidates)) in Hm.
    unfold candidates in Hm. apply filter_In in Hm. tauto.
Qed.

Lemma run_scored_of_results thr subset results :
  scored_of_results thr (Store.contents s subset) results
  = result_map (Store.contents_scored s)
      (Store.scored_of_results thr subset results)
  /\ forall r, Store.scored_of_results thr subset results = Ok r ->
       forall sc m, In (sc, m) r -> In m subset.
Proof.
  induction results as [| [[c score] idx] rs [IH Hin]]; simpl.
  - split; [ reflexivity | ]. intros r Hr sc m H. inv_ok Hr. destruct H.
  - destruct (threshold_reached thr score); [ | split; assumption ].
    unfold Store.contents at 1. rewrite nth_error_map.
    destruct (nth_error subset idx) as [m0 |] eqn:En; simpl;
      [ | split; [ reflexivity | discriminate ] ].
    fold (Store.contents s subset). rewrite IH.
    destruct (Store.scored_of_results thr subset rs) as [r0 | e]; simpl.
    + split; [ reflexivity | ].
      intros r Hr sc m H. inv_ok Hr. destruct H as [H | H].
      * inversion H; subst. eapply nth_error_In, En.
      * eapply Hin; [ reflexivity | exact H ].
    + split; [ reflexivity | discriminate ].
Qed.

Lemma run_scored_each q_lower thr subset :
  exists r,
    Store.scored_each partial_ratio q_lower thr subset s = (Ok r, s)
    /\ scored_each partial_ratio q_lower thr (Store.contents s subset)
       = Store.contents_scored s r
    /\ forall sc m, In (sc, m) r -> In m subset.
Proof.
  induction subset as [| m l (r & Hr & Hp & Hi)]; simpl.
  - exists []. repeat split. intros sc m [].
  - unfold Store.bind, Store.view. rewrite Hr. unfold Store.ret.
    fold (Store.contents s l). rewrite Hp.
    destruct (threshold_reached thr _); eexists;
      (split; [ reflexivity | split; [ reflexivity | ] ]).
    + intros sc m' [H | H]; [ inversion H; left; reflexivity | right; eauto ].
    + intros sc m' H. right; eauto.
Qed.

Lemma run_fuzzy_scored q_lower thr subset :
  exists R,
    Store.fuzzy_scored has_rprocess partial_ratio q_lower thr subset s = (R, s)
    /\ fuzzy_scored has_rprocess partial_ratio q_lower thr (Store.contents s subset)
       = result_map (Store.contents_scored s) R
    /\ forall r, R = Ok r -> forall sc m, In (sc, m) r -> In m subset.
Proof.
  unfold Store.fuzzy_scored, fuzzy_scored. destruct has_rprocess.
  - unfold Store.bind.
    rewrite (run_mapM _ (fun m => search_text (Store.objects s m)) subset s)
      by (intros x; reflexivity).
    unfold Store.lift. eexists. split; [ reflexivity | ].
    replace (map search_text (Store.contents s subset))
      with (map (fun m => search_text (Store.objects s m)) subset)
      by (unfold Store.contents; rewrite map_map; reflexivity).
    apply run_scored_of_results.
  - destruct (run_scored_each q_lower thr subset) as (r & Hr & Hp & Hi).
    exists (Ok r). split; [ exact Hr | split; [ rewrite Hp; reflexivity | ] ].
    intros r' Hr' sc m Hin. inv_ok Hr'. eapply Hi, Hin.
Qed.

Lemma run_fuzzy_matches q_lower thr l mwp :
  exists R,
    Store.fuzzy_matches has_rprocess partial_ratio q_lower thr l mwp s = (R, s)
    /\ fuzzy_matches has_rprocess partial_ratio q_lower thr (Store.contents s l)
         (Store.contents_pairs s mwp)
       = result_map (Store.contents_pairs s) R
    /\ forall r, R = Ok r -> forall m p, In (m, p) r -> In m l.
Proof.
  unfold Store.fuzzy_matches, fuzzy_matches.
  destruct (run_candidate_subset_of l mwp) as (subset & Hs & Hps & His).
  unfold Store.bind at 1. rewrite Hs, Hps.
  destruct (run_fuzzy_scored q_lower thr subset) as (R & Hr & Hp & Hi).
  unfold Store.bind at 1. rewrite Hr, Hp.
  destruct R as [scored | e]; simpl;
    [ | exists (Raise e); repeat split; discriminate ].
  unfold Store.bind.
  rewrite (run_sortedM _
             (fun sm => (fst sm, Movie.rating (Store.objects s (snd sm)),
                         Movie.box_office_millions (Store.objects s (snd sm))))
             scored s)
    by (intros x; reflexivity).
  eexists. split; [ reflexivity | split ].
  - simpl. f_equal. unfold Store.contents_scored, Store.contents_pairs.
    rewrite <- (sorted_by_keys (fun sm => (fst sm, Store.objects s (snd sm)))
                  (fun x => (fst x, Movie.rating (snd x),
                             Movie.box_office_millions (snd x))) scored).
    rewrite !map_map. reflexivity.
  - intros r Hr' m p Hin. inv_ok Hr'. apply in_map_iff in Hin.
    destruct Hin as ([sc m'] & He & Hin). inversion He; subst.
    apply in_map_iff in Hin. destruct Hin as ([k0 [sc' m'']] & He' & Hin).
    simpl in He'. inversion He'; subst.
    apply (in_map snd) in Hin.
    apply (Permutation_in _ (sorted_by_keys_perm _ scored)) in Hin.
    simpl in Hin. apply His. eapply (Hi scored eq_refl), Hin.
Qed.

Lemma run_fuzzy_stage enable_fuzzy q_lower thr l mwp :
  (forall m p, In (m, p) mwp -> In m l) ->
  exists R,
    Store.fuzzy_stage _HAS_RAPIDFUZZ has_rprocess partial_ratio enable_fuzzy
      q_lower thr l mwp s = (R, s)
    /\ fuzzy_stage _HAS_RAPIDFUZZ has_rprocess partial_ratio enable_fuzzy q_lower
         thr (Store.contents s l) (Store.contents_pairs s mwp)
       = result_map (Store.contents_pairs s) R
    /\ forall r, R = Ok r -> forall m p, In (m, p) r -> In m l.
Proof.
  intros Hm. unfold Store.fuzzy_stage, fuzzy_stage.
  destruct (enable_fuzzy && _HAS_RAPIDFUZZ && negb (PyStr.is_empty q_lower)).
  - destruct (run_fuzzy_matches q_lower thr l mwp) as (R & Hr & Hp & Hi).
    unfold Store.bind. rewrite Hr, Hp.
    destruct R as [extra | e]; simpl;
      [ | exists (Raise e); repeat split; discriminate ].
    eexists. split; [ reflexivity | split ].
    + simpl. unfold Store.contents_pairs. rewrite map_app. reflexivity.
    + intros r Hr' m p Hin. inv_ok Hr'. apply in_app_or in Hin.
      destruct Hin as [Hin | Hin]; [ eapply Hm, Hin | eapply (Hi extra eq_refl), Hin ].
  - exists (Ok mwp). split; [ reflexivity | split; [ reflexivity | ] ].
    intros r Hr m p Hin. inv_ok Hr. eapply Hm, Hin.
Qed.

(** The dict [best] of the deduplication loop. *)
Lemma get_contents_dict (best : PyDict.t (Z * Store.ref)) (k : ident) :
  PyDict.get (Store.contents_dict s best) k
  = option_map (fun v => (fst v, Store.objects s (snd v))) (PyDict.get best k).
Proof.
  induction best as [| [k' v] best IH]; simpl; [ reflexivity | ].
  destruct (ident_eqb k k'); [ reflexivity | exact IH ].
Qed.

Lemma set_contents_dict (best : PyDict.t (Z * Store.ref)) (k : ident) (p : Z)
  (m : Store.ref) :
  PyDict.set (Store.contents_dict s best) k (p, Store.objects s m)
  = Store.contents_dict s (PyDict.set best k (p, m)).
Proof.
  induction best as [| [k' v] best IH]; simpl; [ reflexivity | ].
  destruct (ident_eqb k k'); simpl; [ reflexivity | rewrite IH; reflexivity ].
Qed.

Lemma set_values_in {V : Type} (d : PyDict.t V) (k : ident) (v v' : V) :
  In v' (PyDict.values (PyDict.set d k v)) -> v' = v \/ In v' (PyDict.values d).
Proof.
  unfold PyDict.values. induction d as [| [k0 v0] d IH]; simpl.
  - intros [H | []]. left. symmetry. exact H.
  - destruct (ident_eqb k k0); simpl.
    + intros [H | H]; [ left; symmetry; exact H | right; right; exact H ].
    + intros [H | H]; [ right; left; exact H | ].
      destruct (IH H) as [H' | H']; [ left; exact H' | right; right; exact H' ].
Qed.

Lemma run_dedupe mwp :
  exists best,
    Store.dedupe mwp s = (Ok best, s)
    /\ dedupe (Store.contents_pairs s mwp) = Store.contents_dict s best
    /\ forall v, In v (PyDict.values best) -> In (snd v) (map fst mwp).
Proof.
  unfold Store.dedupe, dedupe.
  set (step := fun (best : PyDict.t (Z * Store.ref)) (mp : Store.ref * Z) =>
                 match PyDict.get best (ident_of (Store.objects s (fst mp))) with
                 | None =>
                     PyDict.set best (ident_of (Store.objects s (fst mp)))
                       (snd mp, fst mp)
                 | Some (p0, _) =>
                     if p0 <? snd mp
                     then PyDict.set best (ident_of (Store.objects s (fst mp)))
                            (snd mp, fst mp)
                     else best
                 end).
  rewrite (run_foldM Store.best_step step mwp s) by (intros b x; reflexivity).
  eexists. split; [ reflexivity | ].
  assert (Hstep : forall best mp,
             Store.contents_dict s (step best mp)
             = best_step (Store.contents_dict s best)
                 (Store.objects s (fst mp), snd mp)).
  { intros best [m p]. unfold step, best_step. simpl.
    rewrite get_contents_dict.
    destruct (PyDict.get best (ident_of (Store.objects s m))) as [[p0 m0] |]; simpl.
    - destruct (p0 <? p); [ symmetry; apply set_contents_dict | reflexivity ].
    - symmetry. apply set_contents_dict. }
  assert (Hin : forall best mp v,
             In v (PyDict.values (step best mp)) ->
             v = (snd mp, fst mp) \/ In v (PyDict.values best)).
  { intros best mp v. unfold step.
    destruct (PyDict.get best _) as [[p0 m0] |];
      [ destruct (p0 <? snd mp) | ]; try apply set_values_in.
    intros H. right; exact H. }
  change (@nil (ident * (Z * Movie.t))) with (Store.contents_dict s []).
  assert (Hnil : forall v, In v (PyDict.values (@nil (ident * (Z * Store.ref)))) ->
                           In (snd v) (map fst mwp)) by (intros v []).
  revert Hnil. generalize (@nil (ident * (Z * Store.ref))) as best.
  assert (Hgen : forall l best,
             (forall v, In v (PyDict.values best) -> In (snd v) (map fst mwp)) ->
             incl l mwp ->
             fold_left best_step (Store.contents_pairs s l)
               (Store.contents_dict s best)
             = Store.contents_dict s (fold_left step l best)
             /\ forall v, In v (PyDict.values (fold_left step l best)) ->
                          In (snd v) (map fst mwp)).
  { induction l as [| mp l IH]; intros best Hb Hl; [ split; auto | ].
    unfold Store.contents_pairs. cbn [map fold_left].
    fold (Store.contents_pairs s l). rewrite <- Hstep. apply IH.
    - intros v Hv. destruct (Hin _ _ _ Hv) as [-> | Hv']; [ | apply Hb, Hv' ].
      simpl. apply in_map, Hl. left; reflexivity.
    - intros x Hx. apply Hl. right; exact Hx. }
  intros best Hb. apply Hgen; [ exact Hb | apply incl_refl ].
Qed.

Lemma run_priority_of best x :
  Store._priority_of best x s
  = (Ok (_priority_of (Store.contents_dict s best) (Store.objects s x)), s).
Proof.
  unfold Store._priority_of, Store.key_of, Store.bind, Store.view, Store.ret,
    _priority_of.
  rewrite get_contents_dict.
  destruct (PyDict.get best (ident_of (Store.objects s x))) as [[p m] |];
    reflexivity.
Qed.

Lemma run_sort_key sort_by best :
  match Store.sort_key sort_by best with
  | Ok key =>
      exists kp,
        sort_key sort_by (Store.contents_dict s best) = Ok kp
        /\ forall x, key x s = (Ok (kp (Store.objects s x)), s)
  | Raise e => sort_key sort_by (Store.contents_dict s best) = Raise e
  end.
Proof.
  assert (H1 : forall x, Store.key_rating best x s
                         = (Ok (key_rating (Store.contents_dict s best)
                                  (Store.objects s x)), s)).
  { intros x. unfold Store.key_rating, Store.bind, Store.view.
    rewrite run_priority_of. reflexivity. }
  assert (H2 : forall x, Store.key_box_office best x s
                         = (Ok (key_box_office (Store.contents_dict s best)
                                  (Store.objects s x)), s)).
  { intros x. unfold Store.key_box_office, Store.bind, Store.view.
    rewrite run_priority_of. reflexivity. }
  assert (H3 : forall x, Store.key_year best x s
                         = (Ok (key_year (Store.contents_dict s best)
                                  (Store.objects s x)), s)).
  { intros x. unfold Store.key_year, Store.bind, Store.view.
    rewrite run_priority_of. reflexivity. }
  assert (H4 : forall x, Store.key_priority best x s
                         = (Ok (key_priority (Store.contents_dict s best)
                                  (Store.objects s x)), s)).
  { intros x. unfold Store.key_priority, Store.bind.
    rewrite run_priority_of. reflexivity. }
  unfold Store.sort_key, sort_key.
  destruct (truthy sort_by); [ | eauto ].
  destruct (py_lower sort_by) as [sb | e]; simpl; [ | reflexivity ].
  destruct (String.eqb sb "rating"); [ eauto | ].
  destruct (String.eqb sb "box_office" || String.eqb sb "box_office_millions");
    [ eauto | ].
  destruct (String.eqb sb "year"); eauto.
Qed.

Lemma run_rank sort_by mwp :
  exists R,
    Store.rank sort_by mwp s = (R, s)
    /\ rank sort_by (Store.contents_pairs s mwp) = result_map (Store.contents s) R
    /\ forall r, R = Ok r -> incl r (map fst mwp).
Proof.
  unfold Store.rank, rank.
  destruct (run_dedupe mwp) as (best & Hb & Hp & Hi).
  unfold Store.bind at 1. rewrite Hb, Hp.
  unfold Store.bind, Store.lift.
  pose proof (run_sort_key sort_by best) as Hk.
  destruct (Store.sort_key sort_by best) as [key | e].
  - destruct Hk as (kp & Hkp & Hrun). rewrite Hkp. cbn [bind].
    rewrite (run_sortedM key (fun x => kp (Store.objects s x)) _ s Hrun).
    eexists. split; [ reflexivity | split ].
    + cbn [result_map]. f_equal. unfold Store.contents.
      rewrite (sorted_by_keys (Store.objects s) kp). f_equal.
      unfold Store.contents_dict, PyDict.values. rewrite !map_map. reflexivity.
    + intros r Hr m Hm. inv_ok Hr.
      apply (Permutation_in _ (sorted_by_keys_perm _ _)) in Hm.
      apply in_map_iff in Hm. destruct Hm as (v & <- & Hv). apply Hi, Hv.
  - rewrite Hk. exists (Raise e). repeat split; discriminate.
Qed.

(** The whole search. *)
Lemma run_find_matches query_text max_results enable_fuzzy thr genre category
  min_rating year year_from year_to sort_by :
  exists R,
    Store.find_matches _HAS_RAPIDFUZZ has_rprocess partial_ratio query_text
      max_results enable_fuzzy thr genre category min_rating year year_from
      year_to sort_by s = (R, s)
    /\ find_matches_on _HAS_RAPIDFUZZ has_rprocess partial_ratio
         (Store.contents s (Store.movies s)) query_text max_results enable_fuzzy
         thr genre category min_rating year year_from year_to sort_by
       = result_map (Store.contents s) R
    /\ forall r, R = Ok r -> incl r (Store.movies s).
Proof.
  unfold Store.find_matches, find_matches_on, search, collect.
  fold (sanitized_query query_text).
  destruct (sanitized_query query_text) as [q | e];
    [ | exists (Ok []); repeat split; intros r Hr; inv_ok Hr; apply incl_nil_l ].
  set (q_lower := if PyStr.is_empty q then "" else PyStr.lower q).
  set (present := filters_present genre category min_rating year year_from year_to).
  unfold Store.bind at 1. unfold Store.snapshot.
  destruct (run_apply_filters genre category min_rating year year_from year_to
              (Store.movies s)) as (R1 & Hr1 & Hp1 & Hi1).
  unfold Store.bind at 1. rewrite Hr1, Hp1.
  destruct R1 as [l1 | e]; cbn [result_map bind];
    [ | exists (Raise e); repeat split; discriminate ].
  specialize (Hi1 l1 eq_refl).
  destruct (run_text_matches q_lower present l1) as (R2 & Hr2 & Hp2 & Hi2).
  unfold Store.bind at 1. rewrite Hr2, Hp2.
  destruct R2 as [mwp | e]; cbn [result_map bind];
    [ | exists (Raise e); repeat split; discriminate ].
  specialize (Hi2 mwp eq_refl).
  destruct (run_fuzzy_stage enable_fuzzy q_lower thr l1 mwp Hi2)
    as (R3 & Hr3 & Hp3 & Hi3).
  unfold Store.bind at 1. rewrite Hr3, Hp3.
  destruct R3 as [all | e]; cbn [result_map bind];
    [ | exists (Raise e); repeat split; discriminate ].
  specialize (Hi3 all eq_refl).
  destruct (run_rank sort_by all) as (R4 & Hr4 & Hp4 & Hi4).
  unfold Store.bind. rewrite Hr4, Hp4.
  destruct R4 as [ordered | e]; cbn [result_map bind];
    [ | exists (Raise e); repeat split; discriminate ].
  specialize (Hi4 ordered eq_refl).
  eexists. split; [ reflexivity | split ].
  - cbn [result_map]. f_equal. unfold Store.contents. apply cap_contents.
  - intros r Hr m Hm. inv_ok Hr. apply cap_in in Hm. apply Hi1.
    apply Hi4 in Hm. apply in_map_iff in Hm. destruct Hm as ([m' p] & <- & Hm).
    eapply Hi3, Hm.
Qed.

End StoreSteps.

(** Nor is the list fixed: [add_movie] of an object with a new key appends
    it to [movies]. *)
Lemma add_movie_appends (s : Store.t) (m : Store.ref) :
  Movie.name (Store.objects s m) <> "" ->
  existsb (ident_eqb (lower_ident (Store.objects s m)))
    (map (fun r => lower_ident (Store.objects s r)) (Store.movies s)) = false ->
  fst (Store.add_movie m s) = Ok true
  /\ Store.movies (snd (Store.add_movie m s)) = (Store.movies s ++ [m])%list.
Proof.
  intros Hname Hnew.
  assert (Hrun : Store.add_movie m s
                 = (Ok true,
                    snd (Store.ensure_search_fields m
                           (Store.mk (Store.objects s)
                                     (Store.movies s ++ [m])%list)))).
  { unfold Store.add_movie, Store.bind, Store.view, Store.snapshot.
    cbv beta iota.
    destruct (Movie.name (Store.objects s m)) as [| c n] eqn:En; [ congruence | ].
    cbn [PyStr.is_empty].
    rewrite (run_mapM _ (fun r => lower_ident (Store.objects s r))
               (Store.movies s) s) by (intros x; reflexivity).
    unfold lower_ident in *. rewrite Hnew. reflexivity. }
  rewrite Hrun. split; reflexivity.
Qed.

(** C9: a search leaves the store as it found it, whether it returns or
    raises: the list [movies] holds the same objects in the same order,
    and every object has the fields it had.  What it returns are objects
    of the collection, and the records they hold are the records that
    [find_matches_on] computes from the records of the collection. *)
Theorem find_matches_frame (_HAS_RAPIDFUZZ has_rprocess : bool)
  (partial_ratio : string -> string -> option Q) (s : Store.t) query_text
  max_results enable_fuzzy thr genre category min_rating year year_from year_to
  sort_by :
  snd (Store.find_matches _HAS_RAPIDFUZZ has_rprocess partial_ratio query_text
         max_results enable_fuzzy thr genre category min_rating year year_from
         year_to sort_by s) = s
  /\ find_matches_on _HAS_RAPIDFUZZ has_rprocess partial_ratio
       (Store.contents s (Store.movies s)) query_text max_results enable_fuzzy
       thr genre category min_rating year year_from year_to sort_by
     = result_map (Store.contents s)
         (fst (Store.find_matches _HAS_RAPIDFUZZ has_rprocess partial_ratio
                 query_text max_results enable_fuzzy thr genre category
                 min_rating year year_from year_to sort_by s))
  /\ forall res m,
       fst (Store.find_matches _HAS_RAPIDFUZZ has_rprocess partial_ratio
              query_text max_results enable_fuzzy thr genre category min_rating
              year year_from year_to sort_by s) = Ok res ->
       In m res -> In m (Store.movies s).
Proof.
  split; [ apply read_only_find_matches | ].
  destruct (run_find_matches s _HAS_RAPIDFUZZ has_rprocess partial_ratio
              query_text max_results enable_fuzzy thr genre category min_rating
              year year_from year_to sort_by) as (R & Hr & Hp & Hi).
  rewrite Hr. simpl. split; [ exact Hp | ].
  intros res m Hres Hm. exact (Hi res Hres m Hm).
Qed.

Lemma find_matches_frame_witness :
  In 2%nat (Store.movies Sample2.store)
  /\ Store.contents Sample2.store [2; 1]%nat = [Sample.coco; Sample.toy_story].
Proof.
  split; [ | reflexivity ].
  apply (proj2 (proj2 (find_matches_frame true true Sample.substring_scorer
                         Sample2.store (PyStr "a") (Some 2) true
                         DEFAULT_FUZZY_THRESHOLD PyNone PyNone PyNone PyNone
                         PyNone PyNone PyNone))
           [2; 1]%nat 2%nat).
  - vm_compute. reflexivity.
  - left. reflexivity.
Defined.
